(** * RCAT statistics runtime ([rcat/runtime/RCAT_stats.py])

    A shallow embedding of the statistic execution engine: the configuration
    resolver ([default_stats_config], [mod_stats_config]), the frequency
    parser ([_get_freq]), the statistic functions [moments], [diurnal_cycle],
    [dcycle_harmonic_fit], [freq_int_dist] and [filtering], and the per-pixel
    kernels [_percentile_func], [_harmonic_linefit] and [_pdf_calc].

    Conventions of the embedding.
    - A Python value is a [pyval]; a [dict] is an association list in
      insertion order, as CPython keeps it.
    - A Python call is a computation in the monad [M]: it prints lines on
      standard output and either returns or raises an [exn].
    - A [float64] is a primitive [float] (IEEE 754 binary64, one NaN);
      a Python [int] is a [Z].
    - numpy, scipy and the sibling module [rcat.stats.convolve] are not part
      of this file of the repository.  Their elementary array functions are
      written out; the ones that cannot be ([scipy.optimize.curve_fit],
      [numpy.cos], [numpy.nanpercentile], the Lanczos weights, Python's
      [eval]) are the fields of the class [Externals].
    - An xarray result is a term [xr]: xarray and dask build it without
      evaluating it, and so do the statistic functions here.  Time stamps
      are nanoseconds since the epoch, and the non-time axes of a variable
      are flattened to a list of pixels.
    - [np.int] is the builtin [int], as in the numpy the file was written
      for.  Strings are ASCII; masked arrays are not modelled. *)

From Stdlib Require Import ZArith List String Ascii Bool Floats Lia.
From Stdlib Require Import DecimalString.
Import ListNotations.

Set Warnings "-register-all".

Local Open Scope string_scope.
Local Open Scope Z_scope.

(* ================================================================== *)
(** * Python values, exceptions and the call monad *)

Inductive exn : Type :=
| KeyError | TypeError | ValueError | IndexError | AssertionError
| UnboundLocalError | SyntaxError | AttributeError | ZeroDivisionError
| OverflowError | RuntimeError | SystemExit.

Inductive pyval : Type :=
| PNone
| PBool (b : bool)
| PInt (z : Z)
| PFloat (f : float)
| PStr (s : string)
| PList (l : list pyval)
| PDict (d : list (string * pyval)).

Definition dict := list (string * pyval).

Inductive res (A : Type) : Type :=
| Ok (a : A)
| Raise (e : exn).
Arguments Ok {A} a.
Arguments Raise {A} e.

(** A call: the lines it printed, and how it ended. *)
Definition M (A : Type) : Type := (list string * res A)%type.

Definition ret {A} (a : A) : M A := ([], Ok a).
Definition raise {A} (e : exn) : M A := ([], Raise e).
Definition print (line : string) : M unit := ([line], Ok tt).
Definition lift {A} (r : res A) : M A := ([], r).

Definition bind {A B} (m : M A) (k : A -> M B) : M B :=
  match m with
  | (out, Ok a) => let '(out', r) := k a in ((out ++ out')%list, r)
  | (out, Raise e) => (out, Raise e)
  end.

Definition stdout {A} (m : M A) : list string := fst m.
Definition outcome {A} (m : M A) : res A := snd m.

Declare Scope py_scope.
Delimit Scope py_scope with py.
Notation "x <- m ;; k" := (bind m (fun x => k))
  (at level 61, m at next level, right associativity) : py_scope.
Notation "m ;;; k" := (bind m (fun _ => k))
  (at level 61, right associativity) : py_scope.
Notation "' pat <- m ;; k" := (bind m (fun x => match x with pat => k end))
  (at level 61, pat pattern, m at next level, right associativity) : py_scope.
Local Open Scope py_scope.

(** [assert cond, msg] *)
Definition py_assert (cond : bool) : M unit :=
  if cond then ret tt else raise AssertionError.

(** [for x in xs: acc = body(acc, x)], stopping at the first exception. *)
Fixpoint for_each {A S} (xs : list A) (body : S -> A -> M S) (s : S) : M S :=
  match xs with
  | [] => ret s
  | x :: xs' => s' <- body s x ;; for_each xs' body s'
  end.

(* ------------------------------------------------------------------ *)
(** ** Dictionaries *)

Fixpoint dict_find (d : dict) (k : string) : option pyval :=
  match d with
  | [] => None
  | (k', v) :: d' => if String.eqb k k' then Some v else dict_find d' k
  end.

(** [k in d] *)
Definition dict_mem (d : dict) (k : string) : bool :=
  match dict_find d k with Some _ => true | None => false end.

(** [d[k]]: a missing key raises [KeyError]. *)
Definition dict_getitem (d : dict) (k : string) : res pyval :=
  match dict_find d k with Some v => Ok v | None => Raise KeyError end.

(** The store behind [d[k] = v]: an existing key keeps its place, a new
    key is appended. *)
Fixpoint dict_store (d : dict) (k : string) (v : pyval) : dict :=
  match d with
  | [] => [(k, v)]
  | (k', v') :: d' =>
      if String.eqb k k' then (k', v) :: d' else (k', v') :: dict_store d' k v
  end.

(** [d[k] = v] on a [dict] never raises: Python inserts the key. *)
Definition dict_setitem (d : dict) (k : string) (v : pyval) : res dict :=
  Ok (dict_store d k v).

Definition dict_keys (d : dict) : list string := map fst d.

(* ------------------------------------------------------------------ *)
(** ** Floats *)

Definition float_of_Z (z : Z) : float :=
  SF2Prim (SpecFloat.binary_normalize 53 1024 z 0 false).

Definition isnan (x : float) : bool := negb (PrimFloat.eqb x x).

(** A number of the configuration, read as a [float64]. *)
Definition as_float (v : pyval) : res float :=
  match v with
  | PInt z => Ok (float_of_Z z)
  | PFloat f => Ok f
  | PBool b => Ok (if b then 1%float else 0%float)
  | _ => Raise TypeError
  end.

(* ================================================================== *)
(** * Configuration resolver *)

Definition np_arange_int (a b : Z) : pyval :=
  PList (map (fun i => PInt (a + Z.of_nat i)) (seq 0 (Z.to_nat (b - a)))).

Definition stats_dict : dict :=
  [ ("moments", PDict
      [ ("vars", PList []);
        ("moment stat", PList [PStr "D"; PStr "mean"]);
        ("resample resolution", PNone);
        ("pool data", PBool false);
        ("thr", PNone);
        ("cond analysis", PNone);
        ("chunk dimension", PStr "time") ]);
    ("seasonal cycle", PDict
      [ ("vars", PList []);
        ("resample resolution", PNone);
        ("pool data", PBool false);
        ("stat method", PStr "mean");
        ("thr", PNone);
        ("cond analysis", PNone);
        ("chunk dimension", PStr "time") ]);
    ("annual cycle", PDict
      [ ("vars", PList []);
        ("resample resolution", PNone);
        ("pool data", PBool false);
        ("stat method", PStr "mean");
        ("thr", PNone);
        ("cond analysis", PNone);
        ("chunk dimension", PStr "time") ]);
    ("diurnal cycle", PDict
      [ ("vars", PList []);
        ("resample resolution", PNone);
        ("hours", PNone);
        ("dcycle stat", PStr "amount");
        ("stat method", PStr "mean");
        ("method kwargs", PNone);
        ("thr", PNone);
        ("cond analysis", PNone);
        ("pool data", PBool false);
        ("chunk dimension", PStr "space") ]);
    ("dcycle harmonic", PDict
      [ ("vars", PList []);
        ("resample resolution", PNone);
        ("pool data", PBool false);
        ("dcycle stat", PStr "amount");
        ("thr", PNone);
        ("cond analysis", PNone);
        ("chunk dimension", PStr "space") ]);
    ("asop", PDict
      [ ("vars", PList [PStr "pr"]);
        ("resample resolution", PNone);
        ("pool data", PBool false);
        ("nr_bins", PInt 80);
        ("thr", PNone);
        ("cond analysis", PNone);
        ("chunk dimension", PStr "space") ]);
    ("eda", PDict
      [ ("vars", PList [PStr "pr"]);
        ("resample resolution", PNone);
        ("pool data", PBool false);
        ("duration bins", np_arange_int 1 51);
        ("event statistic", PStr "amount");
        ("statistic bins",
          PList [PFloat 0x1.999999999999ap-4; PFloat 0x1.999999999999ap-3;
                 PFloat 0.5; PInt 1; PInt 2; PInt 5; PInt 10; PInt 20;
                 PInt 50; PInt 100; PInt 150; PInt 200]);
        ("dry events", PBool false);
        ("dry bins", PNone);
        ("event thr", PFloat 0x1.999999999999ap-4);
        ("cond analysis", PNone);
        ("chunk dimension", PStr "space") ]);
    ("pdf", PDict
      [ ("vars", PList []);
        ("resample resolution", PNone);
        ("pool data", PBool false);
        ("bins", PNone);
        ("normalized", PBool false);
        ("thr", PNone);
        ("cond analysis", PNone);
        ("dry event thr", PNone);
        ("chunk dimension", PStr "space") ]);
    ("percentile", PDict
      [ ("vars", PList []);
        ("resample resolution", PNone);
        ("pool data", PBool false);
        ("pctls", PList [PInt 95; PInt 99]);
        ("thr", PNone);
        ("cond analysis", PNone);
        ("chunk dimension", PStr "space") ]);
    ("Rxx", PDict
      [ ("vars", PList [PStr "pr"]);
        ("resample resolution", PNone);
        ("pool data", PBool false);
        ("normalize", PBool false);
        ("thr", PFloat 1);
        ("cond analysis", PNone);
        ("chunk dimension", PStr "space") ]);
    ("signal filtering", PDict
      [ ("vars", PList []);
        ("resample resolution", PNone);
        ("pool data", PBool false);
        ("filter", PStr "lanczos");
        ("cutoff type", PStr "lowpass");
        ("window", PInt 61);
        ("mode", PStr "same");
        ("1st cutoff", PNone);
        ("2nd cutoff", PNone);
        ("filter dim", PInt 1);
        ("thr", PNone);
        ("cond analysis", PNone);
        ("chunk dimension", PStr "space") ]) ].

(** [{k: stats_dict[k] for k in stats}] *)
Definition default_stats_config (stats : list string) : M dict :=
  for_each stats
    (fun acc k => v <- lift (dict_getitem stats_dict k) ;;
                  ret (dict_store acc k v))
    [].

(** What the caller asks for one statistic: the string ['default'], or a
    mapping from option name to value. *)
Inductive request : Type :=
| Default
| Overrides (o : dict).

Definition invalid_key_msg (k m : string) : string :=
  "For statistic " ++ k ++ ", the configuration key " ++ m ++
  " is not available. Check possible configurations  in " ++
  "default_stats_config in stats_template module.".

(** The body of the [try]: [stats_dd[k][m] = requested_stats[k][m]]. *)
Definition assign_option (stats_dd : dict) (k m : string) (v : pyval)
  : res dict :=
  match dict_getitem stats_dd k with
  | Ok (PDict rec) =>
      match dict_setitem rec m v with
      | Ok rec' => Ok (dict_store stats_dd k (PDict rec'))
      | Raise e => Raise e
      end
  | Ok _ => Raise TypeError
  | Raise e => Raise e
  end.

(** [try: ... except KeyError: print(msg)] *)
Definition try_assign_option (stats_dd : dict) (k m : string) (v : pyval)
  : M dict :=
  match assign_option stats_dd k m v with
  | Ok d => ret d
  | Raise KeyError => print (invalid_key_msg k m) ;;; ret stats_dd
  | Raise e => raise e
  end.

Definition mod_stats_config (requested_stats : list (string * request))
  : M dict :=
  stats_dd <- default_stats_config (map fst requested_stats) ;;
  for_each requested_stats
    (fun stats_dd '(k, r) =>
       match r with
       | Default => ret stats_dd
       | Overrides o =>
           for_each o (fun stats_dd '(m, v) => try_assign_option stats_dd k m v)
                    stats_dd
       end)
    stats_dd.

(* ================================================================== *)
(** * Strings *)

Definition is_digit (c : ascii) : bool :=
  let n := Z.of_N (N_of_ascii c) in (48 <=? n) && (n <=? 57).

Definition is_alpha (c : ascii) : bool :=
  let n := Z.of_N (N_of_ascii c) in
  ((65 <=? n) && (n <=? 90)) || ((97 <=? n) && (n <=? 122)).

Definition chars (s : string) : list ascii := list_ascii_of_string s.
Definition of_chars (l : list ascii) : string := string_of_list_ascii l.

(** [s.isdigit()] *)
Definition str_isdigit (s : string) : bool :=
  match chars s with [] => false | cs => forallb is_digit cs end.

(** [int(s)] for a string of decimal digits. *)
Definition int_of_digits (s : string) : Z :=
  fold_left (fun acc c => 10 * acc + (Z.of_N (N_of_ascii c) - 48)) (chars s) 0.

(** [sub in s] *)
Fixpoint str_contains (sub s : string) : bool :=
  if prefix sub s then true
  else match s with
       | EmptyString => false
       | String _ s' => str_contains sub s'
       end.

(** [s.partition(' ')[2]] *)
Fixpoint after_first_space (s : string) : string :=
  match s with
  | EmptyString => EmptyString
  | String c s' => if Ascii.eqb c " " then s' else after_first_space s'
  end.

Definition upper_char (c : ascii) : ascii :=
  let n := N_of_ascii c in
  if ((97 <=? Z.of_N n) && (Z.of_N n <=? 122))%Z
  then ascii_of_N (n - 32) else c.

(** [s.upper()] *)
Definition str_upper (s : string) : string := of_chars (map upper_char (chars s)).

Definition lower_char (c : ascii) : ascii :=
  let n := N_of_ascii c in
  if ((65 <=? Z.of_N n) && (Z.of_N n <=? 90))%Z
  then ascii_of_N (n + 32) else c.

(** [s.lower()] *)
Definition str_lower (s : string) : string := of_chars (map lower_char (chars s)).

(** [sep.join(parts)] *)
Definition str_join (sep : string) (parts : list string) : string :=
  String.concat sep parts.

Definition str_of_Z (z : Z) : string := NilZero.string_of_int (Z.to_int z).

(** A Python identifier (ASCII): a letter or underscore, then letters,
    digits and underscores. *)
Definition is_identifier (s : string) : bool :=
  match chars s with
  | [] => false
  | c :: cs =>
      (is_alpha c || Ascii.eqb c "_") &&
      forallb (fun c => is_alpha c || is_digit c || Ascii.eqb c "_") cs
  end.

(* ================================================================== *)
(** * What the file imports and does not define *)

Class Externals : Type := {
  (** [str(x)] of a [float]. *)
  str_float : float -> string;
  (** [eval(q)] on the percentile argument of a stat method. *)
  py_eval : string -> res pyval;
  (** [numpy.cos]. *)
  np_cos : float -> float;
  (** [scipy.optimize.curve_fit(f, xdata, ydata)[0]] for a model [f] of
      three parameters: the fitted parameters, or the exception raised. *)
  curve_fit : (float -> float -> float -> float -> float) ->
              list float -> list float -> res (float * float * float);
  (** [numpy.nanpercentile(a, q)] along a one-dimensional [a]. *)
  np_nanpercentile : list float -> list float -> list float;
  (** [rcat.stats.convolve.lanczos_filter(window, f1, f2, ftype)]. *)
  lanczos_filter : Z -> float -> float -> pyval -> res (list float)
}.

(* ------------------------------------------------------------------ *)
(** ** [str] and [repr] *)

Section Repr.
Context {E : Externals}.

Fixpoint py_repr (v : pyval) : string :=
  match v with
  | PNone => "None"
  | PBool b => if b then "True" else "False"
  | PInt z => str_of_Z z
  | PFloat f => str_float f
  | PStr s => "'" ++ s ++ "'"
  | PList l =>
      "[" ++ str_join ", " ((fix go (l : list pyval) : list string :=
                               match l with
                               | [] => []
                               | x :: l' => py_repr x :: go l'
                               end) l) ++ "]"
  | PDict d =>
      "{" ++ str_join ", " ((fix go (d : list (string * pyval)) : list string :=
                               match d with
                               | [] => []
                               | (k, x) :: d' =>
                                   ("'" ++ k ++ "': " ++ py_repr x) :: go d'
                               end) d) ++ "}"
  end.

(** ["{}".format(v)] *)
Definition py_str (v : pyval) : string :=
  match v with
  | PStr s => s
  | _ => py_repr v
  end.
End Repr.

(** [v is None] / [v is not None] *)
Definition is_none (v : pyval) : bool :=
  match v with PNone => true | _ => false end.

Definition py_eqb_str (v : pyval) (s : string) : bool :=
  match v with PStr s' => String.eqb s' s | _ => false end.

(** [var in c] for a string [var]. *)
Definition py_in (var : string) (c : pyval) : res bool :=
  match c with
  | PDict d => Ok (dict_mem d var)
  | PList l => Ok (existsb (fun x => py_eqb_str x var) l)
  | PStr s => Ok (str_contains var s)
  | _ => Raise TypeError
  end.

(** [c[var]] for a string [var]. *)
Definition py_getitem (c : pyval) (var : string) : res pyval :=
  match c with
  | PDict d => dict_getitem d var
  | _ => Raise TypeError
  end.

(** [c[i]] for an integer [i >= 0]. *)
Definition py_index (c : pyval) (i : nat) : res pyval :=
  match c with
  | PList l => match nth_error l i with Some v => Ok v | None => Raise IndexError end
  | PStr s => match nth_error (chars s) i with
              | Some ch => Ok (PStr (String ch EmptyString))
              | None => Raise IndexError
              end
  | PDict _ => Raise KeyError        (* the keys are strings *)
  | _ => Raise TypeError
  end.

(** [stat_config[stat][key]] *)
Definition config_get (stat_config : dict) (stat key : string) : res pyval :=
  match dict_getitem stat_config stat with
  | Ok c => py_getitem c key
  | Raise e => Raise e
  end.

(* ================================================================== *)
(** * Arrays of [float64] *)

Local Open Scope float_scope.

(** [numpy.pi] *)
Definition np_pi : float := 0x1.921fb54442d18p+1.

(** [ceil(x)] as an integer; nothing for NaN and the infinities. *)
Definition float_ceil (x : float) : option Z :=
  match Prim2SF x with
  | S754_zero _ => Some 0%Z
  | S754_finite neg m e =>
      let mag := Z.pos m in
      if (0 <=? e)%Z then
        Some (if neg then - (mag * 2 ^ e) else mag * 2 ^ e)%Z
      else
        let d := (2 ^ (- e))%Z in
        Some (if neg then - (mag / d) else (mag + d - 1) / d)%Z
  | _ => None
  end.

Definition float_sum (xs : list float) : float :=
  fold_left PrimFloat.add xs 0.

(** [numpy.nansum] *)
Definition np_nansum (xs : list float) : float :=
  float_sum (filter (fun x => negb (isnan x)) xs).

(** [numpy.mean] of a one-dimensional array (summed left to right). *)
Definition np_mean (xs : list float) : float :=
  float_sum xs / float_of_Z (Z.of_nat (List.length xs)).

(** [a.min(skipna=True)] and [a.max(skipna=True)] over every value of a
    variable: NaN when nothing is left. *)
Definition nan_extremum (better : float -> float -> bool) (xs : list float)
  : float :=
  match filter (fun x => negb (isnan x)) xs with
  | [] => nan
  | x :: rest => fold_left (fun acc y => if better y acc then y else acc) rest x
  end.

Definition np_nanmin : list float -> float := nan_extremum PrimFloat.ltb.
Definition np_nanmax : list float -> float :=
  nan_extremum (fun y acc => PrimFloat.ltb acc y).

Definition indices (n : nat) : list float :=
  map (fun i => float_of_Z (Z.of_nat i)) (seq 0 n).

(** [numpy.linspace(start, stop, num)] with the end point included. *)
Definition np_linspace (start stop : float) (num : nat) : list float :=
  let div := float_of_Z (Z.of_nat (num - 1)) in
  let delta := stop - start in
  let y := indices num in
  let y :=
    if (0 <? Z.of_nat (num - 1))%Z then
      let step := delta / div in
      if PrimFloat.eqb step 0
      then map (fun i => i / div * delta) y
      else map (fun i => i * step) y
    else map (fun i => i * delta) y in
  let y := map (fun v => v + start) y in
  if (1 <? Z.of_nat num)%Z then (removelast y ++ [stop])%list else y.

(** The values of [numpy.arange(start, stop, step)] for a length [n]: the
    first is [start], the second [start + step], and numpy fills the others
    with [start + i * delta] for the difference [delta] of the first two. *)
Definition arange_values (start step : float) (n : nat) : list float :=
  let delta := (start + step) - start in
  map (fun i => match i with
                | O => start
                | S O => start + step
                | _ => start + float_of_Z (Z.of_nat i) * delta
                end)
      (seq 0 n).

(** [numpy.arange(start, stop, step)] on Python numbers:
    [ceil((stop - start) / step)] values.  The division is Python's, so a
    step of zero raises [ZeroDivisionError]; numpy refuses a length that is
    NaN ([ValueError]) or beyond the index type ([OverflowError]). *)
Definition np_arange (start stop step : float) : res (list float) :=
  if PrimFloat.eqb step 0 then Raise ZeroDivisionError
  else
    let len := (stop - start) / step in
    if isnan len then Raise ValueError
    else match float_ceil len with
         | None => Raise OverflowError
         | Some n =>
             if (2 ^ 63 <=? n)%Z || (n <? - 2 ^ 63)%Z then Raise OverflowError
             else Ok (arange_values start step (Z.to_nat n))
         end.

(** [numpy.arange(bin_r[0], bin_r[1], bin_r[2])] *)
Definition arange_of_triple (bin_r : pyval) : res (list float) :=
  match py_index bin_r 0, py_index bin_r 1, py_index bin_r 2 with
  | Ok a, Ok b, Ok c =>
      match as_float a, as_float b, as_float c with
      | Ok a, Ok b, Ok c => np_arange a b c
      | Raise e, _, _ | _, Raise e, _ | _, _, Raise e => Raise e
      end
  | Raise e, _, _ | _, Raise e, _ | _, _, Raise e => Raise e
  end.

Local Close Scope float_scope.

(* ================================================================== *)
(** * Gridded datasets and the lazy results built on them *)

(** A variable of the dataset: one time series per pixel.  The variables
    have two spatial dimensions and time, with time as the last axis (the
    layout on which every [transpose] of the statistics is a permutation of
    the dimensions); the pixels are listed row by row. *)
Definition field := list (list float).

Record Dataset : Type := mkDataset {
  ds_time : list Z;                     (** time stamps, ns since the epoch *)
  ds_vars : list (string * field);
  ds_attrs : list (string * string)
}.

Fixpoint assoc {A} (l : list (string * A)) (k : string) : option A :=
  match l with
  | [] => None
  | (k', v) :: l' => if String.eqb k k' then Some v else assoc l' k
  end.

(** [data[var]] *)
Definition ds_getvar (data : Dataset) (var : string) : res field :=
  match assoc (ds_vars data) var with
  | Some f => Ok f
  | None => Raise KeyError
  end.

Fixpoint map2 {A B C} (f : A -> B -> C) (xs : list A) (ys : list B) : list C :=
  match xs, ys with
  | x :: xs', y :: ys' => f x y :: map2 f xs' ys'
  | _, _ => []
  end.

(** [data.where(data[var] >= thr)]: a new dataset, every variable masked
    to NaN where the condition is false. *)
Definition ds_where_ge (data : Dataset) (var : string) (thr : pyval)
  : res Dataset :=
  match ds_getvar data var with
  | Raise e => Raise e
  | Ok ref =>
      match as_float thr with
      | Raise e => Raise e
      | Ok t =>
          let cond := map (map (fun x => PrimFloat.leb t x)) ref in
          let mask :=
            map2 (map2 (fun (c : bool) x => if c then x else nan)) cond in
          Ok (mkDataset (ds_time data)
                        (map (fun '(name, f) => (name, mask f)) (ds_vars data))
                        (ds_attrs data))
      end
  end.

(** The threshold block shared by [moments], [diurnal_cycle],
    [dcycle_harmonic_fit] and [filtering]: the resolved threshold and the
    (possibly masked) data. *)
Definition apply_threshold (in_thr : pyval) (var : string) (data : Dataset)
  : res (pyval * Dataset) :=
  if negb (is_none in_thr) then
    match py_in var in_thr with
    | Raise e => Raise e
    | Ok true =>
        match py_getitem in_thr var with
        | Raise e => Raise e
        | Ok thr =>
            match ds_where_ge data var thr with
            | Ok data' => Ok (thr, data')
            | Raise e => Raise e
            end
        end
    | Ok false => Ok (PNone, data)
    end
  else Ok (in_thr, data).

(** The threshold block of [percentile], [freq_int_dist], [asop] and [Rxx]:
    [None if var not in in_thr else in_thr[var]], no masking. *)
Definition resolve_option (in_thr : pyval) (var : string) : res pyval :=
  if negb (is_none in_thr) then
    match py_in var in_thr with
    | Raise e => Raise e
    | Ok false => Ok PNone
    | Ok true => py_getitem in_thr var
    end
  else Ok in_thr.

Definition ns_per_minute : Z := 60000000000.
Definition ns_per_hour : Z := 3600000000000.

Definition minute_of (t : Z) : Z := (t / ns_per_minute) mod 60.
Definition hour_of (t : Z) : Z := (t / ns_per_hour) mod 24.
(** [time.dt.ceil('H')] *)
Definition ceil_hour (t : Z) : Z := - ((- t) / ns_per_hour) * ns_per_hour.

Definition _check_hours (ds : Dataset) : M Dataset :=
  if existsb (fun t => 0 <? minute_of t) (ds_time ds) then
    print "Shifting time stamps (upwards) to whole hours!" ;;;
    ret (mkDataset (map ceil_hour (ds_time ds)) (ds_vars ds) (ds_attrs ds))
  else ret ds.

(** The kernels handed to [xarray.apply_ufunc], with their keyword
    arguments. *)
Inductive kernel : Type :=
| K_percentile (q : list pyval) (thr : pyval)
| K_pdf (bins : list float) (norm : pyval) (thr dry_event_thr : pyval)
| K_harmonic (var : string)
| K_convolve (wgts : list float) (dim : pyval) (mode : pyval).

(** A result that xarray and dask build without evaluating it. *)
Inductive xr : Type :=
| XData (d : Dataset)
    (** the dataset itself, or [data.copy()] *)
| XReduce (method : string) (d : Dataset)
    (** [data.<method>(dim='time', skipna=True)] *)
| XGroupby (group method : string) (d : Dataset)
    (** [data.groupby('time.<group>').<method>('time')] *)
| XResample (var rule method : string) (d : Dataset)
    (** [data[var].resample(time=rule).<method>('time').dropna('time', 'all')] *)
| XUfunc (k : kernel) (var : string) (group : option string)
         (out_dim : string) (out_size : Z) (src : xr).
    (** [apply_ufunc(k, src[var] (grouped by 'time.<group>'), ...,
        output_core_dims=[[out_dim]], output_sizes={out_dim: out_size})] *)

Record StatData : Type := mkStat {
  st_body : xr;
  st_sel : option pyval;                       (** [.sel(hour=hrs)] *)
  st_coords : list (string * list pyval);      (** [.assign], [.assign_coords] *)
  st_attrs : list (string * string)
}.

(** The reductions of a dataset, a group-by or a resampler. *)
Definition xr_reductions : list string :=
  ["mean"; "median"; "std"; "var"; "max"; "min"; "sum"; "prod"; "count";
   "first"; "last"; "all"; "any"].

(** [eval("obj.{}(...)".format(text))]: [text] has to be the name of a
    reduction. *)
Definition method_call (text : string) : res string :=
  if is_identifier text then
    if existsb (String.eqb text) xr_reductions then Ok text
    else Raise AttributeError
  else Raise SyntaxError.

(* ================================================================== *)
(** * Resampling frequency *)

Definition _get_freq (tf : string) : res (Z * string) :=
  let digits := filter is_digit (chars tf) in
  let others := filter (fun c => negb (is_digit c)) (chars tf) in
  match digits, others with
  | [], _ => Raise TypeError          (* reduce() of an empty sequence *)
  | _, [] => Raise TypeError
  | _, c0 :: _ =>
      let freq := int_of_digits (of_chars digits) in
      let unit := of_chars others in
      if String.eqb unit "M" || String.eqb unit "Y" then
        Ok (if String.eqb unit "M" then freq * 30 else freq * 365, "D")
      else if Ascii.eqb c0 "Q" then Ok (90, "D")
      else Ok (freq, unit)
  end.

(** The abbreviations of the units of [pandas.to_timedelta(value, unit)]
    (ASCII spellings), in nanoseconds.  The unit is looked up in lower
    case. *)
Definition timedelta_units : list (string * Z) :=
  [ ("w", 604800000000000);
    ("d", 86400000000000); ("days", 86400000000000); ("day", 86400000000000);
    ("hours", 3600000000000); ("hour", 3600000000000); ("hr", 3600000000000);
    ("h", 3600000000000);
    ("m", 60000000000); ("minute", 60000000000); ("min", 60000000000);
    ("minutes", 60000000000); ("t", 60000000000);
    ("s", 1000000000); ("seconds", 1000000000); ("sec", 1000000000);
    ("second", 1000000000);
    ("ms", 1000000); ("milliseconds", 1000000); ("millisecond", 1000000);
    ("milli", 1000000); ("millis", 1000000); ("l", 1000000);
    ("us", 1000); ("microseconds", 1000); ("microsecond", 1000);
    ("micro", 1000); ("micros", 1000); ("u", 1000);
    ("ns", 1); ("nanoseconds", 1); ("nano", 1); ("nanos", 1);
    ("nanosecond", 1); ("n", 1) ].

(** [to_timedelta(value, unit)], in nanoseconds (a 64-bit count): the unit
    ['M'] is the month, which like the year (['Y'], ['y']) is refused; any
    other unit is read in lower case. *)
Definition to_timedelta (value : Z) (unit : string) : res Z :=
  if String.eqb unit "M" then Raise ValueError
  else
    match assoc timedelta_units (str_lower unit) with
    | None => Raise ValueError
    | Some ns =>
        if value * ns <? 2 ^ 63 then Ok (value * ns) else Raise ValueError
    end.

(** [Timedelta.total_seconds()] *)
Definition total_seconds (ns : Z) : float :=
  (float_of_Z ns / 1e9)%float.

(* ================================================================== *)
(** * Statistics functions *)

Section Statistics.
Context {E : Externals}.

(** [isinstance(v, np.int)]: [np.int] is the builtin [int], of which
    [bool] is a subclass. *)
Definition is_int (v : pyval) : bool :=
  match v with PInt _ | PBool _ => true | _ => false end.

(** [mstat[0] = v] *)
Definition set_first (mstat : pyval) (v : pyval) : res pyval :=
  match mstat with
  | PList (_ :: l) => Ok (PList (v :: l))
  | PList [] => Raise IndexError
  | _ => Raise TypeError
  end.

(** [if not isinstance(mstat[0], np.int): mstat[0] = str(1) + mstat[0]] *)
Definition prefix_count (mstat : pyval) : res pyval :=
  match py_index mstat 0 with
  | Raise e => Raise e
  | Ok m0 =>
      if negb (is_int m0) then
        match m0 with
        | PStr s => set_first mstat (PStr ("1" ++ s))
        | _ => Raise TypeError
        end
      else Ok mstat
  end.

(** [' '.join(s.upper() for s in mstat)] *)
Definition upper_joined (mstat : pyval) : res string :=
  match mstat with
  | PList l =>
      if forallb (fun v => match v with PStr _ => true | _ => false end) l
      then Ok (str_join " "
                 (map (fun v => match v with PStr s => str_upper s | _ => "" end) l))
      else Raise AttributeError
  | _ => Raise TypeError
  end.

(** The seconds between the first two time stamps:
    [to_timedelta(time[1] - time[0]).total_seconds()]. *)
Definition native_seconds (data : Dataset) : res float :=
  match ds_time data with
  | t0 :: t1 :: _ => Ok (total_seconds (t1 - t0))
  | _ => Raise IndexError
  end.

(** The seconds of the statistic's frequency:
    [to_timedelta(tr, fr).total_seconds()] with [tr, fr = _get_freq(tf)]. *)
Definition resample_seconds (tf : pyval) : res float :=
  match tf with
  | PStr s =>
      match _get_freq s with
      | Raise e => Raise e
      | Ok (tr, fr) =>
          match to_timedelta tr fr with
          | Ok ns => Ok (total_seconds ns)
          | Raise e => Raise e
          end
      end
  | _ => Raise TypeError
  end.

Definition moments (data : Dataset) (var stat : string) (stat_config : dict)
  : M StatData :=
  _mstat <- lift (config_get stat_config stat "moment stat") ;;
  mstat <- lift (match _mstat with
                 | PDict d => dict_getitem d var
                 | _ => Ok _mstat
                 end) ;;
  mstat <- lift (prefix_count mstat) ;;
  in_thr <- lift (config_get stat_config stat "thr") ;;
  '(thr, data) <- lift (apply_threshold in_thr var data) ;;
  nsec <- lift (native_seconds data) ;;
  m0 <- lift (py_index mstat 0) ;;
  sec_resample <- lift (resample_seconds m0) ;;
  m1 <- lift (py_index mstat 1) ;;
  st_data <-
    (if py_eqb_str m0 "all" then
       method <- lift (method_call (py_str mstat)) ;;
       ret (XReduce method data)
     else if PrimFloat.leb sec_resample nsec then
       print ("* Data already at the same or coarser time resolution " ++
              "as statistic!" ++ String "010" "* Keeping data as is ..." ++
              String "010" "") ;;;
       ret (XData data)
     else
       method <- lift (method_call (py_str m1)) ;;
       _ <- lift (ds_getvar data var) ;;
       ret (XResample var (py_str m0) method data)) ;;
  names <- lift (upper_joined mstat) ;;
  ret (mkStat st_data None []
         [("Description",
           "Moment statistic: " ++ names ++ " | Threshold: " ++ py_str thr)]).

(** The local variables of [diurnal_cycle] that its branches bind: a
    variable a branch does not assign stays unbound. *)
Record dc_locals : Type := mkLocals {
  l_dcycle : option (xr * list (string * list pyval));
  l_st_data : option (xr * list (string * list pyval));
  l_totdays : option (list Z);
  l_statnm : string
}.

(** Reading a local variable. *)
Definition read_local {A} (v : option A) : res A :=
  match v with Some a => Ok a | None => Raise UnboundLocalError end.

(** [[(data['time.hour'].values == h).sum() for h in np.arange(24)]] *)
Definition days_per_hour (data : Dataset) : list Z :=
  map (fun h => Z.of_nat (List.length
                 (filter (fun t => hour_of t =? Z.of_nat h) (ds_time data))))
      (seq 0 24).

(** The percentile argument of a stat method: [tstat.partition(' ')[2]],
    then [[float(q)] if q.isdigit() else eval(q)]. *)
Definition percentile_argument (tstat : pyval) : res pyval :=
  match tstat with
  | PStr s =>
      let q := after_first_space s in
      if String.eqb q "" then Raise ValueError
      else if str_isdigit q then Ok (PList [PFloat (float_of_Z (int_of_digits q))])
      else py_eval q
  | _ => Raise AttributeError
  end.

(** [len(q)] *)
Definition py_len (v : pyval) : res Z :=
  match v with
  | PList l => Ok (Z.of_nat (List.length l))
  | PDict d => Ok (Z.of_nat (List.length d))
  | PStr s => Ok (Z.of_nat (String.length s))
  | _ => Raise TypeError
  end.

Definition py_items (v : pyval) : list pyval :=
  match v with PList l => l | _ => [] end.

(** In the percentile and pdf paths the result is transposed to
    [(new, 'hour', dims[0], dims[1])], which is a permutation of its
    dimensions when time is the last axis of the variable, as in [field];
    with time on another axis xarray refuses it. *)
Definition diurnal_cycle (data : Dataset) (var stat : string)
           (stat_config : dict) : M StatData :=
  dcycle_stat <- lift (config_get stat_config stat "dcycle stat") ;;
  in_thr <- lift (config_get stat_config stat "thr") ;;
  '(thr, data) <- lift (apply_threshold in_thr var data) ;;
  data <- _check_hours data ;;
  loc <-
    (if py_eqb_str dcycle_stat "amount" then
       tstat <- lift (config_get stat_config stat "stat method") ;;
       is_pctl <- lift (py_in "percentile" tstat) ;;
       loc <-
         (if is_pctl : bool then
            q <- lift (percentile_argument tstat) ;;
            _ <- lift (ds_getvar data var) ;;
            n <- lift (py_len q) ;;
            let dc_pctls :=
              XUfunc (K_percentile (py_items q) thr) var (Some "hour")
                     "pctls" n (XData data) in
            ret (mkLocals None (Some (dc_pctls, [("pctls", py_items q)]))
                          None "")
          else
            is_pdf <- lift (py_in "pdf" tstat) ;;
            if is_pdf : bool then
              kwargs <- lift (config_get stat_config stat "method kwargs") ;;
              has_bins <- lift (py_in "bins" kwargs) ;;
              py_assert has_bins ;;;
              bin_r <- lift (py_getitem kwargs "bins") ;;
              bins <- lift (arange_of_triple bin_r) ;;
              let lbins := Z.of_nat (List.length bins) - 1 in
              _ <- lift (ds_getvar data var) ;;
              let dc_pdf :=
                XUfunc (K_pdf bins (PBool false) thr PNone) var (Some "hour")
                       "bins" (lbins + 1) (XData data) in
              ret (mkLocals (Some (dc_pdf, [("bins", map PFloat bins)]))
                            None None "")
            else
              method <- lift (method_call (py_str tstat)) ;;
              ret (mkLocals (Some (XGroupby "hour" method data, []))
                            None None "")) ;;
       ret (mkLocals (l_dcycle loc) (l_st_data loc) (l_totdays loc)
              ("Amount | stat: " ++ py_str tstat ++ " | thr: " ++ py_str thr))
     else if py_eqb_str dcycle_stat "frequency" then
       py_assert (negb (is_none thr)) ;;;
       ret (mkLocals (Some (XGroupby "hour" "count" data, [])) None
              (Some (days_per_hour data))
              ("Frequency | stat: counts | thr: " ++ py_str thr))
     else
       print ("Unknown configured diurnal cycle stat: " ++ py_str dcycle_stat) ;;;
       raise SystemExit) ;;
  (* dcycle = dcycle.chunk({'hour': -1}) *)
  dcycle <- lift (read_local (l_dcycle loc)) ;;
  _hrs <- lift (config_get stat_config stat "hours") ;;
  let sel := if negb (is_none _hrs) then Some _hrs else None in
  let coords :=
    if py_eqb_str dcycle_stat "frequency" then
      match l_totdays loc with
      | Some totdays => (snd dcycle ++ [("ndays_per_hour", map PInt totdays)])%list
      | None => snd dcycle
      end
    else snd dcycle in
  ret (mkStat (fst dcycle) sel coords
         [("Description", "Diurnal cycle | " ++ l_statnm loc)]).

Definition harmonic_data_info : string :=
  "First four values in each array with fitted data " ++
  "are fit parameters; (c1, p1, c2, p2), where 1/c2 " ++
  "and p1/p2 represents amplitude and phase of 1st/2nd " ++
  "harmonic of the fit.".

Definition dcycle_harmonic_fit (data : Dataset) (var stat : string)
           (stat_config : dict) : M StatData :=
  dcycle_stat <- lift (config_get stat_config stat "dcycle stat") ;;
  in_thr <- lift (config_get stat_config stat "thr") ;;
  '(thr, data) <- lift (apply_threshold in_thr var data) ;;
  '(dcycle, totdays, statnm) <-
    (if py_eqb_str dcycle_stat "amount" then
       data <- _check_hours data ;;
       ret (XGroupby "hour" "mean" data, @None (list Z),
            "Amount | thr: " ++ py_str thr)
     else if py_eqb_str dcycle_stat "frequency" then
       py_assert (negb (is_none thr)) ;;;
       data_sub <- lift (ds_where_ge data var thr) ;;
       data_sub <- _check_hours data_sub ;;
       ret (XGroupby "hour" "count" data_sub, Some (days_per_hour data_sub),
            "Frequency | thr: " ++ py_str thr)
     else
       print ("Unknown configured diurnal cycle stat: " ++ py_str dcycle_stat) ;;;
       raise SystemExit) ;;
  _ <- lift (ds_getvar data var) ;;
  let dc_fit := XUfunc (K_harmonic var) var None "fit" 204 dcycle in
  let coords :=
    if py_eqb_str dcycle_stat "frequency" then
      match totdays with
      | Some totdays => [("ndays_per_hour", map PInt totdays)]
      | None => []
      end
    else [] in
  ret (mkStat dc_fit None coords
         [("Description",
           "Harmonic fit of diurnal cycle | Statistic: " ++ statnm);
          ("Data info", harmonic_data_info)]).

(** [bool(v)] *)
Definition py_truthy (v : pyval) : bool :=
  match v with
  | PNone => false
  | PBool b => b
  | PInt z => negb (z =? 0)
  | PFloat f => negb (PrimFloat.eqb f 0)
  | PStr s => negb (String.eqb s "")
  | PList l => match l with [] => false | _ => true end
  | PDict d => match d with [] => false | _ => true end
  end.

(** [v == n] for an integer [n]. *)
Definition py_eqb_int (v : pyval) (n : Z) : bool :=
  match v with
  | PInt z => z =? n
  | PBool b => (if b then 1 else 0) =? n
  | PFloat f => PrimFloat.eqb f (float_of_Z n)
  | _ => false
  end.

(** The block [# Bins] of [freq_int_dist]: the edges from the data when
    [var not in stat_config[stat]['bins']], else from the triple given
    for the variable. *)
Definition freq_int_dist_bins (data : Dataset) (var : string)
           (bins_cfg : pyval) : res (list float) :=
  match py_in var bins_cfg with
  | Raise e => Raise e
  | Ok has_var =>
      if negb has_var then
        match ds_getvar data var with
        | Raise e => Raise e
        | Ok f =>
            let dmn := np_nanmin (List.concat f) in
            let dmx := np_nanmax (List.concat f) in
            Ok (np_linspace dmn dmx 20)
        end
      else
        match py_getitem bins_cfg var with
        | Raise e => Raise e
        | Ok bin_r => arange_of_triple bin_r
        end
  end.

Definition freq_int_dist (data : Dataset) (var stat : string)
           (stat_config : dict) : M StatData :=
  (* Bins *)
  bins_cfg <- lift (config_get stat_config stat "bins") ;;
  bins <- lift (freq_int_dist_bins data var bins_cfg) ;;
  let lbins := Z.of_nat (List.length bins) - 1 in
  (* Data threshold *)
  in_thr <- lift (config_get stat_config stat "thr") ;;
  thr <- lift (resolve_option in_thr var) ;;
  (* Dry event threshold *)
  in_dry_thr <- lift (config_get stat_config stat "dry event thr") ;;
  dry_thr <- lift (resolve_option in_dry_thr var) ;;
  (* Normalization *)
  normalized <- lift (config_get stat_config stat "normalized") ;;
  norm <- lift (match normalized with
                | PBool _ => Ok normalized
                | _ => match py_in var normalized with
                       | Raise e => Raise e
                       | Ok false => Ok (PBool false)
                       | Ok true => py_getitem normalized var
                       end
                end) ;;
  data <-
    (if String.eqb var "pr" then
       f <- lift (ds_getvar data var) ;;
       let keep x := isnan x || PrimFloat.leb 0 x in
       let data_tmp := map (map (fun x => if negb (keep x) then 0%float else x)) f in
       ret (mkDataset (ds_time data) [(var, data_tmp)] [])
     else ret data) ;;
  _ <- lift (ds_getvar data var) ;;
  let pdf := XUfunc (K_pdf bins norm thr dry_thr) var None
                    "bins" (lbins + 1) (XData data) in
  ret (mkStat pdf None
         [("bin_edges", PStr "dry_events" :: map PFloat bins)]
         [("Description",
           "PDF | threshold: " ++ py_str thr ++
           " | Normalized bin data: " ++ py_str norm)]).

(** [1/cutoff] *)
Definition py_recip (v : pyval) : res float :=
  match v with
  | PInt z => if z =? 0 then Raise ZeroDivisionError
              else Ok (1 / float_of_Z z)%float
  | PBool b => if b then Ok 1%float else Raise ZeroDivisionError
  | PFloat f => if PrimFloat.eqb f 0 then Raise ZeroDivisionError
                else Ok (1 / f)%float
  | _ => Raise TypeError
  end.

(** The filter window as an [int].  (Python would also take a float for
    the parity test; the schema's window is an [int], and so are the
    sizes computed from it.) *)
Definition window_int (window : pyval) : res Z :=
  match window with
  | PInt z => Ok z
  | PBool b => Ok (if b then 1 else 0)
  | _ => Raise TypeError
  end.

Definition filtering (data : Dataset) (var stat : string)
           (stat_config : dict) : M StatData :=
  (* The type of frequency cutoff *)
  ftype <- lift (config_get stat_config stat "cutoff type") ;;
  (* The type of filter *)
  filt <- lift (config_get stat_config stat "filter") ;;
  (* The length of filter window *)
  window_cfg <- lift (config_get stat_config stat "window") ;;
  window <- lift (window_int window_cfg) ;;
  py_assert (window mod 2 =? 1) ;;;
  (* The filter mode *)
  mode <- lift (config_get stat_config stat "mode") ;;
  (* First cutoff frequency *)
  cutoff <- lift (config_get stat_config stat "1st cutoff") ;;
  cutoff2 <- lift (config_get stat_config stat "2nd cutoff") ;;
  (if py_eqb_str ftype "bandpass"
   then py_assert (negb (is_none cutoff2)) else ret tt) ;;;
  (* The filtering dimensions (1D or 2D filtering) *)
  filt_dim <- lift (config_get stat_config stat "filter dim") ;;
  (* Thresholding data *)
  in_thr <- lift (config_get stat_config stat "thr") ;;
  '(thr, data) <- lift (apply_threshold in_thr var data) ;;
  wgts <-
    (if py_eqb_str filt "lanczos" then
       f1 <- lift (py_recip cutoff) ;;
       f2 <- lift (py_recip cutoff2) ;;
       lift (lanczos_filter window f1 f2 ftype)
     else
       print "No other filter implemented yet. To be done." ;;;
       raise SystemExit) ;;
  let size := Z.of_nat (List.length (ds_time data)) in
  let out_dim :=
    if py_eqb_str mode "valid" || is_none mode
    then size - window + 1 else size in
  filtered <-
    (if py_eqb_int filt_dim 1 then
       _ <- lift (ds_getvar data var) ;;
       ret (XUfunc (K_convolve wgts filt_dim mode) var None
                   "filtered" out_dim (XData data))
     else if py_eqb_int filt_dim 2 then
       print (String "010" "Sorry, 2D filtering not available yet.") ;;;
       raise SystemExit
     else
       print (String "010"
                "Only 1D and 2D filtering (dim = 1 or 2) is possible ...") ;;;
       raise SystemExit) ;;
  let statnm :=
    "Filter Dimension: " ++ py_str filt_dim ++ " | Filter: " ++ py_str filt ++
    " | Cutoff Type: " ++ py_str ftype ++
    " | 1st Cutoff (time steps): " ++ py_str cutoff ++
    " | 2nd Cutoff (time steps): " ++ py_str cutoff2 ++
    " | Filter Window Size: " ++ py_str window_cfg in
  ret (mkStat filtered None []
         [("Description", "Convolved data | " ++ statnm)]).
End Statistics.

(* ================================================================== *)
(** * Kernels *)

(** The array a kernel receives: one series, or a block of pixels with
    time as the last axis. *)
Inductive ndarray (A : Type) : Type :=
| Vec (v : list A)
| Block (pixels : list (list A)).
Arguments Vec {A} v.
Arguments Block {A} pixels.

Definition ndim {A} (a : ndarray A) : Z :=
  match a with Vec _ => 1 | Block _ => 2 end.

(** [buff[ind] = res]: a result is written into the buffer that
    [apply_along_axis] has allocated with the shape and the dtype of the
    first result.  [as_dtype first r] is [r] with its values converted to
    the dtype of the buffer of [first]; a result of one value is
    broadcast. *)
Definition store_in_buffer {B} (as_dtype : list B -> list B -> res (list B))
           (first r : list B) : res (list B) :=
  match as_dtype first r with
  | Raise e => Raise e
  | Ok r =>
      if Nat.eqb (List.length first) (List.length r) then Ok r
      else match r with
           | [x] => Ok (repeat x (List.length first))
           | _ => Raise ValueError
           end
  end.

(** [numpy.apply_along_axis(f, -1, a)] *)
Definition apply_along_axis {A B} (as_dtype : list B -> list B -> res (list B))
           (f : list A -> M (list B)) (a : ndarray A) : M (ndarray B) :=
  match a with
  | Vec v => r <- f v ;; ret (Vec r)
  | Block [] => raise ValueError
  | Block (p0 :: rest) =>
      r0 <- f p0 ;;
      rs <- for_each rest
              (fun acc p => r <- f p ;;
                            r <- lift (store_in_buffer as_dtype r0 r) ;;
                            ret (acc ++ [r])%list)
              [r0] ;;
      ret (Block rs)
  end.

(** A buffer of [float64] holds every float as it is. *)
Definition float_buffer (first r : list float) : res (list float) := Ok r.

Definition is_pfloat (v : pyval) : bool :=
  match v with PFloat _ => true | _ => false end.

(** A value written into a [float64] array: [None] becomes NaN. *)
Definition as_float64 (v : pyval) : res pyval :=
  match v with
  | PNone => Ok (PFloat nan)
  | PStr _ => Raise ValueError
  | _ => match as_float v with
         | Ok f => Ok (PFloat f)
         | Raise e => Raise e
         end
  end.

Fixpoint each_as_float64 (r : list pyval) : res (list pyval) :=
  match r with
  | [] => Ok []
  | v :: r' =>
      match as_float64 v, each_as_float64 r' with
      | Ok v', Ok r'' => Ok (v' :: r'')
      | Raise e, _ | _, Raise e => Raise e
      end
  end.

(** The buffer of a first result without [None] is a [float64] array, in
    which a [None] of a later result is stored as NaN; with [None] it is an
    array of objects and holds every result as it is. *)
Definition cell_buffer (first r : list pyval) : res (list pyval) :=
  if forallb is_pfloat first then each_as_float64 r else Ok r.

(** [numpy.array(a).ravel()] *)
Definition ravel {A} (a : ndarray A) : list A :=
  match a with Vec v => v | Block pixels => List.concat pixels end.

(* ------------------------------------------------------------------ *)
(** ** Percentiles *)

(** The arrays of the process: a kernel is handed a reference. *)
Definition heap := list field.

Definition heap_get (h : heap) (r : nat) : field := nth r h [].

Fixpoint heap_set (h : heap) (r : nat) (f : field) : heap :=
  match h, r with
  | [], _ => []
  | _ :: h', O => f :: h'
  | g :: h', S r' => g :: heap_set h' r' f
  end.

Section Kernels.
Context {E : Externals}.

(** [_percentile_func(arr, axis=-1, q=q, thr=thr)]: [arr[arr < thr] = nan]
    writes into the array that [arr] refers to. *)
Definition _percentile_func (h : heap) (arr : nat) (q : list float)
           (thr : pyval) : res (heap * list (list float)) :=
  match (if negb (is_none thr) then
           match as_float thr with
           | Raise e => Raise e
           | Ok t =>
               Ok (heap_set h arr
                     (map (map (fun x => if PrimFloat.ltb x t then nan else x))
                          (heap_get h arr)))
           end
         else Ok h) with
  | Raise e => Raise e
  | Ok h' =>
      let pctl := map (fun series => np_nanpercentile series q) (heap_get h' arr) in
      Ok (h', pctl)
  end.

(* ---------------------------------------------------------------- *)
(** ** Harmonic fit of the diurnal cycle *)

Local Open Scope float_scope.

Definition _f1 (t m c1 p1 : float) : float :=
  m + c1 * np_cos (2 * np_pi * t / 24 - p1).

Definition _f2 (t m c2 p2 : float) : float :=
  m + c2 * np_cos (4 * np_pi * t / 24 - p2).

(** The two harmonics summed, as [_compute] evaluates them. *)
Definition harmonic_curve (m c1 p1 c2 p2 t : float) : float :=
  m + c1 * np_cos (2 * np_pi * t / 24 - p1)
    + c2 * np_cos (4 * np_pi * t / 24 - p2).

(** The inner [_compute] of [_harmonic_linefit]. *)
Definition _harmonic_linefit_compute (data1d : list float) (v : pyval)
  : M (list float) :=
  if existsb isnan data1d then
    print "Data missing/masked!" ;;;
    ret (repeat nan 204)
  else
    '(m, c1, p1) <- lift (curve_fit _f1 (indices (List.length data1d)) data1d) ;;
    '(m, c2, p2) <- lift (curve_fit _f2 (indices (List.length data1d)) data1d) ;;
    let t := np_linspace 0 23 200 in
    let r := map (harmonic_curve m c1 p1 c2 p2) t in
    ret ([c1; p1; c2; p2] ++ r)%list.

Definition _harmonic_linefit (data : ndarray float) (keepdims : bool)
           (var : pyval) : M (ndarray float) :=
  if keepdims then
    apply_along_axis float_buffer
      (fun data1d => _harmonic_linefit_compute data1d var) data
  else
    py_assert (ndim data =? 1)%Z ;;;
    dcycle <- _harmonic_linefit_compute (ravel data) var ;;
    ret (Vec dcycle).

(* ---------------------------------------------------------------- *)
(** ** Frequency-intensity distribution *)

Definition count_if (p : float -> bool) (xs : list float) : Z :=
  Z.of_nat (List.length (filter p xs)).

(** [a[1:] - a[:-1]] *)
Definition diffZ (a : list Z) : list Z :=
  map2 (fun x y => (y - x)%Z) a (tl a).
Definition diff_float (a : list float) : list float :=
  map2 (fun x y => y - x) a (tl a).

(** [numpy.any(a[:-1] > a[1:])] *)
Definition any_descent (a : list float) : bool :=
  existsb (fun b : bool => b) (map2 (fun x y => PrimFloat.ltb y x) a (tl a)).
Definition any_ascent (a : list float) : bool :=
  existsb (fun b : bool => b) (map2 (fun x y => PrimFloat.ltb x y) a (tl a)).

Definition sumZ (l : list Z) : Z := fold_left Z.add l 0%Z.

(** The density histogram over given edges ([numpy.histogram]'s path for
    an array of edges; the edges hold no NaN): cumulative counts below
    each edge, the last edge included, then [n / diff(edges) / n.sum()]. *)
Definition histogram_over_edges (a edges : list float) : list float :=
  let cum_n :=
    match edges with
    | [] => []
    | _ => (map (fun e => count_if (fun x => PrimFloat.ltb x e) a) (removelast edges)
            ++ [count_if (fun x => PrimFloat.leb x (last edges 0)) a])%list
    end in
  let n := diffZ cum_n in
  let db := diff_float edges in
  let total := float_of_Z (sumZ n) in
  map2 (fun ni d => float_of_Z ni / d / total) n db.

Definition is_finite (x : float) : bool :=
  negb (isnan x) && negb (PrimFloat.eqb (PrimFloat.abs x) infinity).

(** What [bins] holds inside [_pdf_calc]: a number of bins, or edges. *)
Inductive binspec : Type :=
| BCount (n : Z)
| BEdges (edges : list float).

(** [numpy.histogram(a, bins=bins, density=True)[0]] for [a] without NaN. *)
Definition np_histogram_density (a : list float) (bins : binspec)
  : res (list float) :=
  match bins with
  | BEdges edges =>
      if any_descent edges then Raise ValueError
      else Ok (histogram_over_edges a edges)
  | BCount n =>
      if (n <? 1)%Z then Raise ValueError
      else
        let '(first_edge, last_edge) :=
          match a with
          | [] => (0, 1)
          | x :: rest =>
              (fold_left (fun acc y => if PrimFloat.ltb y acc then y else acc) rest x,
               fold_left (fun acc y => if PrimFloat.ltb acc y then y else acc) rest x)
          end in
        if negb (is_finite first_edge && is_finite last_edge) then Raise ValueError
        else
          let '(first_edge, last_edge) :=
            if PrimFloat.eqb first_edge last_edge
            then (first_edge - 0.5, last_edge + 0.5)
            else (first_edge, last_edge) in
          Ok (histogram_over_edges a
                (np_linspace first_edge last_edge (Z.to_nat (n + 1))))
  end.

(** [numpy.digitize(x, bins)]: over edges that do not descend, the number
    of edges [<= v]; over edges that do not ascend, the number of edges
    [> v]. *)
Definition np_digitize (x : list float) (bins : binspec) : res (list Z) :=
  match bins with
  | BCount _ => Raise ValueError
  | BEdges edges =>
      if negb (any_descent edges) then
        Ok (map (fun v => count_if (fun e => PrimFloat.leb e v) edges) x)
      else if negb (any_ascent edges) then
        Ok (map (fun v => count_if (fun e => PrimFloat.ltb v e) edges) x)
      else Raise ValueError
  end.

(** [len(bins)] *)
Definition binspec_len (bins : binspec) : res Z :=
  match bins with
  | BCount _ => Raise TypeError
  | BEdges edges => Ok (Z.of_nat (List.length edges))
  end.

(** [indata[np.where(binned == bint)]], empty when [bint not in binned]
    (the source then stores the scalar NaN, read back as mean 0.0 and
    size 0). *)
Definition members (indata : list float) (binned : list Z) (bint : Z)
  : list float :=
  map fst (filter (fun p => (snd p =? bint)%Z) (combine indata binned)).

(** [numpy.hstack((dry_events, hdata))] *)
Definition hstack_dry (dry_events : option Z) (hdata : list float)
  : list pyval :=
  match dry_events with
  | Some n => PFloat (float_of_Z n) :: map PFloat hdata
  | None => PNone :: map PFloat hdata
  end.

(** [v] as an optional float: [None] stays unset. *)
Definition opt_float (v : pyval) : res (option float) :=
  if is_none v then Ok None
  else match as_float v with
       | Ok f => Ok (Some f)
       | Raise e => Raise e
       end.

(** The inner [_compute] of [_pdf_calc]. *)
Definition _pdf_calc_compute (data1d : list float) (bins : binspec)
           (lbins : Z) (norm : bool) (thr dry_thr : pyval)
  : M (list pyval) :=
  if forallb isnan data1d then
    print "All data missing/masked!" ;;;
    if (lbins + 1 <? 0)%Z then raise ValueError
    else ret (map PFloat (repeat nan (Z.to_nat (lbins + 1))))
  else
    let data1d :=
      if existsb isnan data1d
      then filter (fun x => negb (isnan x)) data1d else data1d in
    dry <- lift (opt_float dry_thr) ;;
    let dry_events :=
      match dry with
      | Some d => Some (count_if (fun x => PrimFloat.ltb x d) data1d)
      | None => None
      end in
    t <- lift (opt_float thr) ;;
    let indata :=
      match t with
      | Some t => filter (fun x => PrimFloat.leb t x) data1d
      | None => data1d
      end in
    if norm then
      binned <- lift (np_digitize indata bins) ;;
      n <- lift (binspec_len bins) ;;
      let binned_dict :=
        map (fun i => members indata binned (Z.of_nat i))
            (seq 1 (Z.to_nat n - 1)) in
      (* Mean value for each bin *)
      let means :=
        map (fun arr => match arr with [] => 0 | _ => np_mean arr end)
            binned_dict in
      (* Occurrences and frequencies *)
      let ocrns := map (fun arr => Z.of_nat (List.length arr)) binned_dict in
      let frequency :=
        map (fun o => float_of_Z o / float_of_Z (sumZ ocrns)) ocrns in
      let C := map2 PrimFloat.mul frequency means in
      let hdata := map (fun c => c / np_nansum C) C in
      ret (hstack_dry dry_events hdata)
    else
      hdata <- lift (np_histogram_density indata bins) ;;
      ret (hstack_dry dry_events hdata).

Local Close Scope float_scope.

Definition _pdf_calc (data : ndarray float) (bins : option binspec)
           (norm keepdims : bool) (thr dry_event_thr : pyval)
  : M (ndarray pyval) :=
  (* Set number of bins to 10 (np.histogram default) if bins not provided. *)
  let inbins := match bins with None => BCount 10 | Some b => b end in
  let lbins := match inbins with
               | BCount n => n
               | BEdges edges => Z.of_nat (List.length edges) - 1
               end in
  if keepdims then
    apply_along_axis cell_buffer
      (fun data1d => _pdf_calc_compute data1d inbins lbins norm thr dry_event_thr)
      data
  else
    hist <- _pdf_calc_compute (ravel data) inbins lbins norm thr dry_event_thr ;;
    ret (Vec hist).
End Kernels.

(* ================================================================== *)
(** * Inputs for the examples *)

Definition toy_str_float (f : float) : string :=
  match Prim2SF f with
  | S754_zero s => if s then "-0.0" else "0.0"
  | S754_infinity s => if s then "-inf" else "inf"
  | S754_nan => "nan"
  | S754_finite s m e =>
      (if s then "-" else "") ++ str_of_Z (Z.pos m) ++ "*2**" ++ str_of_Z e
  end.

(** An instance on which the model runs.  The numerical libraries are
    replaced by simple total functions: a parabola for the cosine, the mean
    with unit amplitude and phase for the fit, the largest value for every
    percentile, box weights for the Lanczos filter, and an [eval] that
    refuses everything. *)
Definition toy_externals : Externals := {|
  str_float := toy_str_float;
  py_eval := fun _ => Raise SyntaxError;
  np_cos := fun x => (1 - x * x / 2)%float;
  curve_fit := fun _ _ ydata => Ok (np_mean ydata, 1%float, 1%float);
  np_nanpercentile := fun a q => map (fun _ => np_nanmax a) q;
  lanczos_filter := fun window _ _ _ =>
    Ok (repeat (1 / float_of_Z window)%float (Z.to_nat window))
|}.

(** The same instance with a fit that does not converge. *)
Definition failing_fit_externals : Externals := {|
  str_float := toy_str_float;
  py_eval := fun _ => Raise SyntaxError;
  np_cos := fun x => (1 - x * x / 2)%float;
  curve_fit := fun _ _ _ => Raise RuntimeError;
  np_nanpercentile := fun a q => map (fun _ => np_nanmax a) q;
  lanczos_filter := fun window _ _ _ =>
    Ok (repeat (1 / float_of_Z window)%float (Z.to_nat window))
|}.

Definition ns_per_day : Z := 86400000000000.

(** Three daily time steps of a variable [tas] on two pixels. *)
Definition daily_tas : Dataset :=
  mkDataset [0; ns_per_day; 2 * ns_per_day]
            [("tas", [[1; 5; 9]; [2; 4; 6]]%float)] [].

(** Four hourly time steps of precipitation on one pixel. *)
Definition hourly_pr : Dataset :=
  mkDataset [0; ns_per_hour; 2 * ns_per_hour; 3 * ns_per_hour]
            [("pr", [[0; 5; 9; 1]]%float)] [].

(** The resolved configuration of one statistic with some options set. *)
Definition configured (stat : string) (overrides : dict) : dict :=
  match outcome (mod_stats_config [(stat, Overrides overrides)]) with
  | Ok cfg => cfg
  | Raise _ => []
  end.

Definition lanczos_valid_config : dict :=
  configured "signal filtering"
    [("window", PInt 3); ("mode", PStr "valid");
     ("1st cutoff", PInt 10); ("2nd cutoff", PInt 5)].

Definition lanczos_even_config : dict :=
  configured "signal filtering" [("window", PInt 60)].

(* ================================================================== *)
(** * Output contracts of the kernels *)

(** The 200 points over one day at which the fitted curve is evaluated:
    [k * (23 / 199)] for [k = 0 .. 198], and 23. *)
Definition day_points : list float :=
  (map (fun k => float_of_Z (Z.of_nat k) * (23 / 199) + 0)%float (seq 0 199)
   ++ [23%float])%list.

(** What the harmonic kernel returns on one pixel: 204 values, all NaN when
    a value of the series is missing; else, for the parameters [(m, c1, p1)]
    fitted to the harmonic of period 24 and [(m, c2, p2)] fitted to the
    harmonic of period 12 over the positions [0 .. n-1] of the series, the
    four parameters [c1, p1, c2, p2] and then the sum of the two harmonics,
    around the mean of the second fit, at the 200 points of the day.  The
    formulas are written out here, apart from the kernel. *)
Definition harmonic_vector {E : Externals} (data1d out : list float) : Prop :=
  let pi := 0x1.921fb54442d18p+1%float in
  let positions :=
    map (fun i => float_of_Z (Z.of_nat i)) (seq 0 (List.length data1d)) in
  List.length out = 204%nat /\
  (existsb isnan data1d = true -> out = repeat nan 204) /\
  (existsb isnan data1d = false ->
   exists m1 c1 p1 m2 c2 p2,
     curve_fit (fun t m c p => m + c * np_cos (2 * pi * t / 24 - p))%float
               positions data1d = Ok (m1, c1, p1) /\
     curve_fit (fun t m c p => m + c * np_cos (4 * pi * t / 24 - p))%float
               positions data1d = Ok (m2, c2, p2) /\
     firstn 4 out = [c1; p1; c2; p2] /\
     skipn 4 out =
       map (fun t => m2 + c1 * np_cos (2 * pi * t / 24 - p1)
                        + c2 * np_cos (4 * pi * t / 24 - p2))%float
           day_points).

(** Whether both fits of the harmonic kernel return on a series. *)
Definition fits_return {E : Externals} (data1d : list float) : Prop :=
  let pi := 0x1.921fb54442d18p+1%float in
  let positions :=
    map (fun i => float_of_Z (Z.of_nat i)) (seq 0 (List.length data1d)) in
  exists t1 t2,
    curve_fit (fun t m c p => m + c * np_cos (2 * pi * t / 24 - p))%float
              positions data1d = Ok t1 /\
    curve_fit (fun t m c p => m + c * np_cos (4 * pi * t / 24 - p))%float
              positions data1d = Ok t2.

(** What the PDF kernel returns on one pixel, for the bin edges [edges] and
    the dry-event threshold [dry]: one slot per edge (the bins and the
    leading slot); all NaN when the series is all missing, else the leading
    slot holds the number of values below [dry], or [None] without it. *)
Definition pdf_vector (edges : list float) (dry : option float)
           (data1d : list float) (out : list pyval) : Prop :=
  List.length out = List.length edges /\
  (forallb isnan data1d = true ->
   out = map PFloat (repeat nan (List.length edges))) /\
  (forallb isnan data1d = false ->
   hd_error out =
     Some match dry with
          | Some d =>
              PFloat (float_of_Z
                        (count_if (fun x => PrimFloat.ltb x d)
                                  (filter (fun x => negb (isnan x)) data1d)))
          | None => PNone
          end /\
   exists hdata, tl out = map PFloat hdata).

(** The row of a pixel in the block the PDF kernel returns.  It is the
    vector of the pixel, except that without a dry-event threshold the
    leading slot is [None] only when the first pixel of the block has a
    value: when the first pixel is all missing the block is an array of
    [float64], in which [None] is stored as NaN. *)
Definition pdf_row (edges : list float) (dry : option float)
           (first_has_value : bool) (data1d : list float) (out : list pyval)
  : Prop :=
  List.length out = List.length edges /\
  (forallb isnan data1d = true ->
   out = map PFloat (repeat nan (List.length edges))) /\
  (forallb isnan data1d = false ->
   hd_error out =
     Some match dry with
          | Some d =>
              PFloat (float_of_Z
                        (count_if (fun x => PrimFloat.ltb x d)
                                  (filter (fun x => negb (isnan x)) data1d)))
          | None => if first_has_value then PNone else PFloat nan
          end /\
   exists hdata, tl out = map PFloat hdata).

(* ================================================================== *)
(** * The remaining statistics and the registry *)

(** What these functions use of Python and of the sibling module
    [rcat.stats.ASoP], beside [Externals]. *)
Class Siblings : Type := {
  (** [float(s)] of a string. *)
  py_float : string -> res float;
  (** [rcat.stats.ASoP.bins_calc(n)]. *)
  bins_calc : pyval -> res float
}.

(** [s.split(sep)] for a separator of one character. *)
Fixpoint split_on (sep : ascii) (s : string) : list string :=
  match s with
  | EmptyString => [EmptyString]
  | String c s' =>
      if Ascii.eqb c sep then EmptyString :: split_on sep s'
      else match split_on sep s' with
           | [] => [String c EmptyString]
           | w :: ws => String c w :: ws
           end
  end.

(** The kernels of the sibling modules, with their keyword arguments:
    [ASoP.asop], [event_duration.eda] and [climateindex.Rxx]. *)
Inductive sibling_kernel : Type :=
| K_asop (bins : list float)
| K_eda (thr duration_bins event_statistic statistic_bins dry_events
         dry_bins : pyval)
| K_Rxx (thr normalize : pyval).

(** The lazy results of the remaining statistics. *)
Inductive xr_ext : Type :=
| XFirst (x : xr)
| XGroupbyReduce (var group : string) (q : float) (d : Dataset)
    (** [data[var].groupby('time.<group>').reduce(_dask_percentile,
        dim='time', q=q, allow_lazy=True)] *)
| XSibling (k : sibling_kernel) (var : string) (out_dims : list (string * Z))
           (d : Dataset).
    (** [apply_ufunc(k, data[var], input_core_dims=[['time']],
        output_core_dims=[out_dims], output_sizes=...)] *)

Record StatExt : Type := mkStatExt {
  se_body : xr_ext;
  se_reindex : option (string * list string);   (** [.reindex(season=[...])] *)
  se_coords : list (string * list pyval);
  se_attrs : list (string * string)
}.

(** [numpy.array(v).size] over rectangular data. *)
Fixpoint np_size (v : pyval) : Z :=
  match v with
  | PList l =>
      (fix go (l : list pyval) : Z :=
         match l with
         | [] => 0
         | x :: l' => np_size x + go l'
         end) l
  | _ => 1
  end.

(** [a.size] of [a = np.array(v) if v is not None else v]. *)
Definition array_size (v : pyval) : res Z :=
  if is_none v then Raise AttributeError else Ok (np_size v).

(** The values of [np.array(v)], flat. *)
Definition array_items (v : pyval) : list pyval :=
  match v with PList l => l | _ => [v] end.

(** [numpy.arange(n)] *)
Definition arange_count (n : pyval) : res (list pyval) :=
  match n with
  | PInt z => Ok (map (fun i => PInt (Z.of_nat i)) (seq 0 (Z.to_nat z)))
  | PBool b => Ok (if b then [PInt 0] else [])
  | PFloat f => match np_arange 0 f 1 with
                | Ok l => Ok (map PFloat l)
                | Raise e => Raise e
                end
  | _ => Raise TypeError
  end.

Section MoreStatistics.
Context {E : Externals} {Sb : Siblings}.

Definition seasons : list string := ["DJF"; "MAM"; "JJA"; "SON"].

Definition seasonal_cycle (data : Dataset) (var stat : string)
           (stat_config : dict) : M StatExt :=
  tstat <- lift (config_get stat_config stat "stat method") ;;
  in_thr <- lift (config_get stat_config stat "thr") ;;
  '(thr, data) <- lift (apply_threshold in_thr var data) ;;
  is_pctl <- lift (py_in "percentile" tstat) ;;
  st_data <-
    (if is_pctl : bool then
       match tstat with
       | PStr s =>
           piece <- lift (match nth_error (split_on " " s) 1 with
                          | Some piece => Ok piece
                          | None => Raise IndexError
                          end) ;;
           q <- lift (py_float piece) ;;
           _ <- lift (ds_getvar data var) ;;
           ret (XGroupbyReduce var "season" q data)
       | _ => raise AttributeError
       end
     else
       method <- lift (method_call (py_str tstat)) ;;
       ret (XFirst (XGroupby "season" method data))) ;;
  ret (mkStatExt st_data (Some ("season", seasons)) []
         [("Description",
           "Seasonal cycle | Season stat: " ++ py_str tstat ++
           " | Threshold: " ++ py_str thr)]).

(** In the percentile path the result is transposed to
    [('pctls', 'month', dims[0], dims[1])], which is a permutation of its
    dimensions when time is the last axis of the variable, as in [field];
    with time on another axis xarray refuses it. *)
Definition annual_cycle (data : Dataset) (var stat : string)
           (stat_config : dict) : M StatData :=
  tstat <- lift (config_get stat_config stat "stat method") ;;
  in_thr <- lift (config_get stat_config stat "thr") ;;
  '(thr, data) <- lift (apply_threshold in_thr var data) ;;
  is_pctl <- lift (py_in "percentile" tstat) ;;
  '(body, coords) <-
    (if is_pctl : bool then
       q <- lift (percentile_argument tstat) ;;
       _ <- lift (ds_getvar data var) ;;
       n <- lift (py_len q) ;;
       let ac_pctls :=
         XUfunc (K_percentile (py_items q) thr) var (Some "month")
                "pctls" n (XData data) in
       ret (ac_pctls, [("pctls", py_items q)])
     else
       method <- lift (method_call (py_str tstat)) ;;
       ret (XGroupby "month" method data, [])) ;;
  ret (mkStat body None coords
         [("Description",
           "Annual cycle | Month stat: " ++ py_str tstat ++
           " | Threshold: " ++ py_str thr)]).

Definition percentile (data : Dataset) (var stat : string)
           (stat_config : dict) : M StatData :=
  in_thr <- lift (config_get stat_config stat "thr") ;;
  thr <- lift (resolve_option in_thr var) ;;
  pctls <- lift (config_get stat_config stat "pctls") ;;
  let lpctls := match pctls with PList l => l | _ => [pctls] end in
  _ <- lift (ds_getvar data var) ;;
  let pctl_c :=
    XUfunc (K_percentile lpctls thr) var None "pctls"
           (Z.of_nat (List.length lpctls)) (XData data) in
  ret (mkStat pctl_c None [("percentiles", lpctls)]
         [("Description",
           "Percentile | q: " ++ py_str (PList lpctls) ++
           " | threshold: " ++ py_str thr)]).

Definition asop (data : Dataset) (var stat : string) (stat_config : dict)
  : M StatExt :=
  nr_cfg <- lift (config_get stat_config stat "nr_bins") ;;
  nr_bins <- lift (if is_none nr_cfg then arange_count (PInt 50)
                   else arange_count nr_cfg) ;;
  bins <- for_each nr_bins
            (fun acc n => b <- lift (bins_calc n) ;; ret (acc ++ [b])%list) [] ;;
  let bins := (0%float :: bins) in
  let lbins := Z.of_nat (List.length bins) - 1 in
  in_thr <- lift (config_get stat_config stat "thr") ;;
  thr <- lift (resolve_option in_thr var) ;;
  _ <- lift (ds_getvar data var) ;;
  ret (mkStatExt
         (XSibling (K_asop bins) var [("factors", 2); ("bins", lbins)] data)
         None
         [("bin_edges", map PFloat bins); ("factors", [PStr "C"; PStr "FC"])]
         [("Description", "ASoP analysis | threshold: " ++ py_str thr)]).

Definition eda_calc (data : Dataset) (var stat : string) (stat_config : dict)
  : M StatExt :=
  (* Statistic used for events *)
  event_stat <- lift (config_get stat_config stat "event statistic") ;;
  (* Bins *)
  dur_bins <- lift (config_get stat_config stat "duration bins") ;;
  st_bins <- lift (config_get stat_config stat "statistic bins") ;;
  (* Dry intervals *)
  dry <- lift (config_get stat_config stat "dry events") ;;
  dry_bins <- lift (config_get stat_config stat "dry bins") ;;
  dur_size <- lift (array_size dur_bins) ;;
  let dur_dim := if py_truthy dry then dur_size + 1 else dur_size in
  st_size <- lift (array_size st_bins) ;;
  let frq_dim := st_size - 1 in
  (* Event threshold *)
  thr <- lift (config_get stat_config stat "event thr") ;;
  _ <- lift (ds_getvar data var) ;;
  ret (mkStatExt
         (XSibling (K_eda thr dur_bins event_stat st_bins dry dry_bins) var
                   [("frequency", frq_dim); ("duration", dur_dim)] data)
         None
         [("duration_bins", array_items dur_bins);
          ("statistic_bins", array_items st_bins);
          ("dry_bins", array_items dry_bins)]
         [("Description",
           "EDA analysis | event statistic: " ++ py_str event_stat ++
           " | threshold: " ++ py_str thr)]).

Definition Rxx (data : Dataset) (var stat : string) (stat_config : dict)
  : M StatExt :=
  in_thr <- lift (config_get stat_config stat "thr") ;;
  thr <- lift (resolve_option in_thr var) ;;
  (* Normalized values or not *)
  norm <- lift (config_get stat_config stat "normalize") ;;
  _ <- lift (ds_getvar data var) ;;
  ret (mkStatExt (XSibling (K_Rxx thr norm) var [] data) None []
         [("Description",
           "Rxx; frequency above threshold | threshold: " ++ py_str thr ++
           " | normalized: " ++ py_str norm)]).

(** What a statistic function returns. *)
Inductive stat_result : Type :=
| First (st : StatData)
| Second (st : StatExt).

Definition stat_function : Type :=
  Dataset -> string -> string -> dict -> M stat_result.

Definition first_kind (f : Dataset -> string -> string -> dict -> M StatData)
  : stat_function :=
  fun data var stat stat_config =>
    st <- f data var stat stat_config ;; ret (First st).

Definition second_kind (f : Dataset -> string -> string -> dict -> M StatExt)
  : stat_function :=
  fun data var stat stat_config =>
    st <- f data var stat stat_config ;; ret (Second st).

(** The dictionary [p] of [_stats]. *)
Definition stats_registry : list (string * stat_function) :=
  [ ("moments", first_kind moments);
    ("seasonal cycle", second_kind seasonal_cycle);
    ("annual cycle", first_kind annual_cycle);
    ("percentile", first_kind percentile);
    ("diurnal cycle", first_kind diurnal_cycle);
    ("dcycle harmonic", first_kind dcycle_harmonic_fit);
    ("pdf", first_kind freq_int_dist);
    ("asop", second_kind asop);
    ("eda", second_kind eda_calc);
    ("Rxx", second_kind Rxx);
    ("signal filtering", first_kind filtering) ].

Definition _stats (stat : string) : res stat_function :=
  match assoc stats_registry stat with
  | Some f => Ok f
  | None => Raise KeyError
  end.

Definition calc_statistics (data : Dataset) (var stat : string)
           (stat_config : dict) : M stat_result :=
  f <- lift (_stats stat) ;;
  f data var stat stat_config.
End MoreStatistics.

(** An instance on which the remaining statistics run: [float] reads
    strings of digits, and the ASoP edges are the bin numbers. *)
Definition toy_siblings : Siblings := {|
  py_float := fun s => if str_isdigit s then Ok (float_of_Z (int_of_digits s))
                       else Raise ValueError;
  bins_calc := as_float
|}.

(** The default record with the overrides stored in turn. *)
Definition apply_overrides (rec o : dict) : dict :=
  fold_left (fun r '(m, v) => dict_store r m v) o rec.

(** The record the resolver builds for one request. *)
Definition resolved_record (rec : dict) (r : request) : dict :=
  match r with
  | Default => rec
  | Overrides o => apply_overrides rec o
  end.

(* ================================================================== *)
(** * Definitions used to state further properties *)

(** The default record of a statistic. *)
Definition default_record (k : string) : dict :=
  match dict_find stats_dict k with
  | Some (PDict rec) => rec
  | _ => []
  end.

(** The entry [k: stats_dict[k]] of [default_stats_config]. *)
Definition default_entry (k : string) : string * pyval :=
  (k, PDict (default_record k)).

(** The entry the resolver returns for one request. *)
Definition resolved_entry (kr : string * request) : string * pyval :=
  (fst kr, PDict (resolved_record (default_record (fst kr)) (snd kr))).

(** What [data.where(data[var] >= thr)] leaves of the variable [var]
    itself. *)
Definition mask_below (t : float) (f : field) : field :=
  map (map (fun x => if PrimFloat.leb t x then x else nan)) f.

(** [xa.where(~(isnan(x) | (x >= 0.0)), 0.0, x)] *)
Definition clip_negative (f : field) : field :=
  map (map (fun x => if negb (isnan x || PrimFloat.leb 0 x) then 0%float
                     else x)) f.

(* ================================================================== *)
(** * Properties *)

(** ** The call monad *)

Lemma bind_ok {A B} (a : A) (k : A -> M B) : bind (ret a) k = k a.
Proof. unfold bind, ret. destruct (k a) as [out r]. reflexivity. Qed.

Lemma bind_lift_ok {A B} (a : A) (k : A -> M B) : bind (lift (Ok a)) k = k a.
Proof. apply bind_ok. Qed.

Lemma bind_lift_raise {A B} (e : exn) (k : A -> M B) :
  bind (lift (Raise e)) k = raise e.
Proof. reflexivity. Qed.

Lemma outcome_bind_ok {A B} (m : M A) (k : A -> M B) (a : A) :
  outcome m = Ok a -> outcome (bind m k) = outcome (k a).
Proof.
  destruct m as [out r]. simpl. intros ->. unfold bind.
  destruct (k a) as [out' r']. reflexivity.
Qed.

Lemma outcome_bind_raise {A B} (m : M A) (k : A -> M B) (e : exn) :
  outcome m = Raise e -> outcome (bind m k) = Raise e.
Proof. destruct m as [out r]. simpl. intros ->. reflexivity. Qed.

Lemma stdout_bind {A B} (m : M A) (k : A -> M B) :
  stdout (bind m k) =
  match outcome m with
  | Ok a => (stdout m ++ stdout (k a))%list
  | Raise _ => stdout m
  end.
Proof.
  destruct m as [out [a | e]]; simpl; [| reflexivity].
  destruct (k a) as [out' r']. reflexivity.
Qed.

(** A loop whose body keeps an invariant and prints nothing prints nothing,
    and leaves the invariant on the state it returns. *)
Lemma for_each_invariant {A S} (P : S -> Prop) (body : S -> A -> M S) :
  forall (xs : list A) (s : S),
    P s ->
    (forall s x, In x xs -> P s ->
                 stdout (body s x) = [] /\
                 forall s', outcome (body s x) = Ok s' -> P s') ->
    stdout (for_each xs body s) = [] /\
    forall s', outcome (for_each xs body s) = Ok s' -> P s'.
Proof.
  induction xs as [| x xs IH]; intros s Hs Hbody.
  - split; [reflexivity |]. simpl. intros s' [= <-]. exact Hs.
  - destruct (Hbody s x (or_introl eq_refl) Hs) as [Hout Hnext].
    cbn [for_each]. rewrite stdout_bind, Hout.
    destruct (outcome (body s x)) as [s1 | e] eqn:Hr.
    + assert (IH' := IH s1 (Hnext s1 eq_refl)
                        (fun s0 x0 Hin => Hbody s0 x0 (or_intror Hin))).
      destruct IH' as [IHout IHnext]. split; [exact IHout |].
      intros s'. rewrite (outcome_bind_ok _ _ _ Hr). apply IHnext.
    + split; [reflexivity |].
      intros s'. rewrite (outcome_bind_raise _ _ _ Hr). discriminate.
Qed.

(** ** Dictionaries *)

Lemma dict_find_store_same (d : dict) (k : string) (v : pyval) :
  dict_find (dict_store d k v) k = Some v.
Proof.
  induction d as [| [k' v'] d IH]; simpl.
  - now rewrite String.eqb_refl.
  - destruct (String.eqb k k') eqn:Hk; simpl; rewrite Hk; [reflexivity | exact IH].
Qed.

Lemma dict_find_store_other (d : dict) (k k0 : string) (v : pyval) :
  k0 <> k -> dict_find (dict_store d k v) k0 = dict_find d k0.
Proof.
  intros Hne. induction d as [| [k' v'] d IH]; simpl.
  - destruct (String.eqb k0 k) eqn:Hk; [| reflexivity].
    apply String.eqb_eq in Hk. contradiction.
  - destruct (String.eqb k k') eqn:Hk; simpl.
    + apply String.eqb_eq in Hk. subst k'.
      destruct (String.eqb k0 k) eqn:Hk0; [| reflexivity].
      apply String.eqb_eq in Hk0. contradiction.
    + destruct (String.eqb k0 k'); [reflexivity | exact IH].
Qed.

Lemma dict_mem_store (d : dict) (k k0 : string) (v : pyval) :
  dict_mem d k0 = true -> dict_mem (dict_store d k v) k0 = true.
Proof.
  unfold dict_mem. intros H.
  destruct (String.eqb k0 k) eqn:Hk.
  - apply String.eqb_eq in Hk. subst. now rewrite dict_find_store_same.
  - apply String.eqb_neq in Hk. now rewrite dict_find_store_other.
Qed.

(** ** Configuration resolver *)

(** With the statistic in the record set, the assignment of an option
    never raises [KeyError]: the handler of [mod_stats_config] is dead. *)
Lemma assign_option_no_KeyError (d : dict) (k m : string) (v : pyval) :
  dict_mem d k = true -> assign_option d k m v <> Raise KeyError.
Proof.
  unfold assign_option, dict_mem, dict_getitem, dict_setitem.
  destruct (dict_find d k) as [[] |]; discriminate.
Qed.

Lemma try_assign_option_keeps (d : dict) (k m : string) (v : pyval) :
  dict_mem d k = true ->
  stdout (try_assign_option d k m v) = [] /\
  forall d', outcome (try_assign_option d k m v) = Ok d' ->
             forall k0, dict_mem d k0 = true -> dict_mem d' k0 = true.
Proof.
  intros Hk. unfold try_assign_option.
  assert (Hno := assign_option_no_KeyError d k m v Hk).
  unfold assign_option, dict_getitem, dict_setitem in *.
  unfold dict_mem in Hk.
  destruct (dict_find d k) as [[] |]; try discriminate; simpl;
    try (split; [reflexivity | discriminate]).
  split; [reflexivity |]. intros d' [= <-] k0. apply dict_mem_store.
Qed.

Lemma default_stats_config_silent (stats : list string) :
  stdout (default_stats_config stats) = [].
Proof.
  unfold default_stats_config.
  apply (for_each_invariant (fun _ => True)); [exact I |].
  intros s k _ _. split; [| trivial].
  unfold dict_getitem. destruct (dict_find stats_dict k); reflexivity.
Qed.

Lemma default_stats_config_keys (stats : list string) (d : dict) :
  outcome (default_stats_config stats) = Ok d ->
  forall k, In k stats -> dict_mem d k = true.
Proof.
  unfold default_stats_config.
  assert (G : forall (ks : list string) (acc d : dict),
             outcome (for_each ks
               (fun acc k => bind (lift (dict_getitem stats_dict k))
                               (fun v => ret (dict_store acc k v))) acc) = Ok d ->
             forall k, (In k ks \/ dict_mem acc k = true) -> dict_mem d k = true).
  { induction ks as [| k0 ks IH]; intros acc d0 Hrun k Hk.
    - simpl in Hrun. injection Hrun as <-. destruct Hk as [[] | Hk]; exact Hk.
    - cbn [for_each] in Hrun.
      destruct (dict_getitem stats_dict k0) as [v | e] eqn:Hg.
      + rewrite bind_lift_ok, bind_ok in Hrun.
        apply (IH _ _ Hrun k).
        destruct Hk as [[<- | Hin] | Hacc].
        * right. unfold dict_mem. now rewrite dict_find_store_same.
        * now left.
        * right. now apply dict_mem_store.
      + rewrite bind_lift_raise in Hrun. discriminate. }
  intros Hrun k Hin. apply (G stats [] d Hrun k). now left.
Qed.

(** For every request, the resolver prints nothing: no diagnostic is ever
    emitted, whatever keys the caller supplies. *)
Lemma mod_stats_config_never_prints (requested_stats : list (string * request)) :
  stdout (mod_stats_config requested_stats) = [].
Proof.
  unfold mod_stats_config. rewrite stdout_bind, default_stats_config_silent.
  destruct (outcome (default_stats_config (map fst requested_stats)))
    as [d |] eqn:Hd; [| reflexivity].
  simpl.
  pose (P := fun d : dict =>
               forall k, In k (map fst requested_stats) -> dict_mem d k = true).
  apply (for_each_invariant P).
  - exact (default_stats_config_keys _ _ Hd).
  - intros s [k r] Hin HP. destruct r as [| o].
    + split; [reflexivity |]. simpl. intros s' [= <-]. exact HP.
    + assert (Hk : In k (map fst requested_stats))
        by (apply (in_map fst) in Hin; exact Hin).
      apply (for_each_invariant P); [exact HP |].
      intros s0 [m v] _ HP0.
      destruct (try_assign_option_keeps s0 k m v (HP0 k Hk)) as [Hout Hkeep].
      split; [exact Hout |].
      intros s' Hs' k0 Hk0. exact (Hkeep s' Hs' k0 (HP0 k0 Hk0)).
Qed.

(** C1 (code defect).  A request for the statistic [pdf] with the option
    [binz], which the default record of [pdf] does not have: the resolver
    prints no diagnostic and returns a record in which [binz] is set to the
    caller's value.  And for every request, the resolver prints nothing. *)
Theorem mod_stats_config_accepts_unknown_key :
  let r := mod_stats_config [("pdf", Overrides [("binz", PInt 7)])] in
  (config_get stats_dict "pdf" "binz" = Raise KeyError /\
   stdout r = [] /\
   exists cfg, outcome r = Ok cfg /\ config_get cfg "pdf" "binz" = Ok (PInt 7)) /\
  forall requested_stats, stdout (mod_stats_config requested_stats) = [].
Proof.
  cbv zeta. split; [| exact mod_stats_config_never_prints].
  split; [reflexivity |]. split; [reflexivity |].
  eexists. split; reflexivity.
Qed.

(** ** Percentile kernel *)

Lemma heap_get_set (h : heap) (r : nat) (f : field) :
  (r < List.length h)%nat -> heap_get (heap_set h r f) r = f.
Proof.
  unfold heap_get. revert r.
  induction h as [| g h IH]; intros [| r] Hr; simpl in *;
    try lia; [reflexivity |].
  apply IH. lia.
Qed.

(** With a threshold, the array the kernel was handed holds the masked
    values when the kernel returns. *)
Lemma percentile_func_masks_in_place {E : Externals} (h : heap) (arr : nat)
      (q : list float) (t : float) :
  (arr < List.length h)%nat ->
  exists h' pctl,
    _percentile_func h arr q (PFloat t) = Ok (h', pctl) /\
    heap_get h' arr =
      map (map (fun x => if PrimFloat.ltb x t then nan else x)) (heap_get h arr).
Proof.
  intros Hr. unfold _percentile_func. simpl.
  eexists _, _. split; [reflexivity |]. now apply heap_get_set.
Qed.

(** C2 (code defect).  The percentile kernel with the threshold 5 on the
    array [[1, 5, 9]]: after the call the caller's array is [[nan, 5, 9]],
    it has been overwritten in place.  And for every array of the heap and
    every threshold, the array holds the masked values after the call. *)
Theorem percentile_func_overwrites_input {E : Externals} :
  (let h : heap := [[[1; 5; 9]%float]] in
   exists h' pctl,
     _percentile_func h 0 [95%float] (PFloat 5) = Ok (h', pctl) /\
     heap_get h' 0 = [[nan; 5; 9]%float] /\
     heap_get h' 0 <> heap_get h 0) /\
  forall (h : heap) (arr : nat) (q : list float) (t : float),
    (arr < List.length h)%nat ->
    exists h' pctl,
      _percentile_func h arr q (PFloat t) = Ok (h', pctl) /\
      heap_get h' arr =
        map (map (fun x => if PrimFloat.ltb x t then nan else x)) (heap_get h arr).
Proof.
  split; [| exact percentile_func_masks_in_place].
  cbv zeta. eexists _, _. split; [reflexivity |]. split; [reflexivity |].
  intros H. apply (f_equal (map (map isnan))) in H.
  vm_compute in H. discriminate.
Qed.

(** ** Moments *)

Ltac step :=
  match goal with
  | |- context [bind (lift ?r) _] =>
      destruct r eqn:?; [rewrite bind_lift_ok | rewrite bind_lift_raise; exact I]
  end.

Lemma outcome_print {B} (line : string) (k : unit -> M B) :
  outcome (bind (print line) k) = outcome (k tt).
Proof. unfold bind, print. destruct (k tt). reflexivity. Qed.

(** After [mstat[0] = str(1) + mstat[0]] the first entry is never ['all']:
    it is an [int], or a string that starts with ["1"]. *)
Lemma prefix_count_first_not_all (mstat mstat' m0 : pyval) :
  prefix_count mstat = Ok mstat' -> py_index mstat' 0 = Ok m0 ->
  py_eqb_str m0 "all" = false.
Proof.
  unfold prefix_count.
  destruct (py_index mstat 0) as [a |] eqn:Ha; [| discriminate].
  destruct a; simpl; try discriminate.
  - intros [= <-]. rewrite Ha. now intros [= <-].
  - intros [= <-]. rewrite Ha. now intros [= <-].
  - destruct mstat as [| | | | | [| x l] |]; simpl; try discriminate.
    intros [= <-]. simpl. now intros [= <-].
Qed.

Lemma moments_never_reduces_all {E : Externals} (data : Dataset)
      (var stat : string) (cfg : dict) :
  match outcome (moments data var stat cfg) with
  | Ok st => forall m d, st_body st <> XReduce m d
  | Raise _ => True
  end.
Proof.
  unfold moments.
  step. step. step. step. step. destruct a3 as [thr data']. step. step. step. step.
  rewrite (prefix_count_first_not_all _ _ _ Heqr1 Heqr5).
  destruct (PrimFloat.leb a5 a3).
  - rewrite (outcome_bind_ok _ _ (XData data')).
    + step. simpl. discriminate.
    + rewrite outcome_print. reflexivity.
  - step. step. rewrite !bind_ok. step. simpl. discriminate.
Qed.

(** C3 (code defect).  With the moment statistic [['all', 'mean']] on three
    daily time steps, [moments] raises [ValueError] (the frequency has become
    ['1all'], which is no time unit); and for every dataset, variable and
    configuration, [moments] never returns the reduction of the whole time
    axis. *)
Theorem moments_all_is_never_reduced {E : Externals} :
  outcome (moments daily_tas "tas" "moments"
             (configured "moments"
                [("moment stat", PList [PStr "all"; PStr "mean"])]))
    = Raise ValueError /\
  forall data var stat cfg,
    match outcome (moments data var stat cfg) with
    | Ok st => forall m d, st_body st <> XReduce m d
    | Raise _ => True
    end.
Proof.
  split; [reflexivity |]. intros. apply moments_never_reduces_all.
Qed.

(** C6 (as amended).  For a moment statistic [[f, m]] with a frequency
    string [f]: when the seconds between the first two time stamps of the
    data are at least the seconds of the frequency ['1' + f], [moments]
    prints its notice and returns the (threshold-masked) data as it is;
    otherwise, for a reduction [m] and a variable of the data, it returns
    the data resampled at ['1' + f] and reduced by [m]. *)
Theorem moments_passes_through_when_native_not_finer {E : Externals}
        (data data' : Dataset) (var stat : string) (cfg : dict)
        (f m : string) (in_thr thr : pyval) (nsec sec_resample : float)
        (values : field) :
  config_get cfg stat "moment stat" = Ok (PList [PStr f; PStr m]) ->
  config_get cfg stat "thr" = Ok in_thr ->
  apply_threshold in_thr var data = Ok (thr, data') ->
  native_seconds data' = Ok nsec ->
  resample_seconds (PStr ("1" ++ f)) = Ok sec_resample ->
  (PrimFloat.leb sec_resample nsec = true ->
   exists st, moments data var stat cfg =
                (["* Data already at the same or coarser time resolution " ++
                  "as statistic!" ++ String "010" "* Keeping data as is ..." ++
                  String "010" ""], Ok st) /\
              st_body st = XData data') /\
  (PrimFloat.leb sec_resample nsec = false ->
   method_call m = Ok m -> ds_getvar data' var = Ok values ->
   exists st, moments data var stat cfg = ([], Ok st) /\
              st_body st = XResample var ("1" ++ f) m data').
Proof.
  intros Hm Ht Hthr Hn Hr. unfold moments.
  rewrite Hm, bind_lift_ok. cbv beta iota. rewrite bind_lift_ok.
  change (prefix_count (PList [PStr f; PStr m]))
    with (@Ok pyval (PList [PStr ("1" ++ f); PStr m])).
  rewrite bind_lift_ok, Ht, bind_lift_ok, Hthr, bind_lift_ok. cbv beta iota.
  rewrite Hn, bind_lift_ok.
  change (py_index (PList [PStr ("1" ++ f); PStr m]) 0)
    with (@Ok pyval (PStr ("1" ++ f))).
  rewrite bind_lift_ok, Hr, bind_lift_ok.
  change (py_index (PList [PStr ("1" ++ f); PStr m]) 1) with (@Ok pyval (PStr m)).
  rewrite bind_lift_ok.
  change (py_eqb_str (PStr ("1" ++ f)) "all") with false. cbv iota.
  change (upper_joined (PList [PStr ("1" ++ f); PStr m]))
    with (@Ok string (str_join " " [str_upper ("1" ++ f); str_upper m])).
  split; intros Hcmp; rewrite Hcmp.
  - eexists. split; reflexivity.
  - intros Hmeth Hvar.
    change (py_str (PStr m)) with m.
    change (py_str (PStr ("1" ++ f))) with ("1" ++ f).
    rewrite Hmeth, bind_lift_ok, Hvar, bind_lift_ok.
    eexists. split; reflexivity.
Qed.

(** Daily data with the default moment statistic [['D', 'mean']] (equal
    resolutions) pass through; with [['M', 'mean']] they are resampled. *)
Lemma moments_passes_through_when_native_not_finer_witness :
  (exists st,
     @moments toy_externals daily_tas "tas" "moments" (configured "moments" []) =
       (["* Data already at the same or coarser time resolution " ++
         "as statistic!" ++ String "010" "* Keeping data as is ..." ++
         String "010" ""], Ok st) /\
     st_body st = XData daily_tas) /\
  (exists st,
     @moments toy_externals daily_tas "tas" "moments"
       (configured "moments" [("moment stat", PList [PStr "M"; PStr "mean"])])
       = ([], Ok st) /\
     st_body st = XResample "tas" "1M" "mean" daily_tas).
Proof.
  split.
  - exact (proj1 (@moments_passes_through_when_native_not_finer toy_externals
             daily_tas daily_tas "tas" "moments" (configured "moments" [])
             "D" "mean" PNone PNone 86400%float 86400%float []
             eq_refl eq_refl eq_refl eq_refl eq_refl) eq_refl).
  - exact (proj2 (@moments_passes_through_when_native_not_finer toy_externals
             daily_tas daily_tas "tas" "moments"
             (configured "moments"
                [("moment stat", PList [PStr "M"; PStr "mean"])])
             "M" "mean" PNone PNone 86400%float 2592000%float
             [[1; 5; 9]; [2; 4; 6]]%float
             eq_refl eq_refl eq_refl eq_refl eq_refl) eq_refl eq_refl eq_refl).
Defined.

(** C6 (the claim as stated fails).  Daily data (86400 s between time
    stamps) and the moment statistic [['M', 'mean']]: the requested
    resolution, 30 days (2592000 s), is coarser than the native one, yet the
    data do not pass through: they are resampled. *)
Lemma moments_resamples_a_coarser_request :
  native_seconds daily_tas = Ok 86400%float /\
  resample_seconds (PStr "1M") = Ok 2592000%float /\
  PrimFloat.ltb 86400 2592000 = true /\
  exists st,
    @moments toy_externals daily_tas "tas" "moments"
       (configured "moments" [("moment stat", PList [PStr "M"; PStr "mean"])])
      = ([], Ok st) /\
    st_body st = XResample "tas" "1M" "mean" daily_tas /\
    st_body st <> XData daily_tas.
Proof.
  split; [reflexivity |]. split; [reflexivity |]. split; [reflexivity |].
  eexists. split; [reflexivity |]. split; [reflexivity | discriminate].
Qed.

(** ** Diurnal cycle *)

Lemma check_hours_returns (ds : Dataset) :
  exists ds', outcome (_check_hours ds) = Ok ds'.
Proof.
  unfold _check_hours. destruct (existsb _ _); eexists; reflexivity.
Qed.

Lemma apply_threshold_unresolved (in_thr : pyval) (var : string) (data : Dataset) :
  in_thr = PNone \/ (exists d, in_thr = PDict d /\ dict_mem d var = false) ->
  apply_threshold in_thr var data = Ok (PNone, data).
Proof.
  intros [-> | [d [-> Hd]]]; [reflexivity |].
  unfold apply_threshold. simpl. now rewrite Hd.
Qed.

(** In amount mode, a stat method that contains ['percentile'] never lets
    [diurnal_cycle] return. *)
Lemma diurnal_cycle_percentile_never_returns {E : Externals}
      (data : Dataset) (var stat : string) (cfg : dict) (s : string) :
  config_get cfg stat "dcycle stat" = Ok (PStr "amount") ->
  config_get cfg stat "stat method" = Ok (PStr s) ->
  str_contains "percentile" s = true ->
  exists e, outcome (diurnal_cycle data var stat cfg) = Raise e.
Proof.
  intros Hs Hm Hp. unfold diurnal_cycle.
  rewrite Hs, bind_lift_ok.
  destruct (config_get cfg stat "thr") as [in_thr | e];
    [rewrite bind_lift_ok | eexists; reflexivity].
  destruct (apply_threshold in_thr var data) as [[thr data1] | e];
    [rewrite bind_lift_ok | eexists; reflexivity].
  destruct (check_hours_returns data1) as [data2 Hd].
  rewrite (outcome_bind_ok _ _ _ Hd).
  change (py_eqb_str (PStr "amount") "amount") with true. cbv iota.
  rewrite Hm, bind_lift_ok.
  change (py_in "percentile" (PStr s)) with (@Ok bool (str_contains "percentile" s)).
  rewrite Hp, bind_lift_ok.
  destruct (percentile_argument (PStr s)) as [q | e];
    [rewrite bind_lift_ok | eexists; reflexivity].
  destruct (ds_getvar data2 var) as [fld | e];
    [rewrite bind_lift_ok | eexists; reflexivity].
  destruct (py_len q) as [n | e];
    [rewrite bind_lift_ok | eexists; reflexivity].
  rewrite !bind_ok. cbn [l_dcycle read_local]. rewrite bind_lift_raise.
  eexists; reflexivity.
Qed.

(** C4 (code defect).  The diurnal cycle in amount mode with the stat
    method ['percentile 95'] on hourly precipitation: the call raises
    [UnboundLocalError], the branch binds [st_data] and leaves [dcycle]
    unbound.  And for every dataset, variable and configuration in amount
    mode, a stat method that contains ['percentile'] ends in an exception. *)
Theorem diurnal_cycle_percentile_unbound {E : Externals} :
  outcome (diurnal_cycle hourly_pr "pr" "diurnal cycle"
             (configured "diurnal cycle"
                [("stat method", PStr "percentile 95")]))
    = Raise UnboundLocalError /\
  forall (data : Dataset) (var stat : string) (cfg : dict) (s : string),
    config_get cfg stat "dcycle stat" = Ok (PStr "amount") ->
    config_get cfg stat "stat method" = Ok (PStr s) ->
    str_contains "percentile" s = true ->
    exists e, outcome (diurnal_cycle data var stat cfg) = Raise e.
Proof.
  split; [reflexivity |].
  intros data var stat cfg s Hs Hm Hp.
  now apply (diurnal_cycle_percentile_never_returns data var stat cfg s).
Qed.

(** C8.  In frequency mode, when the threshold option is [None] or a
    mapping without the variable, [diurnal_cycle] and [dcycle_harmonic_fit]
    raise [AssertionError]. *)
Theorem frequency_mode_requires_threshold {E : Externals}
        (data : Dataset) (var stat : string) (cfg : dict) (in_thr : pyval) :
  config_get cfg stat "dcycle stat" = Ok (PStr "frequency") ->
  config_get cfg stat "thr" = Ok in_thr ->
  in_thr = PNone \/ (exists d, in_thr = PDict d /\ dict_mem d var = false) ->
  outcome (diurnal_cycle data var stat cfg) = Raise AssertionError /\
  outcome (dcycle_harmonic_fit data var stat cfg) = Raise AssertionError.
Proof.
  intros Hs Ht Hthr.
  apply (apply_threshold_unresolved _ var data) in Hthr.
  split.
  - unfold diurnal_cycle.
    rewrite Hs, bind_lift_ok, Ht, bind_lift_ok, Hthr, bind_lift_ok. cbv beta iota.
    destruct (check_hours_returns data) as [data' Hd].
    rewrite (outcome_bind_ok _ _ _ Hd). reflexivity.
  - unfold dcycle_harmonic_fit.
    rewrite Hs, bind_lift_ok, Ht, bind_lift_ok, Hthr, bind_lift_ok. reflexivity.
Qed.

(** Frequency mode on hourly precipitation with a threshold given for
    another variable only. *)
Lemma frequency_mode_requires_threshold_witness :
  outcome (@diurnal_cycle toy_externals hourly_pr "pr" "diurnal cycle"
             (configured "diurnal cycle"
                [("dcycle stat", PStr "frequency");
                 ("thr", PDict [("tas", PFloat 1)])]))
    = Raise AssertionError /\
  outcome (@dcycle_harmonic_fit toy_externals hourly_pr "pr" "diurnal cycle"
             (configured "diurnal cycle"
                [("dcycle stat", PStr "frequency");
                 ("thr", PDict [("tas", PFloat 1)])]))
    = Raise AssertionError.
Proof.
  apply (@frequency_mode_requires_threshold toy_externals hourly_pr "pr"
           "diurnal cycle" _ (PDict [("tas", PFloat 1)]));
    [reflexivity | reflexivity |].
  right. exists [("tas", PFloat 1)]. split; reflexivity.
Defined.

(** ** Kernels applied along the time axis *)

Lemma for_each_collect {A B} (as_dtype : list B -> list B -> res (list B))
      (f : list A -> M (list B)) (P : list A -> list B -> Prop) (r0 : list B) :
  forall (pixels : list (list A)) (acc : list (list B)),
    (forall p, In p pixels ->
       exists r r', outcome (f p) = Ok r /\
                    store_in_buffer as_dtype r0 r = Ok r' /\ P p r') ->
    exists rs,
      outcome (for_each pixels
                 (fun acc p =>
                    bind (f p) (fun r =>
                    bind (lift (store_in_buffer as_dtype r0 r)) (fun r =>
                    ret (acc ++ [r])%list))) acc)
        = Ok (acc ++ rs)%list /\
      Forall2 P pixels rs.
Proof.
  induction pixels as [| p pixels IH]; intros acc Hall.
  - exists []. split; [simpl; now rewrite app_nil_r | constructor].
  - destruct (Hall p (or_introl eq_refl)) as [r [r' [Hr [Hst HP]]]].
    destruct (IH (acc ++ [r'])%list (fun q Hq => Hall q (or_intror Hq)))
      as [rs [Hrs Hfa]].
    exists (r' :: rs). split; [| now constructor].
    cbn [for_each].
    rewrite (outcome_bind_ok _ _ (acc ++ [r'])%list).
    + rewrite Hrs. now rewrite <- app_assoc.
    + rewrite (outcome_bind_ok _ _ r Hr), Hst, bind_lift_ok. reflexivity.
Qed.

(** When the kernel returns on every pixel of a block, with a vector [Q]
    describes, and the buffer of the first result takes every other result
    as a row [P] describes, [apply_along_axis] returns one such row per
    pixel. *)
Lemma apply_along_axis_block {A B}
      (as_dtype : list B -> list B -> res (list B))
      (f : list A -> M (list B)) (Q P : list A -> list B -> Prop)
      (pixels : list (list A)) :
  pixels <> [] ->
  (forall p, In p pixels -> exists r, outcome (f p) = Ok r /\ Q p r) ->
  (forall p0 r0, hd_error pixels = Some p0 -> Q p0 r0 -> P p0 r0) ->
  (forall p0 r0 p r, hd_error pixels = Some p0 -> Q p0 r0 -> Q p r ->
                     exists r', store_in_buffer as_dtype r0 r = Ok r' /\
                                P p r') ->
  exists rs,
    outcome (apply_along_axis as_dtype f (Block pixels)) = Ok (Block rs) /\
    Forall2 P pixels rs.
Proof.
  intros Hne Hall Hfirst Hstore. destruct pixels as [| p0 rest]; [contradiction |].
  destruct (Hall p0 (or_introl eq_refl)) as [r0 [Hr0 HQ0]].
  destruct (for_each_collect as_dtype f P r0 rest [r0]) as [rs [Hrs Hfa]].
  { intros p Hp. destruct (Hall p (or_intror Hp)) as [r [Hr HQ]].
    destruct (Hstore p0 r0 p r eq_refl HQ0 HQ) as [r' [Hst HP]].
    exists r, r'. split; [exact Hr |]. split; [exact Hst | exact HP]. }
  exists (r0 :: rs). split; [| constructor; [now apply Hfirst | exact Hfa]].
  unfold apply_along_axis.
  rewrite (outcome_bind_ok _ _ _ Hr0), (outcome_bind_ok _ _ _ Hrs).
  reflexivity.
Qed.

(** A pixel on which the kernel raises makes the loop over the pixels
    raise. *)
Lemma for_each_raises {A B} (as_dtype : list B -> list B -> res (list B))
      (f : list A -> M (list B)) (r0 : list B) (p : list A) (e : exn) :
  outcome (f p) = Raise e ->
  forall (pixels : list (list A)) (acc : list (list B)),
    In p pixels ->
    exists e',
      outcome (for_each pixels
                 (fun acc p =>
                    bind (f p) (fun r =>
                    bind (lift (store_in_buffer as_dtype r0 r)) (fun r =>
                    ret (acc ++ [r])%list))) acc)
        = Raise e'.
Proof.
  intros Hp. induction pixels as [| q pixels IH]; intros acc Hin; [destruct Hin |].
  cbn [for_each].
  destruct (outcome (bind (f q)
                       (fun r => bind (lift (store_in_buffer as_dtype r0 r))
                                      (fun r => ret (acc ++ [r])%list))))
    as [acc' | e'] eqn:Hq.
  - rewrite (outcome_bind_ok _ _ _ Hq).
    destruct Hin as [-> | Hin]; [| now apply IH].
    rewrite (outcome_bind_raise _ _ _ Hp) in Hq. discriminate.
  - exists e'. now apply outcome_bind_raise.
Qed.

Lemma apply_along_axis_raises {A B}
      (as_dtype : list B -> list B -> res (list B))
      (f : list A -> M (list B)) (pixels : list (list A)) (p : list A)
      (e : exn) :
  In p pixels -> outcome (f p) = Raise e ->
  exists e', outcome (apply_along_axis as_dtype f (Block pixels)) = Raise e'.
Proof.
  intros Hin Hp. destruct pixels as [| p0 rest]; [destruct Hin |].
  unfold apply_along_axis.
  destruct (outcome (f p0)) as [r0 | e0] eqn:H0.
  - rewrite (outcome_bind_ok _ _ _ H0).
    destruct Hin as [-> | Hin]; [congruence |].
    destruct (for_each_raises as_dtype f r0 p e Hp rest [r0] Hin) as [e' He'].
    exists e'. now apply outcome_bind_raise.
  - exists e0. now apply outcome_bind_raise.
Qed.

(** ** Harmonic fit *)

Section HarmonicFit.
Context {E : Externals}.

Lemma harmonic_compute_missing (data1d : list float) (v : pyval) :
  existsb isnan data1d = true ->
  _harmonic_linefit_compute data1d v =
    (["Data missing/masked!"], Ok (repeat nan 204)).
Proof. intros H. unfold _harmonic_linefit_compute. now rewrite H. Qed.

Lemma harmonic_compute_fitted (data1d : list float) (v : pyval)
      (m1 c1 p1 m2 c2 p2 : float) :
  existsb isnan data1d = false ->
  curve_fit _f1 (indices (List.length data1d)) data1d = Ok (m1, c1, p1) ->
  curve_fit _f2 (indices (List.length data1d)) data1d = Ok (m2, c2, p2) ->
  _harmonic_linefit_compute data1d v =
    ([], Ok ([c1; p1; c2; p2] ++
             map (harmonic_curve m2 c1 p1 c2 p2) (np_linspace 0 23 200))%list).
Proof.
  intros H H1 H2. unfold _harmonic_linefit_compute.
  rewrite H, H1, bind_lift_ok. cbv beta iota. rewrite H2, bind_lift_ok.
  reflexivity.
Qed.

(** [linspace(0, 23, 200)], point by point. *)
Lemma linspace_day : np_linspace 0 23 200 = day_points.
Proof. vm_compute. reflexivity. Qed.

Lemma day_points_length : List.length day_points = 200%nat.
Proof. reflexivity. Qed.

Lemma harmonic_compute_vector (data1d : list float) (v : pyval) :
  existsb isnan data1d = true \/ fits_return data1d ->
  exists out, outcome (_harmonic_linefit_compute data1d v) = Ok out /\
              harmonic_vector data1d out.
Proof.
  destruct (existsb isnan data1d) eqn:Hnan.
  - intros _. rewrite (harmonic_compute_missing _ _ Hnan).
    eexists. split; [reflexivity |]. unfold harmonic_vector. rewrite Hnan.
    split; [reflexivity |]. split; [reflexivity | discriminate].
  - intros [H | [[[m1 c1] p1] [[[m2 c2] p2] [H1 H2]]]]; [discriminate H |].
    rewrite (harmonic_compute_fitted _ _ _ _ _ _ _ _ Hnan H1 H2).
    eexists. split; [reflexivity |]. unfold harmonic_vector. rewrite Hnan.
    rewrite linspace_day.
    split; [| split; [discriminate |]].
    + rewrite length_app, length_map, day_points_length. reflexivity.
    + intros _. exists m1, c1, p1, m2, c2, p2.
      split; [exact H1 |]. split; [exact H2 |]. split; reflexivity.
Qed.

(** A series without a missing value on which a fit does not return makes
    the kernel raise. *)
Lemma harmonic_compute_raises (data1d : list float) (v : pyval) :
  existsb isnan data1d = false -> ~ fits_return data1d ->
  exists e, outcome (_harmonic_linefit_compute data1d v) = Raise e.
Proof.
  intros Hnan Hfits. unfold _harmonic_linefit_compute. rewrite Hnan.
  destruct (curve_fit _f1 (indices (List.length data1d)) data1d)
    as [[[m1 c1] p1] | e1] eqn:H1; [| exists e1; reflexivity].
  rewrite bind_lift_ok.
  destruct (curve_fit _f2 (indices (List.length data1d)) data1d)
    as [[[m2 c2] p2] | e2] eqn:H2; [| exists e2; reflexivity].
  exfalso. apply Hfits. exists (m1, c1, p1), (m2, c2, p2). split; assumption.
Qed.

(** In amount mode the fit is declared with a new axis [fit] of 204
    entries, over the hourly means. *)
Lemma dcycle_harmonic_fit_declares (data data1 : Dataset) (var stat : string)
      (cfg : dict) (in_thr thr : pyval) (values : field) :
  config_get cfg stat "dcycle stat" = Ok (PStr "amount") ->
  config_get cfg stat "thr" = Ok in_thr ->
  apply_threshold in_thr var data = Ok (thr, data1) ->
  ds_getvar data1 var = Ok values ->
  exists st data2,
    outcome (dcycle_harmonic_fit data var stat cfg) = Ok st /\
    st_body st = XUfunc (K_harmonic var) var None "fit" 204
                        (XGroupby "hour" "mean" data2).
Proof.
  intros Hs Ht Hthr Hv. unfold dcycle_harmonic_fit.
  rewrite Hs, bind_lift_ok, Ht, bind_lift_ok, Hthr, bind_lift_ok.
  cbv beta iota.
  change (py_eqb_str (PStr "amount") "amount") with true. cbv iota.
  unfold _check_hours. destruct (existsb _ (ds_time data1)).
  - rewrite (outcome_bind_ok _ _
               (XGroupby "hour" "mean"
                  (mkDataset (map ceil_hour (ds_time data1)) (ds_vars data1)
                             (ds_attrs data1)),
                @None (list Z), "Amount | thr: " ++ py_str thr)).
    + rewrite Hv, bind_lift_ok. eexists _, _. split; reflexivity.
    + reflexivity.
  - rewrite !bind_ok, Hv, bind_lift_ok. eexists _, _. split; reflexivity.
Qed.
End HarmonicFit.

(** C7.  On a block of pixels, when on every pixel the series has a missing
    value or both fits return, [_harmonic_linefit] returns one vector per
    pixel: 204 values, all NaN (and the same whatever [curve_fit] is) when a
    value is missing, else [c1, p1, c2, p2] followed by the sum of the
    harmonics of period 24 and 12 at the 200 points of the day, with the
    formulas written out in [harmonic_vector].  When on a pixel without a
    missing value a fit does not return, the kernel returns no vector: it
    raises.  And in amount mode [dcycle_harmonic_fit] declares the axis
    [fit] with 204 entries. *)
Theorem harmonic_fit_contract {E : Externals} :
  (forall (pixels : list (list float)) (var : pyval),
     pixels <> [] ->
     (forall p, In p pixels -> existsb isnan p = true \/ fits_return p) ->
     exists rs,
       outcome (_harmonic_linefit (Block pixels) true var) = Ok (Block rs) /\
       Forall2 harmonic_vector pixels rs) /\
  (forall (pixels : list (list float)) (var : pyval) (p : list float),
     In p pixels -> existsb isnan p = false -> ~ fits_return p ->
     exists e, outcome (_harmonic_linefit (Block pixels) true var) = Raise e) /\
  (forall (data data1 : Dataset) (var stat : string) (cfg : dict)
          (in_thr thr : pyval) (values : field),
     config_get cfg stat "dcycle stat" = Ok (PStr "amount") ->
     config_get cfg stat "thr" = Ok in_thr ->
     apply_threshold in_thr var data = Ok (thr, data1) ->
     ds_getvar data1 var = Ok values ->
     exists st data2,
       outcome (dcycle_harmonic_fit data var stat cfg) = Ok st /\
       st_body st = XUfunc (K_harmonic var) var None "fit" 204
                           (XGroupby "hour" "mean" data2)).
Proof.
  split; [| split].
  - intros pixels var Hne Hall. unfold _harmonic_linefit.
    apply (apply_along_axis_block float_buffer _ harmonic_vector
             harmonic_vector); [exact Hne | | auto |].
    + intros p Hp. apply harmonic_compute_vector. now apply Hall.
    + intros p0 r0 p r _ [H0 _] [H Hr]. exists r.
      split; [| exact (conj H Hr)].
      unfold store_in_buffer, float_buffer. now rewrite H0, H.
  - intros pixels var p Hin Hnan Hfits. unfold _harmonic_linefit.
    destruct (harmonic_compute_raises p var Hnan Hfits) as [e He].
    exact (apply_along_axis_raises _ _ _ _ _ Hin He).
  - intros. eapply dcycle_harmonic_fit_declares; eassumption.
Qed.

(** A block of two pixels, the second with a missing value; the same block
    with a fit that does not converge; and the default configuration of the
    harmonic fit on hourly precipitation. *)
Lemma harmonic_fit_contract_witness :
  (exists rs,
     outcome (@_harmonic_linefit toy_externals
                (Block [[1; 2; 3]; [1; nan; 3]]%float) true (PStr "pr"))
       = Ok (Block rs) /\
     Forall2 (@harmonic_vector toy_externals)
             [[1; 2; 3]; [1; nan; 3]]%float rs) /\
  (exists e,
     outcome (@_harmonic_linefit failing_fit_externals
                (Block [[1; nan; 3]; [1; 2; 3]]%float) true (PStr "pr"))
       = Raise e) /\
  (exists st data2,
     outcome (@dcycle_harmonic_fit toy_externals hourly_pr "pr"
                "dcycle harmonic" (configured "dcycle harmonic" [])) = Ok st /\
     st_body st = XUfunc (K_harmonic "pr") "pr" None "fit" 204
                         (XGroupby "hour" "mean" data2)).
Proof.
  split; [| split].
  - apply (proj1 (@harmonic_fit_contract toy_externals)); [discriminate |].
    intros p [<- | [<- | []]].
    + right. eexists _, _. split; reflexivity.
    + left. reflexivity.
  - apply (proj1 (proj2 (@harmonic_fit_contract failing_fit_externals))
             _ _ [1; 2; 3]%float).
    + right. left. reflexivity.
    + reflexivity.
    + intros [t1 [t2 [H1 _]]]. discriminate H1.
  - exact (proj2 (proj2 (@harmonic_fit_contract toy_externals))
             hourly_pr hourly_pr "pr" "dcycle harmonic"
             (configured "dcycle harmonic" []) PNone PNone
             [[0; 5; 9; 1]]%float eq_refl eq_refl eq_refl eq_refl).
Defined.

(** ** Signal filtering *)

Lemma apply_threshold_keeps_time (in_thr thr : pyval) (var : string)
      (data data' : Dataset) :
  apply_threshold in_thr var data = Ok (thr, data') ->
  ds_time data' = ds_time data.
Proof.
  unfold apply_threshold, ds_where_ge.
  destruct (negb (is_none in_thr)); [| now intros [= _ <-]].
  destruct (py_in var in_thr) as [[] |]; try discriminate; [| now intros [= _ <-]].
  destruct (py_getitem in_thr var); try discriminate.
  destruct (ds_getvar data var); try discriminate.
  destruct (as_float a); try discriminate.
  now intros [= _ <-].
Qed.

(** C9.  With an even window, [filtering] raises [AssertionError] (and has
    printed nothing).  With an odd window, the Lanczos filter, mode
    ['valid'], both cutoffs given and one filter dimension, it declares the
    axis [filtered] with [input_length - window + 1] entries. *)
Theorem filtering_window_contract {E : Externals}
        (data : Dataset) (var stat : string) (cfg : dict)
        (ftype filt : pyval) (window : Z) :
  config_get cfg stat "cutoff type" = Ok ftype ->
  config_get cfg stat "filter" = Ok filt ->
  config_get cfg stat "window" = Ok (PInt window) ->
  (Z.even window = true ->
   filtering data var stat cfg = ([], Raise AssertionError)) /\
  (Z.odd window = true ->
   forall (cutoff cutoff2 filt_dim in_thr thr : pyval) (f1 f2 : float)
          (wgts : list float) (data' : Dataset) (values : field),
     filt = PStr "lanczos" ->
     config_get cfg stat "mode" = Ok (PStr "valid") ->
     config_get cfg stat "1st cutoff" = Ok cutoff ->
     config_get cfg stat "2nd cutoff" = Ok cutoff2 ->
     config_get cfg stat "filter dim" = Ok filt_dim ->
     config_get cfg stat "thr" = Ok in_thr ->
     py_recip cutoff = Ok f1 ->
     py_recip cutoff2 = Ok f2 ->
     py_eqb_int filt_dim 1 = true ->
     apply_threshold in_thr var data = Ok (thr, data') ->
     lanczos_filter window f1 f2 ftype = Ok wgts ->
     ds_getvar data' var = Ok values ->
     exists st,
       filtering data var stat cfg = ([], Ok st) /\
       st_body st =
         XUfunc (K_convolve wgts filt_dim (PStr "valid")) var None "filtered"
                (Z.of_nat (List.length (ds_time data)) - window + 1)
                (XData data')).
Proof.
  intros Hft Hfi Hw. split.
  - intros Heven. unfold filtering.
    rewrite Hft, bind_lift_ok, Hfi, bind_lift_ok, Hw, bind_lift_ok.
    cbn [window_int]. rewrite bind_lift_ok.
    rewrite Zeven_bool_iff in Heven. apply Zeven_ex_iff in Heven.
    destruct Heven as [h ->].
    replace ((2 * h) mod 2) with 0
      by (rewrite Z.mul_comm; symmetry; apply Z_mod_mult).
    reflexivity.
  - intros Hodd cutoff cutoff2 filt_dim in_thr thr f1 f2 wgts data' values
           -> Hmode Hc1 Hc2 Hfd Hthr Hf1 Hf2 Hdim Happ Hlan Hvar.
    unfold filtering.
    rewrite Hft, bind_lift_ok, Hfi, bind_lift_ok, Hw, bind_lift_ok.
    cbn [window_int]. rewrite bind_lift_ok.
    assert (Hmod : window mod 2 = 1).
    { rewrite Zodd_bool_iff in Hodd. apply Zodd_ex_iff in Hodd.
      destruct Hodd as [h ->]. rewrite Z.add_comm, Z.mul_comm.
      now rewrite Z_mod_plus_full. }
    rewrite Hmod. cbn [Z.eqb Pos.eqb py_assert]. rewrite bind_ok.
    rewrite Hmode, bind_lift_ok, Hc1, bind_lift_ok, Hc2, bind_lift_ok.
    assert (Hband : (if py_eqb_str ftype "bandpass"
                     then py_assert (negb (is_none cutoff2)) else ret tt) = ret tt).
    { destruct (py_eqb_str ftype "bandpass"); [| reflexivity].
      destruct cutoff2; try reflexivity. discriminate Hf2. }
    rewrite Hband, bind_ok, Hfd, bind_lift_ok, Hthr, bind_lift_ok, Happ, bind_lift_ok.
    cbv beta iota.
    change (py_eqb_str (PStr "lanczos") "lanczos") with true. cbv iota.
    rewrite Hf1, bind_lift_ok, Hf2, bind_lift_ok, Hlan, bind_lift_ok.
    rewrite Hdim, Hvar, bind_lift_ok, !bind_ok.
    rewrite (apply_threshold_keeps_time _ _ _ _ _ Happ).
    eexists. split; reflexivity.
Qed.

(** Three time steps: a window of 60 is refused; a window of 3 in mode
    ['valid'] declares [3 - 3 + 1] filtered entries. *)
Lemma filtering_window_contract_witness :
  @filtering toy_externals daily_tas "tas" "signal filtering"
    lanczos_even_config = ([], Raise AssertionError) /\
  exists st,
    @filtering toy_externals daily_tas "tas" "signal filtering"
      lanczos_valid_config = ([], Ok st) /\
    st_body st =
      XUfunc (K_convolve (repeat (1 / 3)%float 3) (PInt 1) (PStr "valid"))
             "tas" None "filtered" (3 - 3 + 1) (XData daily_tas).
Proof.
  split.
  - exact (proj1 (@filtering_window_contract toy_externals daily_tas "tas"
                    "signal filtering" lanczos_even_config
                    (PStr "lowpass") (PStr "lanczos") 60 eq_refl eq_refl eq_refl)
                 eq_refl).
  - exact (proj2 (@filtering_window_contract toy_externals daily_tas "tas"
                    "signal filtering" lanczos_valid_config
                    (PStr "lowpass") (PStr "lanczos") 3 eq_refl eq_refl eq_refl)
                 eq_refl (PInt 10) (PInt 5) (PInt 1) PNone PNone
                 (1 / 10)%float (1 / 5)%float (repeat (1 / 3)%float 3) daily_tas
                 [[1; 5; 9]; [2; 4; 6]]%float
                 eq_refl eq_refl eq_refl eq_refl eq_refl eq_refl eq_refl eq_refl
                 eq_refl eq_refl eq_refl eq_refl).
Defined.

(** ** Frequency-intensity distribution *)

Lemma length_map2 {A B C} (f : A -> B -> C) (xs : list A) (ys : list B) :
  List.length (map2 f xs ys) = Nat.min (List.length xs) (List.length ys).
Proof.
  revert ys. induction xs as [| x xs IH]; intros [| y ys]; simpl; auto.
Qed.

Lemma length_tl {A} (l : list A) : List.length (tl l) = (List.length l - 1)%nat.
Proof. destruct l; simpl; lia. Qed.

Lemma length_indices (n : nat) : List.length (indices n) = n.
Proof. unfold indices. now rewrite length_map, length_seq. Qed.

Lemma length_removelast {A} (l : list A) :
  List.length (removelast l) = (List.length l - 1)%nat.
Proof.
  induction l as [| x [| y l] IH]; simpl in *; try lia.
Qed.

(** [numpy.linspace(start, stop, num)] has [num] values, the last one
    [stop]. *)
Lemma length_linspace (start stop : float) (num : nat) :
  List.length (np_linspace start stop num) = num.
Proof.
  unfold np_linspace.
  set (y := map _ (if (0 <? Z.of_nat (num - 1)) then _ else _)).
  assert (Hy : List.length y = num).
  { subst y. rewrite length_map.
    destruct (0 <? Z.of_nat (num - 1)); [destruct (PrimFloat.eqb _ _) |];
      now rewrite length_map, length_indices. }
  destruct (1 <? Z.of_nat num) eqn:Hn; [| exact Hy].
  apply Z.ltb_lt in Hn.
  rewrite length_app, length_removelast, Hy. simpl. lia.
Qed.

Lemma last_linspace (start stop : float) (num : nat) :
  (1 < num)%nat -> last (np_linspace start stop num) 0%float = stop.
Proof.
  intros Hn. unfold np_linspace.
  assert (H : (1 <? Z.of_nat num) = true) by (apply Z.ltb_lt; lia).
  rewrite H. apply last_last.
Qed.

(** A histogram over edges has one value per bin. *)
Lemma length_histogram (a edges : list float) :
  List.length (histogram_over_edges a edges) = (List.length edges - 1)%nat.
Proof.
  unfold histogram_over_edges, diffZ, diff_float.
  rewrite !length_map2, !length_tl.
  destruct edges as [| e edges]; [reflexivity |].
  rewrite length_app, length_map, length_removelast.
  cbn [Datatypes.length]. lia.
Qed.

Lemma filter_no_nan (l : list float) :
  existsb isnan l = false -> filter (fun x => negb (isnan x)) l = l.
Proof.
  induction l as [| x l IH]; simpl; [reflexivity |].
  destruct (isnan x); simpl; [discriminate |]. intros H. now rewrite IH.
Qed.

Lemma length_hstack_dry (dry_events : option Z) (hdata : list float) :
  List.length (hstack_dry dry_events hdata) = S (List.length hdata).
Proof. destruct dry_events; simpl; now rewrite length_map. Qed.

Lemma pdf_compute_vector (data1d edges : list float) (norm : bool)
      (thr dry_thr : pyval) (t d : option float) :
  edges <> [] -> any_descent edges = false ->
  opt_float thr = Ok t -> opt_float dry_thr = Ok d ->
  exists out,
    outcome (_pdf_calc_compute data1d (BEdges edges)
               (Z.of_nat (List.length edges) - 1) norm thr dry_thr) = Ok out /\
    pdf_vector edges d data1d out.
Proof.
  intros Hne Hmono Ht Hd. unfold _pdf_calc_compute, pdf_vector.
  assert (Hlen : (1 <= List.length edges)%nat)
    by (destruct edges; [contradiction | simpl; lia]).
  destruct (forallb isnan data1d) eqn:Hall.
  - replace (Z.of_nat (List.length edges) - 1 + 1 <? 0) with false
      by (symmetry; apply Z.ltb_ge; lia).
    replace (Z.to_nat (Z.of_nat (List.length edges) - 1 + 1))
      with (List.length edges) by lia.
    eexists. split; [reflexivity |].
    split; [now rewrite length_map, repeat_length |].
    split; [reflexivity | discriminate].
  - set (clean := if existsb isnan data1d
                  then filter (fun x => negb (isnan x)) data1d else data1d).
    assert (Hclean : clean = filter (fun x => negb (isnan x)) data1d).
    { subst clean. destruct (existsb isnan data1d) eqn:Hex; [reflexivity |].
      symmetry. now apply filter_no_nan. }
    rewrite Hd, bind_lift_ok, Ht, bind_lift_ok.
    destruct norm.
    + unfold np_digitize. rewrite Hmono. cbn [negb]. rewrite bind_lift_ok.
      cbn [binspec_len]. rewrite bind_lift_ok.
      eexists. split; [reflexivity |].
      split.
      * rewrite length_hstack_dry, !length_map, length_map2, !length_map, length_seq.
        lia.
      * split; [discriminate |]. intros _. rewrite <- Hclean.
        destruct d; simpl; (split; [reflexivity | eexists; reflexivity]).
    + cbn [np_histogram_density]. rewrite Hmono, bind_lift_ok.
      eexists. split; [reflexivity |].
      split.
      * rewrite length_hstack_dry, length_histogram. lia.
      * split; [discriminate |]. intros _. rewrite <- Hclean.
        destruct d; simpl; (split; [reflexivity | eexists; reflexivity]).
Qed.

(** Whenever [freq_int_dist] returns, it has declared the axis [bins] with
    one entry per bin and one more, and labelled the edges with a leading
    ['dry_events']. *)
Lemma freq_int_dist_shape {E : Externals} (data : Dataset) (var stat : string)
      (cfg : dict) :
  match outcome (freq_int_dist data var stat cfg) with
  | Ok st =>
      exists edges norm thr dry src,
        st_body st = XUfunc (K_pdf edges norm thr dry) var None "bins"
                            (Z.of_nat (List.length edges) - 1 + 1) src /\
        st_coords st = [("bin_edges", PStr "dry_events" :: map PFloat edges)]
  | Raise _ => True
  end.
Proof.
  unfold freq_int_dist. step. step. step. step. step. step. step. step.
  match goal with
  | |- context [bind ?m _] =>
      assert (Hb : (exists d, m = ret d) \/ (exists e, m = raise e))
  end.
  { destruct (String.eqb var "pr"); [| left; eexists; reflexivity].
    destruct (ds_getvar data var); [left | right]; eexists; reflexivity. }
  destruct Hb as [[d ->] | [e ->]]; [rewrite bind_ok | exact I].
  step. simpl. eexists _, _, _, _, _. split; reflexivity.
Qed.

Lemma forallb_map_pfloat (l : list float) :
  forallb is_pfloat (map PFloat l) = true.
Proof. induction l; simpl; auto. Qed.

(** With a dry-event threshold every slot of the vector is a float. *)
Lemma pdf_vector_all_floats (edges : list float) (x : float)
      (p : list float) (r : list pyval) :
  pdf_vector edges (Some x) p r -> forallb is_pfloat r = true.
Proof.
  intros [_ [Hnan Hval]]. destruct (forallb isnan p).
  - rewrite (Hnan eq_refl). apply forallb_map_pfloat.
  - destruct (Hval eq_refl) as [Hhd [hdata Htl]].
    destruct r as [| v r]; [discriminate Hhd |].
    simpl in Hhd, Htl. injection Hhd as ->. subst r.
    simpl. apply forallb_map_pfloat.
Qed.

(** Without one, the vector of a pixel that has a value leads with [None]. *)
Lemma pdf_vector_has_none (edges : list float) (p : list float) (r : list pyval) :
  pdf_vector edges None p r -> forallb isnan p = false ->
  forallb is_pfloat r = false.
Proof.
  intros [_ [_ Hval]] Hp. destruct (Hval Hp) as [Hhd _].
  destruct r as [| v r]; [discriminate Hhd |].
  simpl in Hhd. injection Hhd as ->. reflexivity.
Qed.

(** Floats are written into a [float64] array as they are. *)
Lemma each_as_float64_floats (r : list pyval) :
  forallb is_pfloat r = true -> each_as_float64 r = Ok r.
Proof.
  induction r as [| v r IH]; [reflexivity |].
  cbn [forallb]. intros H. apply andb_prop in H as [Hv Hr].
  destruct v; try discriminate. cbn [each_as_float64 as_float64 as_float].
  now rewrite (IH Hr).
Qed.

(** The vector of a pixel is the row of a block whose first pixel has a
    value. *)
Lemma pdf_vector_row (edges : list float) (d : option float)
      (p : list float) (r : list pyval) :
  pdf_vector edges d p r -> pdf_row edges d true p r.
Proof. intros H. exact H. Qed.

(** The vector of a pixel, written into the buffer that the vector of the
    first pixel has made. *)
Lemma pdf_vector_stored (edges : list float) (d : option float)
      (p0 p : list float) (r0 r : list pyval) :
  pdf_vector edges d p0 r0 -> pdf_vector edges d p r ->
  exists r', store_in_buffer cell_buffer r0 r = Ok r' /\
             pdf_row edges d (negb (forallb isnan p0)) p r'.
Proof.
  intros HQ0 HQ. unfold store_in_buffer, cell_buffer.
  assert (Hlen0 : List.length r0 = List.length edges) by apply HQ0.
  destruct (forallb is_pfloat r0) eqn:Hbuf.
  - (* a buffer of float64 *)
    destruct (forallb is_pfloat r) eqn:Hr.
    + (* a vector of floats is stored as it is *)
      rewrite (each_as_float64_floats _ Hr).
      destruct HQ as [Hlen [Hnan Hval]].
      rewrite Hlen0, Hlen, Nat.eqb_refl.
      exists r. split; [reflexivity |].
      split; [exact Hlen |]. split; [exact Hnan |].
      intros Hp. destruct (Hval Hp) as [Hhd Htl]. split; [| exact Htl].
      destruct d as [x |]; [exact Hhd |].
      (* without a threshold a vector of floats has no leading None *)
      destruct r as [| v r]; [discriminate Hhd |].
      cbn [hd_error] in Hhd. injection Hhd as ->. discriminate Hr.
    + (* a leading None is stored as NaN *)
      destruct d as [x |];
        [rewrite (pdf_vector_all_floats _ _ _ _ HQ) in Hr; discriminate |].
      destruct (forallb isnan p0) eqn:Hp0;
        [| rewrite (pdf_vector_has_none _ _ _ HQ0 Hp0) in Hbuf; discriminate].
      destruct HQ as [Hlen [Hnan Hval]].
      destruct (forallb isnan p) eqn:Hp.
      * rewrite (Hnan eq_refl), forallb_map_pfloat in Hr. discriminate.
      * destruct (Hval eq_refl) as [Hhd [hdata Htl]].
        destruct r as [| v r]; [discriminate Hhd |].
        cbn [hd_error tl] in Hhd, Htl. injection Hhd as ->. subst r.
        cbn [each_as_float64 as_float64].
        rewrite (each_as_float64_floats _ (forallb_map_pfloat hdata)).
        cbn [Datatypes.length] in Hlen |- *.
        rewrite Hlen0, <- Hlen, Nat.eqb_refl.
        exists (PFloat nan :: map PFloat hdata). split; [reflexivity |].
        split; [exact Hlen |].
        split; [intros H; rewrite Hp in H; discriminate H |].
        intros _. split; [reflexivity | exists hdata; reflexivity].
  - (* a buffer of objects: the first pixel has a value and led with None *)
    destruct d as [x |];
      [rewrite (pdf_vector_all_floats _ _ _ _ HQ0) in Hbuf; discriminate |].
    destruct (forallb isnan p0) eqn:Hp0.
    { destruct HQ0 as [_ [Hnan0 _]].
      rewrite (Hnan0 Hp0), forallb_map_pfloat in Hbuf. discriminate. }
    destruct HQ as [Hlen [Hnan Hval]].
    rewrite Hlen0, Hlen, Nat.eqb_refl.
    exists r. split; [reflexivity |]. cbn [negb].
    split; [exact Hlen |]. split; assumption.
Qed.

(** C10 (as amended).  On a block of pixels and a non-empty array of bin
    edges that never descends, [_pdf_calc] returns one row per pixel with
    one slot per bin and a leading slot.  On a pixel with a value that is
    not missing, the leading slot holds the number of non-missing values
    below the dry-event threshold; without that threshold it holds [None]
    when the first pixel of the block has a value, and NaN when the first
    pixel is all missing (the block is then an array of [float64]).  On a
    pixel whose values are all missing every slot is NaN, the leading one
    included.  Whenever [freq_int_dist] returns, the axis [bins] is
    declared with that length and the edge labels lead with
    ['dry_events']. *)
Theorem pdf_kernel_contract :
  (forall (pixels : list (list float)) (p0 : list float) (edges : list float)
          (norm : bool) (thr dry_thr : pyval) (t d : option float),
     hd_error pixels = Some p0 ->
     edges <> [] -> any_descent edges = false ->
     opt_float thr = Ok t -> opt_float dry_thr = Ok d ->
     exists rs,
       outcome (_pdf_calc (Block pixels) (Some (BEdges edges)) norm true
                          thr dry_thr) = Ok (Block rs) /\
       Forall2 (pdf_row edges d (negb (forallb isnan p0))) pixels rs) /\
  (forall (E : Externals) (data : Dataset) (var stat : string) (cfg : dict),
     match outcome (freq_int_dist data var stat cfg) with
     | Ok st =>
         exists edges norm thr dry src,
           st_body st = XUfunc (K_pdf edges norm thr dry) var None "bins"
                               (Z.of_nat (List.length edges) - 1 + 1) src /\
           st_coords st = [("bin_edges", PStr "dry_events" :: map PFloat edges)]
     | Raise _ => True
     end).
Proof.
  split.
  - intros pixels p0 edges norm thr dry_thr t d Hhd Hne Hmono Ht Hd.
    unfold _pdf_calc.
    apply (apply_along_axis_block cell_buffer _ (pdf_vector edges d)
             (pdf_row edges d (negb (forallb isnan p0)))).
    + intros ->. discriminate Hhd.
    + intros p _.
      apply (pdf_compute_vector p edges norm thr dry_thr t d); assumption.
    + intros p0' r0 Hhd' HQ0.
      rewrite Hhd in Hhd'. injection Hhd' as <-.
      destruct (forallb isnan p0) eqn:Hp0; cbn [negb];
        [| now apply pdf_vector_row].
      destruct HQ0 as [Hlen [Hnan _]].
      split; [exact Hlen |]. split; [exact Hnan |].
      intros H. rewrite Hp0 in H. discriminate H.
    + intros p0' r0 p r Hhd' HQ0 HQ.
      rewrite Hhd in Hhd'. injection Hhd' as <-.
      now apply pdf_vector_stored.
  - intros. apply freq_int_dist_shape.
Qed.

(** Three pixels over the edges [0, 1, 2] without a dry-event threshold:
    the first all missing, the others with values. *)
Lemma pdf_kernel_contract_witness :
  exists rs,
    outcome (_pdf_calc (Block [[nan; nan]; [0; 0.5]; [0; 0.5; 1.5; nan]]%float)
                       (Some (BEdges [0; 1; 2]%float)) false true
                       PNone PNone) = Ok (Block rs) /\
    Forall2 (pdf_row [0; 1; 2]%float None
                     (negb (forallb isnan [nan; nan]%float)))
            [[nan; nan]; [0; 0.5]; [0; 0.5; 1.5; nan]]%float rs.
Proof.
  refine (proj1 pdf_kernel_contract
            [[nan; nan]; [0; 0.5]; [0; 0.5; 1.5; nan]]%float [nan; nan]%float
            [0; 1; 2]%float false
            PNone PNone (@None float) (@None float)
            eq_refl _ eq_refl eq_refl eq_refl); discriminate.
Defined.

(** C10 (the claim as stated fails).  A pixel whose two values are both
    missing, the edges [0, 1, 2] and the dry-event threshold 1: no value is
    below the threshold, yet the leading slot is NaN, not the count 0. *)
Lemma pdf_dry_slot_is_nan_on_missing_pixel :
  _pdf_calc_compute [nan; nan]%float (BEdges [0; 1; 2]%float) 2 false
                    PNone (PFloat 1)
    = (["All data missing/masked!"], Ok [PFloat nan; PFloat nan; PFloat nan]) /\
  count_if (fun x => PrimFloat.ltb x 1) [nan; nan]%float = 0 /\
  PFloat nan <> PFloat (float_of_Z 0).
Proof.
  split; [reflexivity |]. split; [reflexivity |].
  intros H.
  apply (f_equal (fun v => match v with PFloat f => isnan f | _ => false end)) in H.
  vm_compute in H. discriminate.
Qed.

(** The statistic with the edges: once the bins are there, the remaining
    options resolve and the variable is in the data, [freq_int_dist]
    returns with the axis [bins] and the labelled edges. *)
Lemma freq_int_dist_with_bins {E : Externals} (data : Dataset)
      (var stat : string) (cfg : dict) (bins_cfg in_thr in_dry thr dry : pyval)
      (nb : bool) (values : field) (edges : list float) :
  config_get cfg stat "bins" = Ok bins_cfg ->
  freq_int_dist_bins data var bins_cfg = Ok edges ->
  config_get cfg stat "thr" = Ok in_thr ->
  resolve_option in_thr var = Ok thr ->
  config_get cfg stat "dry event thr" = Ok in_dry ->
  resolve_option in_dry var = Ok dry ->
  config_get cfg stat "normalized" = Ok (PBool nb) ->
  ds_getvar data var = Ok values ->
  exists st src,
    freq_int_dist data var stat cfg = ([], Ok st) /\
    st_body st = XUfunc (K_pdf edges (PBool nb) thr dry) var None "bins"
                        (Z.of_nat (List.length edges) - 1 + 1) src /\
    st_coords st = [("bin_edges", PStr "dry_events" :: map PFloat edges)].
Proof.
  intros Hb He Ht Hthr Hd Hdry Hn Hv. unfold freq_int_dist.
  rewrite Hb, bind_lift_ok, He, bind_lift_ok. cbv zeta.
  rewrite Ht, bind_lift_ok, Hthr, bind_lift_ok, Hd, bind_lift_ok, Hdry,
    bind_lift_ok, Hn, !bind_lift_ok.
  destruct (String.eqb var "pr") eqn:Hpr.
  - rewrite Hv, bind_lift_ok. cbv zeta. rewrite bind_ok.
    unfold ds_getvar at 1. cbn [ds_vars assoc]. rewrite String.eqb_refl.
    rewrite bind_lift_ok. eexists _, _. repeat split.
  - rewrite bind_ok, Hv, bind_lift_ok. eexists _, _. repeat split.
Qed.

(** A quotient by zero is NaN or infinite: it has no ceiling. *)
Lemma float_ceil_div_zero (x c : float) :
  PrimFloat.eqb c 0 = true -> float_ceil (x / c) = None.
Proof.
  rewrite eqb_spec. unfold float_ceil. rewrite div_spec.
  change (Prim2SF 0) with (SpecFloat.S754_zero false).
  unfold SpecFloat.SFeqb.
  destruct (Prim2SF c) as [sc | sc | | sc mc ec];
    cbn [SpecFloat.SFcompare]; try discriminate;
    try (destruct sc; discriminate).
  intros _. destruct (Prim2SF x) as [sx | sx | | sx mx ex]; reflexivity.
Qed.

(** C5 (as amended).  With a mapping for the bins, the other options
    resolved and the variable in the data: when the mapping has no entry for
    the variable, the edges are the 20 values of [linspace(min, max, 20)]
    over the variable, hence 19 bins; when it holds a triple of numbers
    [(start, stop, step)] whose length [ceil((stop - start) / step)] is a
    number within the index type, the edges are that many values of
    [numpy.arange]: [start], [start + step], then [start + i * delta] for
    the difference [delta] of the first two; the bins are one fewer than the
    edges.  In both cases [freq_int_dist] returns, with the axis [bins] of
    one entry per bin and one more. *)
Theorem pdf_bin_edges {E : Externals} (data : Dataset) (var stat : string)
        (cfg : dict) (d : dict) (in_thr in_dry thr dry : pyval) (nb : bool)
        (values : field) :
  config_get cfg stat "bins" = Ok (PDict d) ->
  config_get cfg stat "thr" = Ok in_thr ->
  resolve_option in_thr var = Ok thr ->
  config_get cfg stat "dry event thr" = Ok in_dry ->
  resolve_option in_dry var = Ok dry ->
  config_get cfg stat "normalized" = Ok (PBool nb) ->
  ds_getvar data var = Ok values ->
  (dict_mem d var = false ->
   let edges := np_linspace (np_nanmin (List.concat values))
                            (np_nanmax (List.concat values)) 20 in
   List.length edges = 20%nat /\
   last edges 0%float = np_nanmax (List.concat values) /\
   exists st src,
     freq_int_dist data var stat cfg = ([], Ok st) /\
     st_body st = XUfunc (K_pdf edges (PBool nb) thr dry) var None
                         "bins" (19 + 1) src /\
     st_coords st = [("bin_edges", PStr "dry_events" :: map PFloat edges)]) /\
  (forall (start stop step : pyval) (a b c : float) (n : Z),
     dict_find d var = Some (PList [start; stop; step]) ->
     as_float start = Ok a -> as_float stop = Ok b -> as_float step = Ok c ->
     isnan ((b - a) / c)%float = false ->
     float_ceil ((b - a) / c)%float = Some n ->
     - 2 ^ 63 <= n < 2 ^ 63 ->
     let edges := arange_values a c (Z.to_nat n) in
     List.length edges = Z.to_nat n /\
     exists st src,
       freq_int_dist data var stat cfg = ([], Ok st) /\
       st_body st = XUfunc (K_pdf edges (PBool nb) thr dry) var None
                           "bins" (Z.of_nat (List.length edges) - 1 + 1) src /\
       st_coords st = [("bin_edges", PStr "dry_events" :: map PFloat edges)]).
Proof.
  intros Hb Ht Hthr Hd Hdry Hn Hv. split.
  - intros Hmem. cbv zeta.
    split; [apply length_linspace |].
    split; [apply last_linspace; lia |].
    assert (He : freq_int_dist_bins data var (PDict d) =
                 Ok (np_linspace (np_nanmin (List.concat values))
                                 (np_nanmax (List.concat values)) 20)).
    { unfold freq_int_dist_bins.
      change (py_in var (PDict d)) with (@Ok bool (dict_mem d var)).
      now rewrite Hmem, Hv. }
    destruct (freq_int_dist_with_bins data var stat cfg _ _ _ _ _ _ _ _
                Hb He Ht Hthr Hd Hdry Hn Hv) as [st [src [Hrun [Hbody Hco]]]].
    exists st, src. rewrite length_linspace in Hbody.
    split; [exact Hrun |]. split; [exact Hbody | exact Hco].
  - intros start stop step a b c n Hfind Ha Hb' Hc Hnan Hceil Hn64. cbv zeta.
    split; [unfold arange_values; now rewrite length_map, length_seq |].
    assert (He : freq_int_dist_bins data var (PDict d) =
                 Ok (arange_values a c (Z.to_nat n))).
    { unfold freq_int_dist_bins.
      change (py_in var (PDict d)) with (@Ok bool (dict_mem d var)).
      unfold dict_mem, py_getitem, dict_getitem. rewrite Hfind. cbn [negb].
      unfold arange_of_triple. cbn [py_index nth_error].
      rewrite Ha, Hb', Hc. unfold np_arange. cbv zeta.
      destruct (PrimFloat.eqb c 0) eqn:Hzero;
        [rewrite (float_ceil_div_zero _ _ Hzero) in Hceil; discriminate |].
      rewrite Hnan, Hceil.
      replace (2 ^ 63 <=? n) with false by (symmetry; apply Z.leb_gt; lia).
      replace (n <? - 2 ^ 63) with false by (symmetry; apply Z.ltb_ge; lia).
      reflexivity. }
    exact (freq_int_dist_with_bins data var stat cfg _ _ _ _ _ _ _ _
             Hb He Ht Hthr Hd Hdry Hn Hv).
Qed.

(** Hourly precipitation with an empty mapping for the bins, and with the
    triple [(0, 10, 2)] for the variable. *)
Lemma pdf_bin_edges_witness :
  (exists st src,
     @freq_int_dist toy_externals hourly_pr "pr" "pdf"
       (configured "pdf" [("bins", PDict [])]) = ([], Ok st) /\
     st_body st =
       XUfunc (K_pdf (np_linspace 0 9 20) (PBool false) PNone PNone) "pr" None
              "bins" (19 + 1) src) /\
  (exists st src,
     @freq_int_dist toy_externals hourly_pr "pr" "pdf"
       (configured "pdf" [("bins", PDict [("pr", PList [PInt 0; PInt 10; PInt 2])])])
       = ([], Ok st) /\
     st_body st =
       XUfunc (K_pdf [0; 2; 4; 6; 8]%float (PBool false) PNone PNone) "pr" None
              "bins" (5 - 1 + 1) src).
Proof.
  split.
  - destruct (proj1 (@pdf_bin_edges toy_externals hourly_pr "pr" "pdf"
                       (configured "pdf" [("bins", PDict [])]) []
                       PNone PNone PNone PNone false [[0; 5; 9; 1]]%float
                       eq_refl eq_refl eq_refl eq_refl eq_refl eq_refl eq_refl)
                    eq_refl) as [_ [_ [st [src [Hrun [Hbody _]]]]]].
    exists st, src. split; [exact Hrun | exact Hbody].
  - assert (Hn64 : - 2 ^ 63 <= 5 < 2 ^ 63) by lia.
    destruct (proj2 (@pdf_bin_edges toy_externals hourly_pr "pr" "pdf"
                       (configured "pdf"
                          [("bins", PDict [("pr", PList [PInt 0; PInt 10; PInt 2])])])
                       [("pr", PList [PInt 0; PInt 10; PInt 2])]
                       PNone PNone PNone PNone false [[0; 5; 9; 1]]%float
                       eq_refl eq_refl eq_refl eq_refl eq_refl eq_refl eq_refl)
                    (PInt 0) (PInt 10) (PInt 2) 0%float 10%float 2%float 5
                    eq_refl eq_refl eq_refl eq_refl eq_refl eq_refl Hn64)
      as [_ [st [src [Hrun [Hbody _]]]]].
    exists st, src. split; [exact Hrun | exact Hbody].
Defined.

(** C5 (the claim as stated fails).  With a mapping for the bins that has
    no entry for the variable, the data give 20 edges, hence 19 bins and not
    20; and with the default configuration, where the bins are [None],
    [freq_int_dist] raises [TypeError]. *)
Lemma pdf_default_bins_are_nineteen :
  (exists st src edges,
     @freq_int_dist toy_externals hourly_pr "pr" "pdf"
       (configured "pdf" [("bins", PDict [])]) = ([], Ok st) /\
     st_body st = XUfunc (K_pdf edges (PBool false) PNone PNone) "pr" None
                         "bins" 20 src /\
     Z.of_nat (List.length edges) - 1 = 19) /\
  config_get (configured "pdf" []) "pdf" "bins" = Ok PNone /\
  @freq_int_dist toy_externals hourly_pr "pr" "pdf" (configured "pdf" [])
    = ([], Raise TypeError).
Proof.
  split; [| split; reflexivity].
  eexists _, _, _. split; [reflexivity |]. split; reflexivity.
Qed.

(** Without a dry-event threshold and with a first pixel that is all
    missing, the [None] of a later pixel is stored as NaN: the block is an
    array of [float64]. *)
Lemma pdf_none_is_stored_as_nan :
  outcome (_pdf_calc (Block [[nan; nan]; [0; 0.5]]%float)
                     (Some (BEdges [0; 1; 2]%float)) false true PNone PNone)
    = Ok (Block [[PFloat nan; PFloat nan; PFloat nan];
                 [PFloat nan; PFloat 1; PFloat 0]]).
Proof. reflexivity. Qed.

(* ================================================================== *)
(** * Further properties of the code *)




(** ** The resolver on known and unknown statistics *)

Lemma bind_returned {A B} (a : A) (k : A -> M B) :
  bind (@nil string, Ok a) k = k a.
Proof. apply bind_ok. Qed.

Lemma stats_dict_records (k : string) (v : pyval) :
  dict_find stats_dict k = Some v -> exists rec, v = PDict rec.
Proof.
  unfold stats_dict. cbn [dict_find].
  repeat match goal with
         | |- context [String.eqb k ?s] => destruct (String.eqb k s)
         end;
    try discriminate; intros [= <-]; eexists; reflexivity.
Qed.


Lemma dict_getitem_known (k : string) :
  dict_mem stats_dict k = true ->
  dict_getitem stats_dict k = Ok (PDict (default_record k)).
Proof.
  unfold dict_mem, dict_getitem, default_record.
  destruct (dict_find stats_dict k) as [v |] eqn:Hk; [| discriminate].
  destruct (stats_dict_records k v Hk) as [rec ->]. reflexivity.
Qed.

Lemma dict_find_app_key (A B : dict) (k : string) (v : pyval) :
  ~ In k (map fst A) -> dict_find (A ++ (k, v) :: B)%list k = Some v.
Proof.
  induction A as [| [k' v'] A IH]; simpl; intros Hk.
  - now rewrite String.eqb_refl.
  - destruct (String.eqb k k') eqn:He.
    + apply String.eqb_eq in He. subst. exfalso. apply Hk. now left.
    + apply IH. intros Hin. apply Hk. now right.
Qed.

Lemma dict_store_app_key (A B : dict) (k : string) (v v' : pyval) :
  ~ In k (map fst A) ->
  dict_store (A ++ (k, v) :: B)%list k v' = (A ++ (k, v') :: B)%list.
Proof.
  induction A as [| [k0 v0] A IH]; simpl; intros Hk.
  - now rewrite String.eqb_refl.
  - destruct (String.eqb k k0) eqn:He.
    + apply String.eqb_eq in He. subst. exfalso. apply Hk. now left.
    + f_equal. apply IH. intros Hin. apply Hk. now right.
Qed.

Lemma dict_store_fresh (A : dict) (k : string) (v : pyval) :
  ~ In k (map fst A) -> dict_store A k v = (A ++ [(k, v)])%list.
Proof.
  induction A as [| [k0 v0] A IH]; simpl; intros Hk; [reflexivity |].
  destruct (String.eqb k k0) eqn:He.
  - apply String.eqb_eq in He. subst. exfalso. apply Hk. now left.
  - f_equal. apply IH. intros Hin. apply Hk. now right.
Qed.


Lemma default_stats_config_from (ks : list string) :
  forall acc : dict,
    NoDup (map fst acc ++ ks)%list ->
    (forall k, In k ks -> dict_mem stats_dict k = true) ->
    for_each ks
      (fun acc k => bind (lift (dict_getitem stats_dict k))
                      (fun v => ret (dict_store acc k v))) acc
    = ([], Ok (acc ++ map default_entry ks)%list).
Proof.
  induction ks as [| k ks IH]; intros acc Hnd Hknown.
  - simpl. now rewrite app_nil_r.
  - cbn [for_each].
    rewrite (dict_getitem_known k (Hknown k (or_introl eq_refl))).
    rewrite bind_lift_ok, bind_ok.
    assert (Hfresh : ~ In k (map fst acc)).
    { intros Hin. apply NoDup_remove_2 in Hnd. apply Hnd.
      apply in_or_app. now left. }
    rewrite (dict_store_fresh _ _ _ Hfresh).
    rewrite IH.
    + now rewrite <- app_assoc.
    + rewrite map_app. simpl. rewrite <- app_assoc. exact Hnd.
    + intros k0 Hk0. apply Hknown. now right.
Qed.

Lemma default_stats_config_missing (ks : list string) :
  forall acc : dict,
    (exists k, In k ks /\ dict_find stats_dict k = None) ->
    for_each ks
      (fun acc k => bind (lift (dict_getitem stats_dict k))
                      (fun v => ret (dict_store acc k v))) acc
    = ([], Raise KeyError).
Proof.
  induction ks as [| k ks IH]; intros acc [k0 [Hin Hk0]]; [destruct Hin |].
  cbn [for_each]. unfold dict_getitem at 1.
  destruct (dict_find stats_dict k) as [v |] eqn:Hk.
  - rewrite bind_lift_ok, bind_ok. apply IH.
    destruct Hin as [<- | Hin]; [congruence |]. now exists k0.
  - reflexivity.
Qed.

(** X1.  A request that names a statistic the schema does not have makes
    the resolver raise [KeyError], with nothing printed, whatever else is
    requested. *)
Theorem mod_stats_config_unknown_statistic
        (requested_stats : list (string * request)) (k : string) :
  In k (map fst requested_stats) ->
  dict_find stats_dict k = None ->
  mod_stats_config requested_stats = ([], Raise KeyError).
Proof.
  intros Hin Hk. unfold mod_stats_config, default_stats_config.
  rewrite (default_stats_config_missing _ []); [reflexivity |].
  now exists k.
Qed.

Lemma mod_stats_config_unknown_statistic_witness :
  mod_stats_config [("pdf", Default); ("variance", Overrides [("thr", PNone)])]
    = ([], Raise KeyError).
Proof.
  apply (mod_stats_config_unknown_statistic _ "variance");
    [right; left; reflexivity | reflexivity].
Defined.


Lemma overrides_loop (A B : dict) (k : string) (o : dict) :
  ~ In k (map fst A) ->
  forall rec : dict,
    for_each o (fun stats_dd '(m, v) => try_assign_option stats_dd k m v)
             (A ++ (k, PDict rec) :: B)%list
    = ([], Ok (A ++ (k, PDict (apply_overrides rec o)) :: B)%list).
Proof.
  intros Hk. induction o as [| [m v] o IH]; intros rec; [reflexivity |].
  cbn [for_each]. unfold try_assign_option, assign_option, dict_getitem,
    dict_setitem.
  rewrite (dict_find_app_key _ _ _ _ Hk), (dict_store_app_key _ _ _ _ _ Hk).
  rewrite bind_ok. apply IH.
Qed.

Lemma requests_loop (post : list (string * request)) :
  forall pre : list (string * request),
    NoDup (map fst (pre ++ post)%list) ->
    for_each post
      (fun stats_dd '(k, r) =>
         match r with
         | Default => ret stats_dd
         | Overrides o =>
             for_each o (fun stats_dd '(m, v) => try_assign_option stats_dd k m v)
                      stats_dd
         end)
      (map resolved_entry pre ++ map default_entry (map fst post))%list
    = ([], Ok (map resolved_entry (pre ++ post)%list)).
Proof.
  induction post as [| [k r] post IH]; intros pre Hnd.
  - simpl. now rewrite !app_nil_r.
  - cbn [for_each map fst].
    assert (Hfresh : ~ In k (map fst (map resolved_entry pre))).
    { rewrite map_map. cbn [resolved_entry fst].
      rewrite map_app in Hnd. cbn [map fst] in Hnd.
      apply NoDup_remove_2 in Hnd. intros Hin. apply Hnd.
      apply in_or_app. left. exact Hin. }
    assert (Hpre : forall r0,
              (map resolved_entry (pre ++ [(k, r0)])%list ++
               map default_entry (map fst post))%list
              = (map resolved_entry pre ++
                 (k, PDict (resolved_record (default_record k) r0)) ::
                 map default_entry (map fst post))%list).
    { intros r0. rewrite map_app, <- app_assoc. reflexivity. }
    assert (Hnd' : NoDup (map fst ((pre ++ [(k, r)]) ++ post)%list))
      by now rewrite <- app_assoc.
    specialize (IH (pre ++ [(k, r)])%list Hnd').
    rewrite Hpre, <- app_assoc in IH. cbn [app] in IH.
    destruct r as [| o].
    + rewrite bind_ok. exact IH.
    + unfold default_entry at 1.
      rewrite (overrides_loop _ _ _ _ Hfresh), bind_returned. exact IH.
Qed.

(** For distinct, known statistics the resolver returns the default records
    with the overrides stored in turn, in the order of the request. *)
Lemma mod_stats_config_value (requested_stats : list (string * request)) :
  NoDup (map fst requested_stats) ->
  (forall k, In k (map fst requested_stats) -> dict_mem stats_dict k = true) ->
  mod_stats_config requested_stats
  = ([], Ok (map resolved_entry requested_stats)).
Proof.
  intros Hnd Hknown. unfold mod_stats_config, default_stats_config.
  rewrite (default_stats_config_from _ [] Hnd Hknown). cbn [app].
  rewrite bind_returned.
  exact (requests_loop requested_stats [] Hnd).
Qed.

Lemma dict_find_resolved (requested_stats : list (string * request))
      (k : string) (r : request) :
  NoDup (map fst requested_stats) -> In (k, r) requested_stats ->
  dict_find (map resolved_entry requested_stats) k
  = Some (PDict (resolved_record (default_record k) r)).
Proof.
  induction requested_stats as [| [k0 r0] l IH]; intros Hnd Hin; [destruct Hin |].
  cbn [map resolved_entry fst snd dict_find].
  destruct Hin as [[= -> ->] | Hin].
  - now rewrite String.eqb_refl.
  - cbn [map fst] in Hnd. inversion Hnd as [| ? ? Hk0 Hnd']; subst.
    destruct (String.eqb k k0) eqn:He.
    + apply String.eqb_eq in He. subst. exfalso. apply Hk0.
      apply (in_map fst) in Hin. exact Hin.
    + now apply IH.
Qed.

Lemma apply_overrides_other (o : dict) :
  forall (rec : dict) (m : string),
    ~ In m (map fst o) ->
    dict_find (apply_overrides rec o) m = dict_find rec m.
Proof.
  unfold apply_overrides.
  induction o as [| [m0 v0] o IH]; intros rec m Hm; [reflexivity |].
  cbn [fold_left]. rewrite IH.
  - apply dict_find_store_other. intros ->. apply Hm. now left.
  - intros Hin. apply Hm. now right.
Qed.

Lemma apply_overrides_in (o : dict) :
  forall (rec : dict) (m : string) (v : pyval),
    NoDup (map fst o) -> In (m, v) o ->
    dict_find (apply_overrides rec o) m = Some v.
Proof.
  unfold apply_overrides.
  induction o as [| [m0 v0] o IH]; intros rec m v Hnd Hin; [destruct Hin |].
  cbn [map fst] in Hnd. inversion Hnd as [| ? ? Hm0 Hnd']; subst.
  cbn [fold_left]. destruct Hin as [[= -> ->] | Hin].
  - change (fold_left _ o ?r) with (apply_overrides r o).
    rewrite (apply_overrides_other o _ m Hm0). apply dict_find_store_same.
  - now apply IH.
Qed.

(** X2.  For distinct statistics of the schema the resolver returns, with
    nothing printed, one record per requested statistic, in the order of
    the request; a statistic requested without overrides has the default
    record of the schema. *)
Theorem mod_stats_config_keeps_defaults
        (requested_stats : list (string * request)) :
  NoDup (map fst requested_stats) ->
  (forall k, In k (map fst requested_stats) -> dict_mem stats_dict k = true) ->
  exists cfg,
    mod_stats_config requested_stats = ([], Ok cfg) /\
    dict_keys cfg = map fst requested_stats /\
    forall k, In (k, Default) requested_stats ->
              dict_getitem cfg k = dict_getitem stats_dict k.
Proof.
  intros Hnd Hknown. exists (map resolved_entry requested_stats).
  split; [now apply mod_stats_config_value |].
  split.
  - unfold dict_keys. rewrite map_map. reflexivity.
  - intros k Hin. unfold dict_getitem at 1.
    rewrite (dict_find_resolved _ _ _ Hnd Hin). cbn [resolved_record].
    symmetry. apply dict_getitem_known. apply Hknown.
    apply (in_map fst) in Hin. exact Hin.
Qed.

Lemma mod_stats_config_keeps_defaults_witness :
  exists cfg,
    mod_stats_config [("pdf", Default); ("moments", Overrides [("thr", PNone)]);
                      ("Rxx", Default)] = ([], Ok cfg) /\
    dict_keys cfg = ["pdf"; "moments"; "Rxx"] /\
    forall k, In (k, Default)
                 [("pdf", Default); ("moments", Overrides [("thr", PNone)]);
                  ("Rxx", Default)] ->
              dict_getitem cfg k = dict_getitem stats_dict k.
Proof.
  apply (mod_stats_config_keeps_defaults
           [("pdf", Default); ("moments", Overrides [("thr", PNone)]);
            ("Rxx", Default)]).
  - repeat constructor; simpl; intuition discriminate.
  - intros k [<- | [<- | [<- | []]]]; reflexivity.
Defined.

(** X3.  In the resolved configuration of distinct known statistics, every
    option overridden for a statistic reads back as the value given, and
    every option not overridden reads as in the schema (its default, or
    [KeyError] when the schema has no such option). *)
Theorem mod_stats_config_override_lookup
        (requested_stats : list (string * request)) (k : string) (o : dict) :
  NoDup (map fst requested_stats) ->
  (forall k, In k (map fst requested_stats) -> dict_mem stats_dict k = true) ->
  In (k, Overrides o) requested_stats ->
  NoDup (map fst o) ->
  exists cfg,
    mod_stats_config requested_stats = ([], Ok cfg) /\
    (forall m v, In (m, v) o -> config_get cfg k m = Ok v) /\
    (forall m, ~ In m (map fst o) ->
               config_get cfg k m = config_get stats_dict k m).
Proof.
  intros Hnd Hknown Hin Ho. exists (map resolved_entry requested_stats).
  split; [now apply mod_stats_config_value |].
  assert (Hk : dict_mem stats_dict k = true)
    by (apply Hknown; apply (in_map fst) in Hin; exact Hin).
  assert (Hcfg : forall m,
             config_get (map resolved_entry requested_stats) k m
             = dict_getitem (apply_overrides (default_record k) o) m).
  { intros m. unfold config_get. unfold dict_getitem at 1.
    now rewrite (dict_find_resolved _ _ _ Hnd Hin). }
  assert (Hdef : forall m,
             config_get stats_dict k m = dict_getitem (default_record k) m).
  { intros m. unfold config_get. now rewrite (dict_getitem_known k Hk). }
  split.
  - intros m v Hm. rewrite Hcfg. unfold dict_getitem.
    now rewrite (apply_overrides_in o _ m v Ho Hm).
  - intros m Hm. rewrite Hcfg, Hdef. unfold dict_getitem.
    now rewrite (apply_overrides_other o _ m Hm).
Qed.

Lemma mod_stats_config_override_lookup_witness :
  exists cfg,
    mod_stats_config
      [("pdf", Overrides [("bins", PDict []); ("binz", PInt 7)])] = ([], Ok cfg) /\
    (forall m v, In (m, v) [("bins", PDict []); ("binz", PInt 7)] ->
                 config_get cfg "pdf" m = Ok v) /\
    (forall m, ~ In m (map fst [("bins", PDict []); ("binz", PInt 7)]) ->
               config_get cfg "pdf" m = config_get stats_dict "pdf" m).
Proof.
  apply (mod_stats_config_override_lookup
           [("pdf", Overrides [("bins", PDict []); ("binz", PInt 7)])] "pdf"
           [("bins", PDict []); ("binz", PInt 7)]).
  - repeat constructor; simpl; intuition discriminate.
  - intros k [<- | []]; reflexivity.
  - left; reflexivity.
  - repeat constructor; simpl; intuition discriminate.
Defined.



(** ** Frequency strings *)

Lemma filter_nil_existsb {A} (p : A -> bool) (l : list A) :
  filter p l = [] <-> existsb p l = false.
Proof.
  induction l as [| x l IH]; simpl; [tauto |].
  destruct (p x); simpl; [split; discriminate | exact IH].
Qed.

Lemma filter_negb_nil_forallb {A} (p : A -> bool) (l : list A) :
  filter (fun x => negb (p x)) l = [] <-> forallb p l = true.
Proof.
  induction l as [| x l IH]; simpl; [tauto |].
  destruct (p x); simpl; [exact IH | split; discriminate].
Qed.

(** X4.  [_get_freq] raises exactly when the frequency string has no digit
    or consists of digits only, and then the exception is [TypeError];
    with at least one digit and one other character it returns. *)
Theorem get_freq_raises_without_count_or_unit (tf : string) :
  (_get_freq tf = Raise TypeError <->
   existsb is_digit (chars tf) = false \/ forallb is_digit (chars tf) = true) /\
  (forall e, _get_freq tf = Raise e -> e = TypeError) /\
  (existsb is_digit (chars tf) = true -> forallb is_digit (chars tf) = false ->
   exists freq unit, _get_freq tf = Ok (freq, unit)).
Proof.
  unfold _get_freq.
  destruct (filter is_digit (chars tf)) as [| d ds] eqn:Hd.
  - apply filter_nil_existsb in Hd. rewrite Hd.
    split; [split; auto |]. split; [now intros e [= <-] | discriminate].
  - assert (Hd' : existsb is_digit (chars tf) = true).
    { destruct (existsb is_digit (chars tf)) eqn:He; [reflexivity |].
      apply filter_nil_existsb in He. congruence. }
    destruct (filter (fun c => negb (is_digit c)) (chars tf)) as [| c0 cs] eqn:Hu.
    + apply filter_negb_nil_forallb in Hu. rewrite Hu.
      split; [split; auto |]. split; [now intros e [= <-] | discriminate].
    + assert (Hu' : forallb is_digit (chars tf) = false).
      { destruct (forallb is_digit (chars tf)) eqn:He; [| reflexivity].
        apply filter_negb_nil_forallb in He. congruence. }
      rewrite Hd', Hu'.
      repeat match goal with
             | |- context [if ?b then _ else _] => destruct b
             end;
        (split; [split; [discriminate | intros [H | H]; discriminate H] |]);
        (split; [discriminate | intros _ _; eexists _, _; reflexivity]).
Qed.





(** ** Whole hours *)

Lemma ceil_hour_bounds (t : Z) : t <= ceil_hour t < t + ns_per_hour.
Proof.
  unfold ceil_hour, ns_per_hour.
  pose proof (Z.div_mod (- t) 3600000000000 ltac:(lia)).
  pose proof (Z.mod_pos_bound (- t) 3600000000000 ltac:(lia)).
  lia.
Qed.

Lemma minute_of_ceil_hour (t : Z) : minute_of (ceil_hour t) = 0.
Proof.
  unfold minute_of, ceil_hour, ns_per_hour, ns_per_minute.
  replace (- (- t / 3600000000000) * 3600000000000)
    with ((- (- t / 3600000000000) * 60) * 60000000000) by lia.
  rewrite Z.div_mul by lia. apply Z.mod_mul. lia.
Qed.

Lemma minute_of_nonneg (t : Z) : 0 <= minute_of t.
Proof. unfold minute_of. apply Z.mod_pos_bound. lia. Qed.

Lemma no_minutes (ts : list Z) :
  existsb (fun t => 0 <? minute_of t) ts = false <->
  forall t, In t ts -> minute_of t = 0.
Proof.
  induction ts as [| t ts IH]; simpl.
  - split; [intros _ t [] | reflexivity].
  - rewrite orb_false_iff, IH. split.
    + intros [Ht Hts] t' [<- | Hin]; [| now apply Hts].
      apply Z.ltb_ge in Ht. pose proof (minute_of_nonneg t). lia.
    + intros H. split; [| intros t' Hin; apply H; now right].
      apply Z.ltb_ge. rewrite (H t (or_introl eq_refl)). lia.
Qed.

Lemma Forall2_map_r {A B} (R : A -> B -> Prop) (f : A -> B) (l : list A) :
  (forall a, R a (f a)) -> Forall2 R l (map f l).
Proof. intros H. induction l; simpl; constructor; auto. Qed.

Lemma Forall2_diag {A} (R : A -> A -> Prop) (l : list A) :
  (forall a, R a a) -> Forall2 R l l.
Proof. intros H. induction l; constructor; auto. Qed.

Lemma check_hours_shifts (ds : Dataset) :
  exists ds',
    outcome (_check_hours ds) = Ok ds' /\
    ds_vars ds' = ds_vars ds /\
    Forall2 (fun t t' => t <= t' < t + ns_per_hour) (ds_time ds) (ds_time ds') /\
    (forall t, In t (ds_time ds') -> minute_of t = 0).
Proof.
  unfold _check_hours.
  destruct (existsb (fun t => 0 <? minute_of t) (ds_time ds)) eqn:Hany.
  - eexists. split; [reflexivity |]. cbn [ds_vars ds_time].
    split; [reflexivity |]. split.
    + apply Forall2_map_r. apply ceil_hour_bounds.
    + intros t Hin. apply in_map_iff in Hin as [t0 [<- _]].
      apply minute_of_ceil_hour.
  - exists ds. split; [reflexivity |]. split; [reflexivity |]. split.
    + apply Forall2_diag. unfold ns_per_hour. lia.
    + now apply no_minutes.
Qed.

(** X6.  [_check_hours] always returns; the variables and attributes are
    unchanged, every time stamp is moved up by less than an hour, no
    returned time stamp has minutes, and a second call on the result
    changes nothing and prints nothing. *)
Theorem check_hours_whole_hours (ds : Dataset) :
  exists ds',
    outcome (_check_hours ds) = Ok ds' /\
    ds_vars ds' = ds_vars ds /\ ds_attrs ds' = ds_attrs ds /\
    Forall2 (fun t t' => t <= t' < t + ns_per_hour) (ds_time ds) (ds_time ds') /\
    (forall t, In t (ds_time ds') -> minute_of t = 0) /\
    _check_hours ds' = ([], Ok ds').
Proof.
  destruct (check_hours_shifts ds) as [ds' [Hrun [Hvars [Hshift Hwhole]]]].
  exists ds'. repeat split; try assumption.
  - unfold _check_hours in Hrun.
    destruct (existsb (fun t => 0 <? minute_of t) (ds_time ds));
      cbn in Hrun; injection Hrun as <-; reflexivity.
  - unfold _check_hours. apply no_minutes in Hwhole. now rewrite Hwhole.
Qed.

(** ** Threshold masking *)

Lemma map2_map_l {A B C} (g : A -> B) (f : B -> A -> C) (l : list A) :
  map2 f (map g l) l = map (fun x => f (g x) x) l.
Proof. induction l; simpl; congruence. Qed.

Lemma map_ext_eq {A B} (f g : A -> B) (l : list A) :
  (forall x, f x = g x) -> map f l = map g l.
Proof. intros H. induction l; simpl; congruence. Qed.

Lemma assoc_map {A} (g : A -> A) (l : list (string * A)) (k : string) :
  assoc (map (fun '(name, f) => (name, g f)) l) k = option_map g (assoc l k).
Proof.
  induction l as [| [k' v] l IH]; simpl; [reflexivity |].
  destruct (String.eqb k k'); [reflexivity | exact IH].
Qed.


Lemma ds_where_ge_var (data : Dataset) (var : string) (thr : pyval)
      (t : float) (f : field) :
  as_float thr = Ok t ->
  ds_getvar data var = Ok f ->
  exists data',
    ds_where_ge data var thr = Ok data' /\
    ds_time data' = ds_time data /\
    ds_getvar data' var = Ok (mask_below t f).
Proof.
  intros Ht Hf. unfold ds_where_ge. rewrite Hf, Ht.
  eexists. split; [reflexivity |]. split; [reflexivity |].
  unfold ds_getvar in *. cbn [ds_vars]. rewrite assoc_map.
  destruct (assoc (ds_vars data) var) as [f0 |]; [| discriminate].
  injection Hf as ->. cbn [option_map]. f_equal.
  unfold mask_below. rewrite map2_map_l. apply map_ext_eq. intros p.
  now rewrite map2_map_l.
Qed.

(** The threshold block with a mapping that holds the variable. *)
Lemma apply_threshold_mapping (d : dict) (var : string) (data : Dataset)
      (thr : pyval) :
  dict_find d var = Some thr ->
  apply_threshold (PDict d) var data =
  match ds_where_ge data var thr with
  | Ok data' => Ok (thr, data')
  | Raise e => Raise e
  end.
Proof.
  intros Hd. unfold apply_threshold. cbn [is_none negb py_in py_getitem].
  unfold dict_mem, dict_getitem. now rewrite Hd.
Qed.

Lemma where_masks_below
      (d : dict) (var : string) (data : Dataset) (thr : pyval) (t : float)
      (f : field) :
  dict_find d var = Some thr ->
  as_float thr = Ok t ->
  ds_getvar data var = Ok f ->
  exists data',
    apply_threshold (PDict d) var data = Ok (thr, data') /\
    ds_time data' = ds_time data /\
    ds_getvar data' var = Ok (mask_below t f).
Proof.
  intros Hd Ht Hf.
  destruct (ds_where_ge_var data var thr t f Ht Hf) as [data' [Hrun H]].
  exists data'. split; [| exact H].
  now rewrite (apply_threshold_mapping _ _ _ _ Hd), Hrun.
Qed.

(** X7.  With a mapping that gives a numeric threshold for the variable,
    the threshold block returns that threshold and a dataset on the same
    time axis whose variable holds, value by value, the input value where
    it is at least the threshold and NaN elsewhere; so every value left
    is NaN or at least the threshold. *)
Theorem apply_threshold_masks_below
        (d : dict) (var : string) (data : Dataset) (thr : pyval) (t : float)
        (f : field) :
  dict_find d var = Some thr ->
  as_float thr = Ok t ->
  ds_getvar data var = Ok f ->
  exists data',
    apply_threshold (PDict d) var data = Ok (thr, data') /\
    ds_time data' = ds_time data /\
    ds_getvar data' var = Ok (mask_below t f) /\
    forall p x, In p (mask_below t f) -> In x p ->
                isnan x = true \/ PrimFloat.leb t x = true.
Proof.
  intros Hd Ht Hf.
  destruct (ds_where_ge_var data var thr t f Ht Hf)
    as [data' [Hrun [Htime Hvar]]].
  exists data'. split; [| split; [exact Htime | split; [exact Hvar |]]].
  - now rewrite (apply_threshold_mapping _ _ _ _ Hd), Hrun.
  - intros p x Hp Hx. unfold mask_below in Hp.
    apply in_map_iff in Hp as [p0 [<- _]].
    apply in_map_iff in Hx as [x0 [<- _]].
    destruct (PrimFloat.leb t x0) eqn:Hle; [now right | now left].
Qed.

Lemma apply_threshold_masks_below_witness :
  exists data',
    apply_threshold (PDict [("pr", PFloat 1)]) "pr" hourly_pr
      = Ok (PFloat 1, data') /\
    ds_time data' = ds_time hourly_pr.
Proof.
  destruct (apply_threshold_masks_below [("pr", PFloat 1)] "pr" hourly_pr
              (PFloat 1) 1%float
              (match ds_getvar hourly_pr "pr" with Ok f => f | _ => [] end)
              eq_refl eq_refl eq_refl) as [data' [H1 [H2 _]]].
  exists data'. split; assumption.
Defined.



(** ** Thresholds are mappings *)

Lemma outcome_bind {A B} (m : M A) (k : A -> M B) :
  outcome (bind m k) =
  match outcome m with Ok a => outcome (k a) | Raise e => Raise e end.
Proof.
  destruct m as [out [a | e]]; simpl; [| reflexivity].
  destruct (k a) as [out' r']. reflexivity.
Qed.

Lemma outcome_lift {A} (r : res A) : outcome (lift r) = r.
Proof. destruct r; reflexivity. Qed.

(** One statement of a function body: the statement raises, or the
    function goes on with the value it gives. *)
Ltac advance :=
  rewrite outcome_bind;
  match goal with
  | |- context [match outcome ?m with Ok _ => _ | Raise _ => _ end] =>
      let r := fresh "r" in
      destruct (outcome m) as [r |] eqn:?;
      [| eexists; reflexivity]
  end.


Lemma apply_threshold_number (v : pyval) (var : string) (data : Dataset)
      (t : float) :
  as_float v = Ok t -> apply_threshold v var data = Raise TypeError.
Proof. destruct v; try discriminate; reflexivity. Qed.

Lemma resolve_option_number (v : pyval) (var : string) (t : float) :
  as_float v = Ok t -> resolve_option v var = Raise TypeError.
Proof. destruct v; try discriminate; reflexivity. Qed.

Section NumericThreshold.
Context {E : Externals} {Sb : Siblings}.
Variables (data : Dataset) (var stat : string) (cfg : dict) (v : pyval)
          (t : float).
Hypothesis Hthr : config_get cfg stat "thr" = Ok v.
Hypothesis Hnum : as_float v = Ok t.


Ltac reject_applied :=
  repeat first
    [ rewrite outcome_bind, outcome_lift, Hthr;
      rewrite outcome_bind, outcome_lift,
        (apply_threshold_number _ _ _ _ Hnum);
      eexists; reflexivity
    | advance ].

Ltac reject_resolved :=
  repeat first
    [ rewrite outcome_bind, outcome_lift, Hthr;
      rewrite outcome_bind, outcome_lift, (resolve_option_number _ _ _ Hnum);
      eexists; reflexivity
    | advance ].

Lemma moments_rejects_number :
  exists e, outcome (moments data var stat cfg) = Raise e.
Proof. unfold moments. reject_applied. Qed.

Lemma seasonal_cycle_rejects_number :
  exists e, outcome (seasonal_cycle data var stat cfg) = Raise e.
Proof. unfold seasonal_cycle. reject_applied. Qed.

Lemma annual_cycle_rejects_number :
  exists e, outcome (annual_cycle data var stat cfg) = Raise e.
Proof. unfold annual_cycle. reject_applied. Qed.

Lemma diurnal_cycle_rejects_number :
  exists e, outcome (diurnal_cycle data var stat cfg) = Raise e.
Proof. unfold diurnal_cycle. reject_applied. Qed.

Lemma dcycle_harmonic_fit_rejects_number :
  exists e, outcome (dcycle_harmonic_fit data var stat cfg) = Raise e.
Proof. unfold dcycle_harmonic_fit. reject_applied. Qed.

Lemma filtering_rejects_number :
  exists e, outcome (filtering data var stat cfg) = Raise e.
Proof. unfold filtering. reject_applied. Qed.

Lemma percentile_rejects_number :
  exists e, outcome (percentile data var stat cfg) = Raise e.
Proof. unfold percentile. reject_resolved. Qed.

Lemma freq_int_dist_rejects_number :
  exists e, outcome (freq_int_dist data var stat cfg) = Raise e.
Proof. unfold freq_int_dist. reject_resolved. Qed.

Lemma asop_rejects_number :
  exists e, outcome (asop data var stat cfg) = Raise e.
Proof. unfold asop. reject_resolved. Qed.

Lemma Rxx_rejects_number :
  exists e, outcome (Rxx data var stat cfg) = Raise e.
Proof. unfold Rxx. reject_resolved. Qed.
End NumericThreshold.

Lemma outcome_first_kind {E : Externals} f data var stat cfg :
  (exists e, outcome (f data var stat cfg) = Raise e) ->
  exists e, outcome (first_kind f data var stat cfg) = Raise e.
Proof.
  intros [e He]. exists e. unfold first_kind. now rewrite outcome_bind, He.
Qed.

Lemma outcome_second_kind {E : Externals} f data var stat cfg :
  (exists e, outcome (f data var stat cfg) = Raise e) ->
  exists e, outcome (second_kind f data var stat cfg) = Raise e.
Proof.
  intros [e He]. exists e. unfold second_kind. now rewrite outcome_bind, He.
Qed.

(** X8.  A threshold given as a bare number is accepted by no statistic
    that reads ['thr']: whatever the data, [calc_statistics] raises.
    (['eda'] reads ['event thr'] instead and hands it to its kernel.) *)
Theorem numeric_threshold_is_never_accepted
        {E : Externals} {Sb : Siblings}
        (data : Dataset) (var stat : string) (stat_config : dict)
        (v : pyval) (t : float) :
  stat <> "eda" ->
  config_get stat_config stat "thr" = Ok v ->
  as_float v = Ok t ->
  exists e, outcome (calc_statistics data var stat stat_config) = Raise e.
Proof.
  intros Heda Hthr Hnum. unfold calc_statistics, _stats.
  rewrite outcome_bind, outcome_lift.
  cbn [assoc stats_registry].
  repeat match goal with
         | |- context [if String.eqb stat ?s then _ else _] =>
             destruct (String.eqb stat s) eqn:?
         end;
    try (eexists; reflexivity);
    try (apply outcome_first_kind);
    try (apply outcome_second_kind);
    eauto using moments_rejects_number, seasonal_cycle_rejects_number,
      annual_cycle_rejects_number, diurnal_cycle_rejects_number,
      dcycle_harmonic_fit_rejects_number, filtering_rejects_number,
      percentile_rejects_number, freq_int_dist_rejects_number,
      asop_rejects_number, Rxx_rejects_number.
  match goal with
  | H : String.eqb stat "eda" = true |- _ =>
      apply String.eqb_eq in H; contradiction
  end.
Qed.

Lemma numeric_threshold_is_never_accepted_witness :
  exists e,
    outcome (calc_statistics (E := toy_externals) (Sb := toy_siblings)
               hourly_pr "pr" "percentile"
               (configured "percentile" [("thr", PFloat 1)])) = Raise e.
Proof.
  apply (numeric_threshold_is_never_accepted
           hourly_pr "pr" "percentile"
           (configured "percentile" [("thr", PFloat 1)]) (PFloat 1) 1%float);
    [discriminate | reflexivity | reflexivity].
Defined.




(** ** Dispatch *)

(** X9.  The statistics [_stats] can dispatch are exactly the statistics
    of the schema: for a statistic of the schema [calc_statistics] is the
    call of its function, and for any other name it raises [KeyError]
    with nothing printed. *)
Theorem calc_statistics_knows_the_schema
        {E : Externals} {Sb : Siblings} (stat : string) :
  (dict_mem stats_dict stat = true ->
   exists f, _stats stat = Ok f /\
             forall data var stat_config,
               calc_statistics data var stat stat_config
               = f data var stat stat_config) /\
  (dict_mem stats_dict stat = false ->
   forall data var stat_config,
     calc_statistics data var stat stat_config = ([], Raise KeyError)).
Proof.
  unfold calc_statistics, _stats, dict_mem.
  cbn [assoc stats_registry dict_find stats_dict].
  repeat match goal with
         | |- context [if String.eqb stat ?s then _ else _] =>
             destruct (String.eqb stat s) eqn:?
         end;
    (split; [| discriminate || reflexivity]);
    try discriminate;
    intros _; eexists; (split; [reflexivity |]); intros;
    now rewrite bind_lift_ok.
Qed.

(** ** Default configurations *)

(** X10.  With their default configuration, as the resolver returns it,
    ['pdf'], ['Rxx'] and ['signal filtering'] raise [TypeError] for every
    dataset and variable. *)
Theorem default_configuration_cannot_run
        {E : Externals} {Sb : Siblings}
        (data : Dataset) (var stat : string) :
  In stat ["pdf"; "Rxx"; "signal filtering"] ->
  exists stat_config,
    mod_stats_config [(stat, Default)] = ([], Ok stat_config) /\
    calc_statistics data var stat stat_config = ([], Raise TypeError).
Proof.
  intros [<- | [<- | [<- | []]]]; eexists; (split; [reflexivity |]);
    reflexivity.
Qed.

Lemma default_configuration_cannot_run_witness :
  exists stat_config,
    mod_stats_config [("Rxx", Default)] = ([], Ok stat_config) /\
    calc_statistics (E := toy_externals) (Sb := toy_siblings)
      hourly_pr "pr" "Rxx" stat_config = ([], Raise TypeError).
Proof.
  apply (default_configuration_cannot_run hourly_pr "pr" "Rxx").
  simpl. tauto.
Defined.




(** One statement of a function body that has returned: the statement
    gave a value. *)
Ltac returned H a Ha :=
  rewrite outcome_bind in H;
  match type of H with
  | context [match outcome ?m with Ok _ => _ | Raise _ => _ end] =>
      destruct (outcome m) as [a |] eqn:Ha; [| discriminate H];
      try rewrite outcome_lift in Ha
  end.

Lemma py_eqb_str_eq (v : pyval) (s : string) :
  py_eqb_str v s = true -> v = PStr s.
Proof.
  destruct v; try discriminate. simpl. intros H.
  apply String.eqb_eq in H. now subst.
Qed.

Lemma outcome_assert (c : bool) (u : unit) :
  outcome (py_assert c) = Ok u -> c = true.
Proof. destruct c; [reflexivity | discriminate]. Qed.

(** ** What filtering needs *)

(** X11.  With an [int] as window, [filtering] returns only when the
    window is odd, the filter is the Lanczos filter in one dimension and
    both cutoffs are given as non-zero numbers (also for a low- or
    high-pass filter); the axis it declares has
    [input_length - window + 1] entries when the mode is ['valid'] or
    [None], and the input length for every other mode. *)
Theorem filtering_returns_only_with
        {E : Externals} (data : Dataset) (var stat : string)
        (stat_config : dict) (n : Z) (st : StatData) :
  config_get stat_config stat "window" = Ok (PInt n) ->
  outcome (filtering data var stat stat_config) = Ok st ->
  exists (d c1 c2 mode : pyval) (f1 f2 : float)
         (wgts : list float) (masked : Dataset),
    n mod 2 = 1 /\
    config_get stat_config stat "filter" = Ok (PStr "lanczos") /\
    config_get stat_config stat "filter dim" = Ok d /\
    py_eqb_int d 1 = true /\
    config_get stat_config stat "1st cutoff" = Ok c1 /\
    py_recip c1 = Ok f1 /\
    config_get stat_config stat "2nd cutoff" = Ok c2 /\
    py_recip c2 = Ok f2 /\
    config_get stat_config stat "mode" = Ok mode /\
    ds_time masked = ds_time data /\
    st_body st =
      XUfunc (K_convolve wgts d mode) var None "filtered"
             (if py_eqb_str mode "valid" || is_none mode
              then Z.of_nat (List.length (ds_time data)) - n + 1
              else Z.of_nat (List.length (ds_time data)))
             (XData masked).
Proof.
  intros Hwindow H. unfold filtering in H.
  returned H ftype Hftype. returned H filt Hfilt.
  returned H w Hw. rewrite Hwindow in Hw. injection Hw as <-.
  returned H n' Hn. cbn [window_int] in Hn. injection Hn as <-.
  returned H u Hodd. apply outcome_assert, Z.eqb_eq in Hodd.
  returned H mode Hmode. returned H c1 Hc1. returned H c2 Hc2.
  returned H u' Hband. returned H d Hd. returned H in_thr Hthr.
  returned H masked Hmasked. destruct masked as [thr data'].
  returned H wgts Hwgts.
  destruct (py_eqb_str filt "lanczos") eqn:Hlanczos;
    [| rewrite outcome_print in Hwgts; discriminate].
  apply py_eqb_str_eq in Hlanczos. subst filt.
  returned Hwgts f1 Hf1. returned Hwgts f2 Hf2.
  returned H filtered Hfiltered.
  apply apply_threshold_keeps_time in Hmasked.
  destruct (py_eqb_int d 1) eqn:Hdim.
  - returned Hfiltered values Hvalues.
    cbn [outcome ret snd] in Hfiltered, H.
    injection Hfiltered as <-. injection H as <-.
    exists d, c1, c2, mode, f1, f2, wgts, data'.
    cbn [st_body]. rewrite Hmasked. repeat split; assumption.
  - destruct (py_eqb_int d 2); rewrite outcome_print in Hfiltered;
      discriminate.
Qed.

Lemma filtering_returns_only_with_witness :
  exists st,
    outcome (filtering (E := toy_externals) daily_tas "tas"
               "signal filtering" lanczos_valid_config) = Ok st /\
    exists (d c1 c2 mode : pyval) (f1 f2 : float)
           (wgts : list float) (masked : Dataset),
      3 mod 2 = 1 /\
      config_get lanczos_valid_config "signal filtering" "filter"
        = Ok (PStr "lanczos") /\
      config_get lanczos_valid_config "signal filtering" "filter dim" = Ok d /\
      py_eqb_int d 1 = true /\
      config_get lanczos_valid_config "signal filtering" "1st cutoff" = Ok c1 /\
      py_recip c1 = Ok f1 /\
      config_get lanczos_valid_config "signal filtering" "2nd cutoff" = Ok c2 /\
      py_recip c2 = Ok f2 /\
      config_get lanczos_valid_config "signal filtering" "mode" = Ok mode /\
      ds_time masked = ds_time daily_tas /\
      st_body st =
        XUfunc (K_convolve wgts d mode) "tas" None "filtered"
               (if py_eqb_str mode "valid" || is_none mode
                then Z.of_nat (List.length (ds_time daily_tas)) - 3 + 1
                else Z.of_nat (List.length (ds_time daily_tas)))
               (XData masked).
Proof.
  eexists. split; [reflexivity |].
  apply (filtering_returns_only_with (E := toy_externals) daily_tas "tas"
           "signal filtering" lanczos_valid_config 3 _ eq_refl eq_refl).
Defined.

(** ** What moments needs *)

Lemma prefix_count_string (mstat mstat' m0 : pyval) (sec : float) :
  prefix_count mstat = Ok mstat' ->
  py_index mstat' 0 = Ok m0 ->
  resample_seconds m0 = Ok sec ->
  exists f, py_index mstat 0 = Ok (PStr f) /\ m0 = PStr ("1" ++ f).
Proof.
  unfold prefix_count.
  destruct (py_index mstat 0) as [a |] eqn:Ha; [| discriminate].
  destruct a; cbn [is_int negb]; try discriminate.
  - intros [= <-]. rewrite Ha. intros [= <-]. discriminate.
  - intros [= <-]. rewrite Ha. intros [= <-]. discriminate.
  - destruct mstat as [| | | | | [| x l] |]; cbn [set_first]; try discriminate.
    intros [= <-]. cbn [py_index nth_error]. intros [= <-] _.
    exists s. split; reflexivity.
Qed.

Lemma get_freq_needs_unit (tf : string) (r : Z * string) :
  _get_freq tf = Ok r -> forallb is_digit (chars tf) = false.
Proof.
  unfold _get_freq.
  destruct (filter is_digit (chars tf)) as [| d ds]; [discriminate |].
  destruct (filter (fun c => negb (is_digit c)) (chars tf)) as [| c0 cs] eqn:Hu;
    [discriminate |].
  intros _. destruct (forallb is_digit (chars tf)) eqn:He; [| reflexivity].
  apply filter_negb_nil_forallb in He. congruence.
Qed.

(** X12.  [moments] returns only on data with at least two time stamps and
    with a string as first entry of the moment stat that holds a character
    other than a digit (the unit of the frequency). *)
Theorem moments_returns_only_with
        {E : Externals} (data : Dataset) (var stat : string)
        (stat_config : dict) (st : StatData) :
  outcome (moments data var stat stat_config) = Ok st ->
  (2 <= List.length (ds_time data))%nat /\
  exists _mstat mstat f,
    config_get stat_config stat "moment stat" = Ok _mstat /\
    match _mstat with
    | PDict d => dict_getitem d var
    | _ => Ok _mstat
    end = Ok mstat /\
    py_index mstat 0 = Ok (PStr f) /\
    forallb is_digit (chars f) = false.
Proof.
  intros H. unfold moments in H.
  returned H _mstat H_mstat. returned H mstat Hmstat.
  returned H mstat' Hprefix. returned H in_thr Hthr.
  returned H masked Hmasked. destruct masked as [thr data'].
  returned H nsec Hnsec. returned H m0 Hm0. returned H sec Hsec.
  clear H. apply apply_threshold_keeps_time in Hmasked.
  split.
  - unfold native_seconds in Hnsec. rewrite Hmasked in Hnsec.
    destruct (ds_time data) as [| t0 [| t1 ts]]; try discriminate.
    simpl. lia.
  - destruct (prefix_count_string _ _ _ _ Hprefix Hm0 Hsec) as [f [Hf ->]].
    exists _mstat, mstat, f. repeat split; try assumption.
    unfold resample_seconds in Hsec.
    destruct (_get_freq ("1" ++ f)) as [r |] eqn:Hfreq; [| discriminate].
    apply get_freq_needs_unit in Hfreq.
    unfold chars in *. cbn [append list_ascii_of_string forallb] in Hfreq.
    exact Hfreq.
Qed.

Lemma moments_returns_only_with_witness :
  exists st,
    outcome (moments (E := toy_externals) daily_tas "tas" "moments"
               (configured "moments" [("moment stat",
                                       PList [PStr "W"; PStr "mean"])]))
    = Ok st /\
    (2 <= List.length (ds_time daily_tas))%nat.
Proof.
  eexists. split; [reflexivity |].
  apply (moments_returns_only_with (E := toy_externals) daily_tas "tas"
           "moments"
           (configured "moments" [("moment stat",
                                   PList [PStr "W"; PStr "mean"])])
           _ eq_refl).
Defined.




(** ** A percentile without its argument *)

Lemma after_first_space_none (s : string) :
  existsb (Ascii.eqb " ") (chars s) = false -> after_first_space s = "".
Proof.
  induction s as [| c s IH]; [reflexivity |].
  unfold chars in *. cbn [list_ascii_of_string existsb after_first_space].
  rewrite (Ascii.eqb_sym " " c).
  destruct (Ascii.eqb c " "); cbn [orb]; [discriminate | exact IH].
Qed.

Lemma split_on_none (s : string) :
  existsb (Ascii.eqb " ") (chars s) = false -> split_on " " s = [s].
Proof.
  induction s as [| c s IH]; [reflexivity |].
  unfold chars in *. cbn [list_ascii_of_string existsb split_on].
  rewrite (Ascii.eqb_sym " " c).
  destruct (Ascii.eqb c " "); cbn [orb]; [discriminate |].
  intros H. now rewrite (IH H).
Qed.

Section BarePercentile.
Context {E : Externals} {Sb : Siblings}.
Variables (data data' : Dataset) (var stat : string) (stat_config : dict)
          (s : string) (in_thr thr : pyval).
Hypothesis Hmethod : config_get stat_config stat "stat method" = Ok (PStr s).
Hypothesis Hpctl : str_contains "percentile" s = true.
Hypothesis Hspace : existsb (Ascii.eqb " ") (chars s) = false.
Hypothesis Hthr : config_get stat_config stat "thr" = Ok in_thr.
Hypothesis Hmask : apply_threshold in_thr var data = Ok (thr, data').

Lemma annual_cycle_bare_percentile :
  outcome (annual_cycle data var stat stat_config) = Raise ValueError.
Proof.
  unfold annual_cycle.
  rewrite outcome_bind, outcome_lift, Hmethod.
  rewrite outcome_bind, outcome_lift, Hthr.
  rewrite outcome_bind, outcome_lift, Hmask.
  rewrite outcome_bind, outcome_lift. cbn [py_in]. rewrite Hpctl.
  rewrite outcome_bind, outcome_bind, outcome_lift.
  unfold percentile_argument. rewrite (after_first_space_none _ Hspace).
  reflexivity.
Qed.

Lemma seasonal_cycle_bare_percentile :
  outcome (seasonal_cycle data var stat stat_config) = Raise IndexError.
Proof.
  unfold seasonal_cycle.
  rewrite outcome_bind, outcome_lift, Hmethod.
  rewrite outcome_bind, outcome_lift, Hthr.
  rewrite outcome_bind, outcome_lift, Hmask.
  rewrite outcome_bind, outcome_lift. cbn [py_in]. rewrite Hpctl.
  rewrite outcome_bind, outcome_bind, outcome_lift.
  rewrite (split_on_none _ Hspace). reflexivity.
Qed.

Lemma diurnal_cycle_bare_percentile :
  config_get stat_config stat "dcycle stat" = Ok (PStr "amount") ->
  outcome (diurnal_cycle data var stat stat_config) = Raise ValueError.
Proof.
  intros Hstat. unfold diurnal_cycle.
  rewrite outcome_bind, outcome_lift, Hstat.
  rewrite outcome_bind, outcome_lift, Hthr.
  rewrite outcome_bind, outcome_lift, Hmask.
  rewrite outcome_bind.
  destruct (check_hours_returns data') as [ds Hds]. rewrite Hds.
  rewrite outcome_bind. cbn [py_eqb_str String.eqb Ascii.eqb Bool.eqb].
  rewrite outcome_bind, outcome_lift, Hmethod.
  rewrite outcome_bind, outcome_lift. cbn [py_in]. rewrite Hpctl.
  rewrite outcome_bind, outcome_bind, outcome_lift.
  unfold percentile_argument. rewrite (after_first_space_none _ Hspace).
  reflexivity.
Qed.
End BarePercentile.

(** X13.  A stat method that names a percentile without a white space (and
    so without its argument) is refused with [ValueError] by
    [annual_cycle] and by the amount mode of [diurnal_cycle], and with
    [IndexError] by [seasonal_cycle]. *)
Theorem percentile_without_argument
        {E : Externals} {Sb : Siblings}
        (data data' : Dataset) (var stat : string) (stat_config : dict)
        (s : string) (in_thr thr : pyval) :
  config_get stat_config stat "stat method" = Ok (PStr s) ->
  str_contains "percentile" s = true ->
  existsb (Ascii.eqb " ") (chars s) = false ->
  config_get stat_config stat "thr" = Ok in_thr ->
  apply_threshold in_thr var data = Ok (thr, data') ->
  outcome (annual_cycle data var stat stat_config) = Raise ValueError /\
  outcome (seasonal_cycle data var stat stat_config) = Raise IndexError /\
  (config_get stat_config stat "dcycle stat" = Ok (PStr "amount") ->
   outcome (diurnal_cycle data var stat stat_config) = Raise ValueError).
Proof.
  intros. split; [| split].
  - eapply annual_cycle_bare_percentile; eassumption.
  - eapply seasonal_cycle_bare_percentile; eassumption.
  - eapply diurnal_cycle_bare_percentile; eassumption.
Qed.

Lemma percentile_without_argument_witness :
  outcome (annual_cycle (E := toy_externals) daily_tas "tas" "annual cycle"
             (configured "annual cycle" [("stat method", PStr "percentile95")]))
  = Raise ValueError.
Proof.
  apply (percentile_without_argument (E := toy_externals) (Sb := toy_siblings)
           daily_tas daily_tas "tas" "annual cycle"
           (configured "annual cycle" [("stat method", PStr "percentile95")])
           "percentile95" PNone PNone eq_refl eq_refl eq_refl eq_refl eq_refl).
Defined.




(** ** Days per hour *)










(** ** The frequency mode of the diurnal cycle *)



(** ** An unknown kind of diurnal cycle *)

Lemma stdout_lift_bind {A B} (r : res A) (k : A -> M B) :
  stdout (bind (lift r) k) =
  match r with Ok a => stdout (k a) | Raise _ => [] end.
Proof. rewrite stdout_bind, outcome_lift. destruct r; reflexivity. Qed.

(** X15.  A ['dcycle stat'] other than ['amount'] and ['frequency'] makes
    [diurnal_cycle] and [dcycle_harmonic_fit] print the line that names
    it, last, and leave with [SystemExit]. *)
Theorem unknown_dcycle_stat_exits
        {E : Externals} (data data' : Dataset) (var stat : string)
        (stat_config : dict) (v in_thr thr : pyval) :
  config_get stat_config stat "dcycle stat" = Ok v ->
  py_eqb_str v "amount" = false ->
  py_eqb_str v "frequency" = false ->
  config_get stat_config stat "thr" = Ok in_thr ->
  apply_threshold in_thr var data = Ok (thr, data') ->
  let line := "Unknown configured diurnal cycle stat: " ++ py_str v in
  outcome (diurnal_cycle data var stat stat_config) = Raise SystemExit /\
  last (stdout (diurnal_cycle data var stat stat_config)) "" = line /\
  dcycle_harmonic_fit data var stat stat_config = ([line], Raise SystemExit).
Proof.
  intros Hstat Ha Hf Hthr Hmask line. split; [| split].
  - unfold diurnal_cycle.
    rewrite outcome_bind, outcome_lift, Hstat.
    rewrite outcome_bind, outcome_lift, Hthr.
    rewrite outcome_bind, outcome_lift, Hmask.
    destruct (check_hours_returns data') as [ds Hds].
    rewrite outcome_bind, Hds. rewrite Ha, Hf.
    rewrite outcome_bind, outcome_print. reflexivity.
  - unfold diurnal_cycle.
    rewrite stdout_lift_bind, Hstat, stdout_lift_bind, Hthr,
      stdout_lift_bind, Hmask.
    rewrite stdout_bind.
    destruct (check_hours_returns data') as [ds Hds]. rewrite Hds.
    rewrite Ha, Hf. rewrite stdout_bind.
    rewrite outcome_print. cbn [outcome raise snd].
    rewrite stdout_bind. cbn [outcome print snd stdout fst raise app].
    rewrite last_last. reflexivity.
  - unfold dcycle_harmonic_fit.
    rewrite Hstat, bind_lift_ok, Hthr, bind_lift_ok, Hmask, bind_lift_ok.
    rewrite Ha, Hf. reflexivity.
Qed.

Lemma unknown_dcycle_stat_exits_witness :
  outcome (diurnal_cycle (E := toy_externals) hourly_pr "pr" "diurnal cycle"
             (configured "diurnal cycle" [("dcycle stat", PStr "mean")]))
  = Raise SystemExit.
Proof.
  apply (unknown_dcycle_stat_exits (E := toy_externals)
           hourly_pr hourly_pr "pr" "diurnal cycle"
           (configured "diurnal cycle" [("dcycle stat", PStr "mean")])
           (PStr "mean") PNone PNone eq_refl eq_refl eq_refl eq_refl eq_refl).
Defined.



(** ** Precipitation in the frequency-intensity distribution *)


(** X16.  For the variable ['pr'], whenever [freq_int_dist] returns, the
    kernel is given a dataset that holds only ['pr'], on the same time
    axis, with every negative value set to 0.0 and every other value
    (NaN included) kept, so no value left is negative; the bin edges are
    those computed from the data as given. *)
Theorem freq_int_dist_cleans_pr
        {E : Externals} (data : Dataset) (stat : string)
        (stat_config : dict) (st : StatData) :
  outcome (freq_int_dist data "pr" stat stat_config) = Ok st ->
  exists (bins_cfg norm thr dry : pyval) (bins : list float) (f : field),
    config_get stat_config stat "bins" = Ok bins_cfg /\
    freq_int_dist_bins data "pr" bins_cfg = Ok bins /\
    ds_getvar data "pr" = Ok f /\
    st_body st =
      XUfunc (K_pdf bins norm thr dry) "pr" None "bins"
             (Z.of_nat (List.length bins) - 1 + 1)
             (XData (mkDataset (ds_time data) [("pr", clip_negative f)] [])) /\
    forall p x, In p (clip_negative f) -> In x p ->
                isnan x = true \/ PrimFloat.leb 0 x = true.
Proof.
  intros H. unfold freq_int_dist in H.
  returned H bins_cfg Hcfg. returned H bins Hbins.
  returned H in_thr Hin_thr. returned H thr Hthr.
  returned H in_dry Hin_dry. returned H dry Hdry.
  returned H normalized Hnormalized. returned H norm Hnorm.
  cbn [String.eqb Ascii.eqb Bool.eqb] in H.
  returned H cleaned Hcleaned. returned Hcleaned f Hf.
  returned H f' Hf'.
  cbn [outcome ret snd] in Hcleaned, H.
  injection Hcleaned as <-. injection H as <-.
  exists bins_cfg, norm, thr, dry, bins, f. cbn [st_body].
  repeat split; try assumption.
  intros p x Hp Hx. unfold clip_negative in Hp.
  apply in_map_iff in Hp as [p0 [<- _]].
  apply in_map_iff in Hx as [x0 [<- _]].
  destruct (isnan x0) eqn:Hnan; cbn [orb negb]; [now left |].
  destruct (PrimFloat.leb 0 x0) eqn:Hle; cbn [negb]; [now right |].
  right. reflexivity.
Qed.

Lemma freq_int_dist_cleans_pr_witness :
  exists st,
    outcome (freq_int_dist (E := toy_externals) hourly_pr "pr" "pdf"
               (configured "pdf" [("bins", PDict [])])) = Ok st /\
    exists (bins_cfg norm thr dry : pyval) (bins : list float) (f : field),
      config_get (configured "pdf" [("bins", PDict [])]) "pdf" "bins"
        = Ok bins_cfg /\
      freq_int_dist_bins hourly_pr "pr" bins_cfg = Ok bins /\
      ds_getvar hourly_pr "pr" = Ok f /\
      st_body st =
        XUfunc (K_pdf bins norm thr dry) "pr" None "bins"
               (Z.of_nat (List.length bins) - 1 + 1)
               (XData (mkDataset (ds_time hourly_pr)
                                 [("pr", clip_negative f)] [])) /\
      forall p x, In p (clip_negative f) -> In x p ->
                  isnan x = true \/ PrimFloat.leb 0 x = true.
Proof.
  eexists. split; [reflexivity |].
  apply (freq_int_dist_cleans_pr (E := toy_externals) hourly_pr "pdf"
           (configured "pdf" [("bins", PDict [])]) _ eq_refl).
Defined.

(** ** The bins of ASoP *)

Lemma for_each_appends {A B} (f : A -> res B) :
  forall (xs : list A) (acc r : list B),
    outcome (for_each xs
               (fun acc n => bind (lift (f n))
                               (fun b => ret (acc ++ [b])%list)) acc) = Ok r ->
    exists bs, r = (acc ++ bs)%list /\ Forall2 (fun n b => f n = Ok b) xs bs.
Proof.
  induction xs as [| x xs IH]; intros acc r H.
  - cbn in H. injection H as <-. exists []. split; [now rewrite app_nil_r |].
    constructor.
  - cbn [for_each] in H. rewrite outcome_bind in H.
    destruct (f x) as [b |] eqn:Hb; [| discriminate H].
    rewrite bind_lift_ok in H. cbn [outcome ret snd] in H.
    apply IH in H as [bs [-> Hbs]].
    exists (b :: bs). split; [now rewrite <- app_assoc |].
    now constructor.
Qed.

(** X17.  Whenever [asop] returns, the bin edges are 0.0 followed by
    [bins_calc(n)] for every bin number [n] of [arange(nr_bins)] (of
    [arange(50)] when ['nr_bins'] is [None]), and the declared axes are 2
    factors and as many bins as bin numbers, one less than the edges. *)
Theorem asop_bin_edges
        {E : Externals} {Sb : Siblings} (data : Dataset) (var stat : string)
        (stat_config : dict) (st : StatExt) :
  outcome (asop data var stat stat_config) = Ok st ->
  exists (nr_cfg : pyval) (nr_bins : list pyval) (edges : list float),
    config_get stat_config stat "nr_bins" = Ok nr_cfg /\
    arange_count (if is_none nr_cfg then PInt 50 else nr_cfg) = Ok nr_bins /\
    Forall2 (fun n b => bins_calc n = Ok b) nr_bins edges /\
    se_body st =
      XSibling (K_asop (0%float :: edges)) var
               [("factors", 2); ("bins", Z.of_nat (List.length nr_bins))]
               data /\
    se_coords st =
      [("bin_edges", PFloat 0 :: map PFloat edges);
       ("factors", [PStr "C"; PStr "FC"])].
Proof.
  intros H. unfold asop in H.
  returned H nr_cfg Hcfg. returned H nr_bins Hnr.
  returned H bins Hbins. apply for_each_appends in Hbins as [edges [-> Hedges]].
  returned H in_thr Hin_thr. returned H thr Hthr. returned H f Hf.
  cbn [outcome ret snd] in H. injection H as <-.
  exists nr_cfg, nr_bins, edges. cbn [se_body se_coords app].
  split; [assumption |]. split; [now destruct (is_none nr_cfg) |].
  split; [assumption |]. split; [| reflexivity].
  assert (Hsize : Z.of_nat (List.length (0%float :: edges)) - 1
                  = Z.of_nat (List.length nr_bins)).
  { rewrite (Forall2_length Hedges). cbn [Datatypes.length]. lia. }
  rewrite <- Hsize. reflexivity.
Qed.

Lemma asop_bin_edges_witness :
  exists st,
    outcome (asop (E := toy_externals) (Sb := toy_siblings) hourly_pr "pr"
               "asop" (configured "asop" [("nr_bins", PInt 3)])) = Ok st /\
    exists (nr_cfg : pyval) (nr_bins : list pyval) (edges : list float),
      config_get (configured "asop" [("nr_bins", PInt 3)]) "asop" "nr_bins"
        = Ok nr_cfg /\
      arange_count (if is_none nr_cfg then PInt 50 else nr_cfg) = Ok nr_bins /\
      Forall2 (fun n b => bins_calc (Siblings := toy_siblings) n = Ok b)
              nr_bins edges /\
      se_body st =
        XSibling (K_asop (0%float :: edges)) "pr"
                 [("factors", 2); ("bins", Z.of_nat (List.length nr_bins))]
                 hourly_pr /\
      se_coords st =
        [("bin_edges", PFloat 0 :: map PFloat edges);
         ("factors", [PStr "C"; PStr "FC"])].
Proof.
  eexists. split; [reflexivity |].
  apply (asop_bin_edges (E := toy_externals) (Sb := toy_siblings) hourly_pr
           "pr" "asop" (configured "asop" [("nr_bins", PInt 3)]) _ eq_refl).
Defined.

(** ** The histogram mode of the diurnal cycle *)

(** X18.  In amount mode with a stat method that names ['pdf'],
    [diurnal_cycle] raises [TypeError] when ['method kwargs'] is [None]
    (its default), and [AssertionError] when it is a mapping without
    ['bins']. *)
Theorem diurnal_cycle_pdf_needs_bins
        {E : Externals} (data data' : Dataset) (var stat : string)
        (stat_config : dict) (s : string) (in_thr thr kwargs : pyval) :
  config_get stat_config stat "dcycle stat" = Ok (PStr "amount") ->
  config_get stat_config stat "stat method" = Ok (PStr s) ->
  str_contains "percentile" s = false ->
  str_contains "pdf" s = true ->
  config_get stat_config stat "thr" = Ok in_thr ->
  apply_threshold in_thr var data = Ok (thr, data') ->
  config_get stat_config stat "method kwargs" = Ok kwargs ->
  (kwargs = PNone ->
   outcome (diurnal_cycle data var stat stat_config) = Raise TypeError) /\
  (forall d, kwargs = PDict d -> dict_mem d "bins" = false ->
   outcome (diurnal_cycle data var stat stat_config) = Raise AssertionError).
Proof.
  intros Hstat Hmethod Hpctl Hpdf Hthr Hmask Hkw.
  assert (Hrun : outcome (diurnal_cycle data var stat stat_config) =
                 match py_in "bins" kwargs with
                 | Raise e => Raise e
                 | Ok false => Raise AssertionError
                 | Ok true =>
                     outcome (diurnal_cycle data var stat stat_config)
                 end).
  { destruct (py_in "bins" kwargs) as [[] |] eqn:Hin; [reflexivity | |];
      unfold diurnal_cycle;
      rewrite outcome_bind, outcome_lift, Hstat;
      rewrite outcome_bind, outcome_lift, Hthr;
      rewrite outcome_bind, outcome_lift, Hmask;
      destruct (check_hours_returns data') as [ds Hds];
      rewrite outcome_bind, Hds;
      rewrite outcome_bind;
      cbn [py_eqb_str String.eqb Ascii.eqb Bool.eqb];
      rewrite outcome_bind, outcome_lift, Hmethod;
      rewrite outcome_bind, outcome_lift; cbn [py_in]; rewrite Hpctl;
      rewrite outcome_bind, outcome_bind, outcome_lift; rewrite Hpdf;
      rewrite outcome_bind, outcome_lift, Hkw;
      rewrite outcome_bind, outcome_lift, Hin; reflexivity. }
  split.
  - intros ->. rewrite Hrun. reflexivity.
  - intros d -> Hd. rewrite Hrun. cbn [py_in]. now rewrite Hd.
Qed.

Lemma diurnal_cycle_pdf_needs_bins_witness :
  outcome (diurnal_cycle (E := toy_externals) hourly_pr "pr" "diurnal cycle"
             (configured "diurnal cycle" [("stat method", PStr "pdf")]))
  = Raise TypeError.
Proof.
  apply (diurnal_cycle_pdf_needs_bins (E := toy_externals)
           hourly_pr hourly_pr "pr" "diurnal cycle"
           (configured "diurnal cycle" [("stat method", PStr "pdf")])
           "pdf" PNone PNone PNone
           eq_refl eq_refl eq_refl eq_refl eq_refl eq_refl eq_refl).
  reflexivity.
Defined.



(** ** Event duration analysis *)

(** X19.  [eda_calc] returns only when neither ['duration bins'] nor
    ['statistic bins'] is [None]; the declared axes are then one less than
    the number of statistic bins, and the number of duration bins, plus
    one when dry events are asked for. *)
Theorem eda_calc_needs_bins
        {E : Externals} (data : Dataset) (var stat : string)
        (stat_config : dict) (st : StatExt) :
  outcome (eda_calc data var stat stat_config) = Ok st ->
  exists (event_stat dur_bins st_bins dry dry_bins thr : pyval),
    config_get stat_config stat "duration bins" = Ok dur_bins /\
    config_get stat_config stat "statistic bins" = Ok st_bins /\
    config_get stat_config stat "dry events" = Ok dry /\
    config_get stat_config stat "event thr" = Ok thr /\
    dur_bins <> PNone /\ st_bins <> PNone /\
    se_body st =
      XSibling (K_eda thr dur_bins event_stat st_bins dry dry_bins) var
               [("frequency", np_size st_bins - 1);
                ("duration", if py_truthy dry then np_size dur_bins + 1
                             else np_size dur_bins)]
               data.
Proof.
  intros H. unfold eda_calc in H.
  returned H event_stat Hevent. returned H dur_bins Hdur.
  returned H st_bins Hst. returned H dry Hdry. returned H dry_bins Hdb.
  returned H dur_size Hdsize. returned H st_size Hssize.
  returned H thr Hthr. returned H f Hf.
  cbn [outcome ret snd] in H. injection H as <-.
  unfold array_size in Hdsize, Hssize.
  destruct (is_none dur_bins) eqn:Hn1; [discriminate |].
  destruct (is_none st_bins) eqn:Hn2; [discriminate |].
  injection Hdsize as <-. injection Hssize as <-.
  exists event_stat, dur_bins, st_bins, dry, dry_bins, thr.
  cbn [se_body]. repeat split; try assumption.
  - intros ->. discriminate.
  - intros ->. discriminate.
Qed.

Lemma eda_calc_needs_bins_witness :
  exists st,
    outcome (eda_calc (E := toy_externals) hourly_pr "pr"
               "eda" (configured "eda" [])) = Ok st /\
    exists (event_stat dur_bins st_bins dry dry_bins thr : pyval),
      config_get (configured "eda" []) "eda" "duration bins" = Ok dur_bins /\
      config_get (configured "eda" []) "eda" "statistic bins" = Ok st_bins /\
      config_get (configured "eda" []) "eda" "dry events" = Ok dry /\
      config_get (configured "eda" []) "eda" "event thr" = Ok thr /\
      dur_bins <> PNone /\ st_bins <> PNone /\
      se_body st =
        XSibling (K_eda thr dur_bins event_stat st_bins dry dry_bins) "pr"
                 [("frequency", np_size st_bins - 1);
                  ("duration", if py_truthy dry then np_size dur_bins + 1
                               else np_size dur_bins)]
                 hourly_pr.
Proof.
  eexists. split; [reflexivity |].
  apply (eda_calc_needs_bins (E := toy_externals)
           hourly_pr "pr" "eda" (configured "eda" []) _ eq_refl).
Defined.

(** ** The histogram kernel without edges *)

(** X20.  Without bin edges (the default [bins=None], read as ten bins)
    the normalized mode of [_pdf_calc] never returns on data that hold a
    non-missing value. *)
Theorem pdf_calc_normalized_needs_edges
        (data : ndarray float) (thr dry_event_thr : pyval) :
  forallb isnan (ravel data) = false ->
  exists e,
    outcome (_pdf_calc data None true false thr dry_event_thr) = Raise e.
Proof.
  intros Hdata. unfold _pdf_calc. cbv beta iota zeta.
  rewrite outcome_bind. unfold _pdf_calc_compute. rewrite Hdata.
  rewrite outcome_bind, outcome_lift.
  destruct (opt_float dry_event_thr); [| eexists; reflexivity].
  rewrite outcome_bind, outcome_lift.
  destruct (opt_float thr); eexists; reflexivity.
Qed.

Lemma pdf_calc_normalized_needs_edges_witness :
  exists e,
    outcome (_pdf_calc (Vec [1; 2; 3]%float) None true false PNone PNone)
    = Raise e.
Proof.
  apply (pdf_calc_normalized_needs_edges (Vec [1; 2; 3]%float) PNone PNone).
  reflexivity.
Defined.



(** ** The two ways of masking below a threshold *)

Lemma SFcompare_antisym (a b : SpecFloat.spec_float) :
  SpecFloat.SFcompare b a = option_map CompOpp (SpecFloat.SFcompare a b).
Proof.
  destruct a as [sa | sa | | sa ma ea], b as [sb | sb | | sb mb eb];
    cbn [SpecFloat.SFcompare option_map CompOpp];
    try reflexivity;
    try (destruct sa; reflexivity);
    try (destruct sb; reflexivity);
    try (destruct sa, sb; reflexivity).
  destruct sa, sb; cbn [option_map CompOpp]; try reflexivity;
    rewrite (Z.compare_antisym ea eb);
    destruct (ea ?= eb) eqn:Hc; cbn [CompOpp]; try reflexivity;
    fold (Pos.compare ma mb); fold (Pos.compare mb ma);
    rewrite (Pos.compare_antisym ma mb);
    destruct (ma ?= mb)%positive; reflexivity.
Qed.

Lemma isnan_spec (x : float) :
  isnan x = true <-> Prim2SF x = SpecFloat.S754_nan.
Proof.
  unfold isnan. rewrite eqb_spec. unfold SpecFloat.SFeqb.
  destruct (Prim2SF x) as [s | s | | s m e] eqn:Hx;
    cbn [SpecFloat.SFcompare].
  - split; discriminate.
  - destruct s; split; discriminate.
  - split; reflexivity.
  - assert (He : (e ?= e) = Eq) by apply Z.compare_refl.
    assert (Hm : Pos.compare_cont Eq m m = Eq) by apply Pos.compare_refl.
    destruct s; rewrite He, Hm; split; discriminate.
Qed.

Lemma isnan_is_nan (x : float) : isnan x = true -> x = nan.
Proof.
  intros H. apply isnan_spec in H.
  rewrite <- (SF2Prim_Prim2SF x), H. reflexivity.
Qed.

Lemma mask_below_strict (t x : float) :
  isnan t = false ->
  (if PrimFloat.ltb x t then nan else x) =
  (if PrimFloat.leb t x then x else nan).
Proof.
  intros Ht.
  destruct (isnan x) eqn:Hx.
  - apply isnan_is_nan in Hx. subst x.
    now destruct (PrimFloat.ltb nan t), (PrimFloat.leb t nan).
  - rewrite ltb_spec, leb_spec. unfold SpecFloat.SFltb, SpecFloat.SFleb.
    rewrite (SFcompare_antisym (Prim2SF x) (Prim2SF t)).
    destruct (SpecFloat.SFcompare (Prim2SF x) (Prim2SF t)) as [[] |] eqn:Hc;
      cbn [option_map CompOpp]; try reflexivity.
    exfalso.
    assert (Hnx : Prim2SF x <> SpecFloat.S754_nan)
      by (intros Hn; apply isnan_spec in Hn; congruence).
    assert (Hnt : Prim2SF t <> SpecFloat.S754_nan)
      by (intros Hn; apply isnan_spec in Hn; congruence).
    destruct (Prim2SF x) as [sa | sa | | sa ma ea],
             (Prim2SF t) as [sb | sb | | sb mb eb];
      cbn [SpecFloat.SFcompare] in Hc; try discriminate; try congruence;
      try (destruct sa; discriminate); try (destruct sb; discriminate);
      try (destruct sa, sb; discriminate).
Qed.

(** X21.  For a threshold that is not NaN, the array [_percentile_func]
    leaves behind after masking in place holds the same values as the
    variable after the threshold block [data.where(data[var] >= thr)] of
    the statistics. *)
Theorem percentile_mask_agrees_with_where
        {E : Externals} (h : heap) (arr : nat) (q : list float)
        (d : dict) (var : string) (data : Dataset) (thr : pyval) (t : float) :
  (arr < List.length h)%nat ->
  dict_find d var = Some thr ->
  as_float thr = Ok t ->
  isnan t = false ->
  ds_getvar data var = Ok (heap_get h arr) ->
  exists h' pctl data',
    _percentile_func h arr q thr = Ok (h', pctl) /\
    apply_threshold (PDict d) var data = Ok (thr, data') /\
    ds_getvar data' var = Ok (heap_get h' arr).
Proof.
  intros Harr Hd Ht Hnan Hf.
  destruct (where_masks_below d var data thr t _ Hd Ht Hf)
    as [data' [Hmask [_ Hvar]]].
  assert (Hnone : is_none thr = false)
    by (destruct thr; try discriminate; reflexivity).
  unfold _percentile_func. rewrite Hnone, Ht. cbn [negb].
  eexists _, _, data'. split; [reflexivity |]. split; [exact Hmask |].
  rewrite heap_get_set by exact Harr. rewrite Hvar. f_equal.
  unfold mask_below. apply map_ext_eq. intros p. apply map_ext_eq. intros x.
  symmetry. now apply mask_below_strict.
Qed.

Lemma percentile_mask_agrees_with_where_witness :
  exists h' pctl data',
    _percentile_func (E := toy_externals) [[[0; 5; 9; 1]%float]] 0
                     [95%float] (PFloat 5) = Ok (h', pctl) /\
    apply_threshold (PDict [("pr", PFloat 5)]) "pr" hourly_pr
      = Ok (PFloat 5, data') /\
    ds_getvar data' "pr" = Ok (heap_get h' 0).
Proof.
  apply (percentile_mask_agrees_with_where (E := toy_externals)
           [[[0; 5; 9; 1]%float]] 0 [95%float] [("pr", PFloat 5)] "pr"
           hourly_pr (PFloat 5) 5%float);
    [simpl; lia | reflexivity | reflexivity | reflexivity | reflexivity].
Defined.



(** ** Masking twice *)




